(** * The MercadoPago payment library: validator, preference builder,
     service and webhook handler

    A shallow embedding of [validators/PaymentValidator.ts],
    [builders/MercadoPagoBuilder.ts], [MercadoPagoService.ts] and
    [webhooks/MercadoPagoWebhookHandler.ts], and the properties of these
    four components.

    Conventions of the embedding.
    - A JavaScript string is held as the bytes of its UTF-8 encoding (a Rocq
      [string]): this is what [request.text()] decodes and what [createHmac]
      hashes.  [length] counts UTF-16 code units, as the engine does.
    - A [number] is an IEEE 754 double ([JS.JSNumber]), added and multiplied
      with the rounding of the standard; the two zeros are identified, which
      no operation of the library tells apart.
    - The types of the source are erased at run time: a payload, an event
      and the request that the builder holds are values ([JS.JSValue]), read
      property by property as the engine reads them.
    - A [Date] is its time value; [toISOString] renders it, and throws a
      RangeError on an invalid date.
    - A statement that can throw is a [completion]: [Return v] or [Throw e].
    - What the code reads from its environment (the clock, the provider's
      API) is an explicit argument; a reading of the clock is a time value,
      a whole number of milliseconds. *)

From Stdlib Require Import ZArith String Ascii List Lia Bool DecimalString.
From stdpp Require Import gmap strings.
Import ListNotations.
Local Open Scope Z_scope.
Set Warnings "-register-all".

(** * Node's [crypto]: SHA-256 (FIPS 180-4) and HMAC (RFC 2104) *)

Module Crypto.

Definition mask32 : Z := 0xFFFFFFFF.
Definition add32 (a b : Z) : Z := Z.land (a + b) mask32.
Definition rotr (n x : Z) : Z :=
  Z.lor (Z.shiftr x n) (Z.land (Z.shiftl x (32 - n)) mask32).
Definition not32 (x : Z) : Z := Z.lxor x mask32.

Definition Ch (x y z : Z) : Z := Z.lxor (Z.land x y) (Z.land (not32 x) z).
Definition Maj (x y z : Z) : Z :=
  Z.lxor (Z.lxor (Z.land x y) (Z.land x z)) (Z.land y z).
Definition Sigma0 (x : Z) : Z := Z.lxor (Z.lxor (rotr 2 x) (rotr 13 x)) (rotr 22 x).
Definition Sigma1 (x : Z) : Z := Z.lxor (Z.lxor (rotr 6 x) (rotr 11 x)) (rotr 25 x).
Definition sigma0 (x : Z) : Z := Z.lxor (Z.lxor (rotr 7 x) (rotr 18 x)) (Z.shiftr x 3).
Definition sigma1 (x : Z) : Z := Z.lxor (Z.lxor (rotr 17 x) (rotr 19 x)) (Z.shiftr x 10).

(* The constants of FIPS 180-4, 4.2.2 and 5.3.3: the first 32 bits of the
   fractional parts of the cube roots of the first 64 primes, and of the
   square roots of the first 8. *)
Fixpoint is_prime_from (fuel : nat) (d n : Z) : bool :=
  match fuel with
  | O => true
  | S fuel' =>
      if n <? d * d then true
      else if n mod d =? 0 then false
      else is_prime_from fuel' (d + 1) n
  end.

Fixpoint primes_from (fuel count : nat) (n : Z) : list Z :=
  match fuel, count with
  | O, _ | _, O => []
  | S fuel', S count' =>
      if is_prime_from 32 2 n then n :: primes_from fuel' count' (n + 1)
      else primes_from fuel' count (n + 1)
  end.

Definition first_primes (count : nat) : list Z := primes_from 512 count 2.

(* The largest r with r^3 <= n, found bit by bit from 2^bits down. *)
Fixpoint cube_root (bits : nat) (r n : Z) : Z :=
  match bits with
  | O => r
  | S bits' =>
      let r' := r + 2 ^ Z.of_nat bits' in
      cube_root bits' (if r' * r' * r' <=? n then r' else r) n
  end.

Definition K256 : list Z :=
  Eval vm_compute in
    List.map (fun p => Z.land (cube_root 40 0 (p * 2 ^ 96)) mask32) (first_primes 64).

Definition H256 : list Z :=
  Eval vm_compute in
    List.map (fun p => Z.land (Z.sqrt (p * 2 ^ 64)) mask32) (first_primes 8).

(* Padding of FIPS 180-4, 5.1.1: the bit 1, zero bytes up to 56 mod 64,
   then the length in bits as a 64-bit big-endian integer. *)
Fixpoint be_bytes (n : nat) (x : Z) : list Z :=
  match n with
  | O => []
  | S n' => Z.land (Z.shiftr x (8 * Z.of_nat n')) 0xFF :: be_bytes n' x
  end.

Definition pad (msg : list Z) : list Z :=
  let len := Z.of_nat (List.length msg) in
  let zeros := Z.to_nat ((55 - len) mod 64) in
  msg ++ [0x80] ++ List.repeat 0 zeros ++ be_bytes 8 (8 * len).

Fixpoint words_of_bytes (bs : list Z) : list Z :=
  match bs with
  | a :: b :: c :: d :: rest =>
      Z.lor (Z.shiftl a 24) (Z.lor (Z.shiftl b 16) (Z.lor (Z.shiftl c 8) d))
        :: words_of_bytes rest
  | _ => []
  end.

(* The message schedule, kept newest first: [w] holds W(t-1), W(t-2), ... *)
Definition next_word (w : list Z) : Z :=
  add32 (add32 (sigma1 (List.nth 1 w 0)) (List.nth 6 w 0))
        (add32 (sigma0 (List.nth 14 w 0)) (List.nth 15 w 0)).

Fixpoint extend (n : nat) (w : list Z) : list Z :=
  match n with
  | O => w
  | S n' => extend n' (next_word w :: w)
  end.

Definition schedule (block : list Z) : list Z :=
  List.rev (extend 48 (List.rev block)).

Record regs := Regs { ra : Z; rb : Z; rc : Z; rd : Z; re : Z; rf : Z; rg : Z; rh : Z }.

Definition round (r : regs) (kw : Z * Z) : regs :=
  let t1 := add32 (add32 (add32 (rh r) (Sigma1 (re r))) (Ch (re r) (rf r) (rg r)))
                  (add32 (fst kw) (snd kw)) in
  let t2 := add32 (Sigma0 (ra r)) (Maj (ra r) (rb r) (rc r)) in
  Regs (add32 t1 t2) (ra r) (rb r) (rc r) (add32 (rd r) t1) (re r) (rf r) (rg r).

Definition regs_of (h : list Z) : regs :=
  Regs (List.nth 0 h 0) (List.nth 1 h 0) (List.nth 2 h 0) (List.nth 3 h 0)
       (List.nth 4 h 0) (List.nth 5 h 0) (List.nth 6 h 0) (List.nth 7 h 0).

Definition list_of (r : regs) : list Z :=
  [ra r; rb r; rc r; rd r; re r; rf r; rg r; rh r].

Definition compress (h : list Z) (block : list Z) : list Z :=
  let r := List.fold_left round (List.combine K256 (schedule block)) (regs_of h) in
  List.map (fun p => add32 (fst p) (snd p)) (List.combine h (list_of r)).

Fixpoint blocks (n : nat) (ws : list Z) : list (list Z) :=
  match n with
  | O => []
  | S n' =>
      match ws with
      | [] => []
      | _ => List.firstn 16 ws :: blocks n' (List.skipn 16 ws)
      end
  end.

Definition sha256 (msg : list Z) : list Z :=
  let ws := words_of_bytes (pad msg) in
  let h := List.fold_left compress (blocks (List.length ws) ws) H256 in
  List.flat_map (be_bytes 4) h.

(* HMAC of RFC 2104 with block size 64. *)
Definition hmac_sha256 (key msg : list Z) : list Z :=
  let k0 := if Z.of_nat (List.length key) >? 64 then sha256 key else key in
  let k := k0 ++ List.repeat 0 (64 - List.length k0) in
  let ipad := List.map (fun b => Z.lxor b 0x36) k in
  let opad := List.map (fun b => Z.lxor b 0x5c) k in
  sha256 (opad ++ sha256 (ipad ++ msg)).

Definition bytes_of_string (s : string) : list Z :=
  List.map (fun c => Z.of_N (N_of_ascii c)) (list_ascii_of_string s).

Definition hex_digit (d : Z) : ascii :=
  if d <? 10 then ascii_of_N (Z.to_N (48 + d)) else ascii_of_N (Z.to_N (87 + d)).

Fixpoint hex (bs : list Z) : string :=
  match bs with
  | [] => EmptyString
  | b :: rest => String (hex_digit (Z.shiftr b 4)) (String (hex_digit (Z.land b 15)) (hex rest))
  end.

End Crypto.

(* createHmac('sha256', secret).update(message).digest('hex') *)
Definition createHmac_sha256_hex (secret message : string) : string :=
  Crypto.hex (Crypto.hmac_sha256 (Crypto.bytes_of_string secret)
                                 (Crypto.bytes_of_string message)).

(** * The JavaScript values the library handles *)

Module JS.

Local Infix "+++" := String.append (right associativity, at level 60).

(** ** Exceptions *)

Inductive JSError : Type :=
| Error (message : string)
| TypeError (message : string)
| SyntaxError (message : string)
| RangeError (message : string).

(* error.message *)
Definition message_of (e : JSError) : string :=
  match e with Error m | TypeError m | SyntaxError m | RangeError m => m end.

Inductive completion (A : Type) : Type :=
| Return (a : A)
| Throw (e : JSError).
Arguments Return {A} a.
Arguments Throw {A} e.

Definition bind {A B : Type} (c : completion A) (k : A -> completion B) : completion B :=
  match c with
  | Return a => k a
  | Throw e => Throw e
  end.

(* try { c } catch (error) { handler(error) } *)
Definition try_catch {A : Type} (c : completion A) (handler : JSError -> completion A)
  : completion A :=
  match c with
  | Return a => Return a
  | Throw e => handler e
  end.

Definition returns {A : Type} (c : completion A) : bool :=
  match c with Return _ => true | Throw _ => false end.

Notation "'do' x <- c ;; k" := (bind c (fun x => k))
  (at level 10, x name, c at level 99, k at level 200).

(** ** Strings *)

Definition code (c : ascii) : Z := Z.of_N (N_of_ascii c).
Definition bytes (s : string) : list Z := List.map code (list_ascii_of_string s).
Definition of_bytes (bs : list Z) : string :=
  string_of_list_ascii (List.map (fun b => ascii_of_N (Z.to_N b)) bs).

(* s.length: one code unit per character of the Basic Multilingual Plane,
   two per character beyond it (a four-byte sequence). *)
Definition units_of_byte (b : Z) : nat :=
  if b <? 0x80 then 1%nat
  else if b <? 0xC0 then 0%nat
  else if b <? 0xF0 then 1%nat
  else 2%nat.

Definition js_length (s : string) : nat :=
  List.fold_left (fun n b => (n + units_of_byte b)%nat) (bytes s) 0%nat.

(* The length in bytes of the white space or line terminator character that
   starts [bs], 0 when there is none (ECMA-262 12.2 and 12.3: TAB, LF, VT,
   FF, CR, SP, NBSP, U+1680, U+2000..U+200A, U+2028, U+2029, U+202F, U+205F,
   U+3000, U+FEFF). *)
Definition ws_len (bs : list Z) : nat :=
  match bs with
  | [] => 0%nat
  | a :: r =>
      if ((9 <=? a) && (a <=? 13)) || (a =? 32) then 1%nat
      else match r with
           | b :: c :: _ =>
               if (a =? 0xC2) && (b =? 0xA0) then 2%nat
               else if (a =? 0xE1) && (b =? 0x9A) && (c =? 0x80) then 3%nat
               else if (a =? 0xE2) && (b =? 0x80)
                       && (((0x80 <=? c) && (c <=? 0x8A)) || (c =? 0xA8) || (c =? 0xA9)
                           || (c =? 0xAF)) then 3%nat
               else if (a =? 0xE2) && (b =? 0x81) && (c =? 0x9F) then 3%nat
               else if (a =? 0xE3) && (b =? 0x80) && (c =? 0x80) then 3%nat
               else if (a =? 0xEF) && (b =? 0xBB) && (c =? 0xBF) then 3%nat
               else 0%nat
           | [b] => if (a =? 0xC2) && (b =? 0xA0) then 2%nat else 0%nat
           | [] => 0%nat
           end
  end.

Fixpoint trim_start (fuel : nat) (bs : list Z) : list Z :=
  match fuel with
  | O => bs
  | S fuel' =>
      match ws_len bs with
      | O => bs
      | n => trim_start fuel' (List.skipn n bs)
      end
  end.

Definition all_ws (bs : list Z) : bool :=
  match trim_start (List.length bs) bs with [] => true | _ => false end.

Fixpoint trim_end (bs : list Z) : list Z :=
  match bs with
  | [] => []
  | b :: r => if all_ws bs then [] else b :: trim_end r
  end.

(* s.trim() *)
Definition trim (s : string) : string :=
  let bs := bytes s in
  of_bytes (trim_end (trim_start (List.length bs) bs)).

(* /\s/.test(s) *)
Fixpoint has_ws (bs : list Z) : bool :=
  match bs with
  | [] => false
  | b :: r => match ws_len bs with O => has_ws r | _ => true end
  end.

(* s.split(sep) for a separator of one character. *)
Fixpoint split_chars (sep : ascii) (cur : list ascii) (s : list ascii) : list string :=
  match s with
  | [] => [string_of_list_ascii (List.rev cur)]
  | c :: r =>
      if Ascii.eqb c sep then string_of_list_ascii (List.rev cur) :: split_chars sep [] r
      else split_chars sep (c :: cur) r
  end.

Definition split (sep : ascii) (s : string) : list string :=
  split_chars sep [] (list_ascii_of_string s).

(* /^[^\s@]+@[^\s@]+\.[^\s@]+$/.test(s): one "@", no white space, something
   before the "@", and after it a "." that is neither first nor last. *)
Definition emailRegex_test (s : string) : bool :=
  match split "@" s with
  | [local; domain] =>
      negb (String.eqb local "") && negb (has_ws (bytes s))
      && existsb (fun c => Ascii.eqb c ".")
                 (List.removelast (List.tl (list_ascii_of_string domain)))
  | _ => false
  end.

(** ** Numbers *)

(* A Number is an IEEE 754 double.  A finite one is held by its exact value
   m * 2^e; the two zeros are identified. *)
Inductive JSNumber : Type :=
| NaN
| Infinity (negative : bool)
| Finite (m e : Z).

Definition num_is_zero (x : JSNumber) : bool :=
  match x with Finite m _ => m =? 0 | _ => false end.

(* !!x *)
Definition num_truthy (x : JSNumber) : bool :=
  match x with NaN => false | Infinity _ => true | Finite m _ => negb (m =? 0) end.

(* Number.isInteger(x) *)
Definition Number_isInteger (x : JSNumber) : bool :=
  match x with
  | Finite m e => if e >=? 0 then true else m mod 2 ^ (- e) =? 0
  | _ => false
  end.

(* x <= 0 *)
Definition num_le0 (x : JSNumber) : bool :=
  match x with
  | NaN => false
  | Infinity negative => negative
  | Finite m _ => m <=? 0
  end.

(* The finite number m * 2^e with its mantissa made odd, so that equal values
   are equal terms. *)
Fixpoint odd_part (p : positive) (e : Z) : positive * Z :=
  match p with
  | xO p' => odd_part p' (e + 1)
  | _ => (p, e)
  end.

Definition finite (m e : Z) : JSNumber :=
  match m with
  | Z0 => Finite 0 0
  | Zpos p => let '(p', e') := odd_part p e in Finite (Zpos p') e'
  | Zneg p => let '(p', e') := odd_part p e in Finite (Zneg p') e'
  end.

Definition of_Z (z : Z) : JSNumber := finite z 0.

(* The double nearest to num/den (num, den > 0), ties to even. *)
Definition round_double (negative : bool) (num den : Z) : JSNumber :=
  if num <=? 0 then finite 0 0 else
  let l := Z.log2 num - Z.log2 den in
  let ge := if l >=? 0 then den * 2 ^ l <=? num else den <=? num * 2 ^ (- l) in
  let p := if ge then l else l - 1 in
  let u := Z.max (p - 52) (-1074) in
  let n' := if u >=? 0 then num else num * 2 ^ (- u) in
  let d' := if u >=? 0 then den * 2 ^ u else den in
  let q := n' / d' in
  let r := n' mod d' in
  let q' := if 2 * r <? d' then q
            else if d' <? 2 * r then q + 1
            else if Z.even q then q else q + 1 in
  if 2 ^ 1024 <=? q' * 2 ^ (Z.max u 0) then Infinity negative
  else finite (if negative then - q' else q') u.

(* Decimal digits of a non-negative integer, most significant first. *)
Definition decimal (z : Z) : string :=
  NilZero.string_of_uint (N.to_uint (Z.to_N z)).

Definition ndigits (z : Z) : Z := Z.of_nat (String.length (decimal z)).

(* The value of the decimal literal (-1)^negative * m * 10^e10, as JSON.parse
   and the Number constructor read it. *)
Definition of_decimal (negative : bool) (m e10 : Z) : JSNumber :=
  if m <=? 0 then finite 0 0
  else if 310 <? ndigits m + e10 then Infinity negative
  else if ndigits m + e10 <? -330 then finite 0 0
  else if e10 >=? 0 then round_double negative (m * 10 ^ e10) 1
  else round_double negative m (10 ^ (- e10)).

Definition num_eqb (x y : JSNumber) : bool :=
  match x, y with
  | Finite m1 e1, Finite m2 e2 =>
      let e := Z.min e1 e2 in m1 * 2 ^ (e1 - e) =? m2 * 2 ^ (e2 - e)
  | Infinity a, Infinity b => Bool.eqb a b
  | _, _ => false
  end.

Fixpoint strip_zeros_rev (l : list ascii) : list ascii :=
  match l with
  | "0"%char :: r => strip_zeros_rev r
  | _ => l
  end.

Definition strip_trailing_zeros (s : string) : string :=
  string_of_list_ascii (List.rev (strip_zeros_rev (List.rev (list_ascii_of_string s)))).

Definition zeros (n : Z) : string :=
  string_of_list_ascii (List.repeat "0"%char (Z.to_nat n)).

(* Number::toString, steps 5 to 10 of ECMA-262 6.1.6.1.20: the value is
   0.d1...dk * 10^n with digits [ds]. *)
Definition format_digits (ds : string) (n : Z) : string :=
  let k := Z.of_nat (String.length ds) in
  if (k <=? n) && (n <=? 21) then ds +++ zeros (n - k)
  else if (0 <? n) && (n <=? 21) then
    String.substring 0 (Z.to_nat n) ds +++ "." +++
    String.substring (Z.to_nat n) (Z.to_nat (k - n)) ds
  else if (-6 <? n) && (n <=? 0) then "0." +++ zeros (- n) +++ ds
  else
    let e := n - 1 in
    let es := (if e <? 0 then "-" else "+") +++ decimal (Z.abs e) in
    if k =? 1 then ds +++ "e" +++ es
    else String.substring 0 1 ds +++ "." +++
         String.substring 1 (Z.to_nat (k - 1)) ds +++ "e" +++ es.

(* The shortest digits that read back as the same double: for k = 1, 2, ...
   the two k-digit decimals around the value are tried, the nearer first. *)
Fixpoint shortest (fuel : nat) (k : Z) (x : JSNumber) (num den n : Z) : string * Z :=
  let snum := if k - n >=? 0 then num * 10 ^ (k - n) else num in
  let sden := if k - n >=? 0 then den else den * 10 ^ (n - k) in
  let lo := snum / sden in
  let r := snum mod sden in
  let back (d : Z) := if d <=? 0 then false
                      else num_eqb x (of_decimal false d (n - k)) in
  let pick (d : Z) := (strip_trailing_zeros (decimal d), n + (ndigits d - k)) in
  let near := if 2 * r <=? sden then lo else lo + 1 in
  let far := if 2 * r <=? sden then lo + 1 else lo in
  match fuel with
  | O => pick near
  | S fuel' =>
      if back near then pick near
      else if back far then pick far
      else shortest fuel' (k + 1) x num den n
  end.

Definition Number_toString (x : JSNumber) : string :=
  match x with
  | NaN => "NaN"
  | Infinity negative => if negative then "-Infinity" else "Infinity"
  | Finite m e =>
      if m =? 0 then "0" else
      let a := Z.abs m in
      let num := if e >=? 0 then a * 2 ^ e else a in
      let den := if e >=? 0 then 1 else 2 ^ (- e) in
      let n0 := ndigits num - ndigits den in
      let ge := if n0 >=? 0 then den * 10 ^ n0 <=? num else den <=? num * 10 ^ (- n0) in
      let n := if ge then n0 + 1 else n0 in
      let '(ds, n') := shortest 17 1 (Finite a e) num den n in
      (if m <? 0 then "-" else "") +++ format_digits ds n'
  end.

(** ** Arithmetic *)

(* The double nearest to the exact value m * 2^e. *)
Definition round_finite (m e : Z) : JSNumber :=
  match finite m e with
  | Finite m' e' =>
      if e' >=? 0 then round_double (m' <? 0) (Z.abs m' * 2 ^ e') 1
      else round_double (m' <? 0) (Z.abs m') (2 ^ (- e'))
  | other => other
  end.

(* x + y on two Numbers (ECMA-262 6.1.6.1.7) *)
Definition num_add (x y : JSNumber) : JSNumber :=
  match x, y with
  | NaN, _ | _, NaN => NaN
  | Infinity a, Infinity b => if Bool.eqb a b then Infinity a else NaN
  | Infinity a, Finite _ _ => Infinity a
  | Finite _ _, Infinity b => Infinity b
  | Finite m1 e1, Finite m2 e2 =>
      let e := Z.min e1 e2 in
      round_finite (m1 * 2 ^ (e1 - e) + m2 * 2 ^ (e2 - e)) e
  end.

(* x * y on two Numbers (ECMA-262 6.1.6.1.4) *)
Definition num_mul (x y : JSNumber) : JSNumber :=
  match x, y with
  | NaN, _ | _, NaN => NaN
  | Infinity a, Infinity b => Infinity (xorb a b)
  | Infinity a, Finite m _ => if m =? 0 then NaN else Infinity (xorb a (m <? 0))
  | Finite m _, Infinity b => if m =? 0 then NaN else Infinity (xorb (m <? 0) b)
  | Finite m1 e1, Finite m2 e2 => round_finite (m1 * m2) (e1 + e2)
  end.

(* n || fallback, for an optional number *)
Definition number_or (n : option JSNumber) (fallback : JSNumber) : JSNumber :=
  match n with
  | Some x => if num_truthy x then x else fallback
  | None => fallback
  end.

(** ** Dates *)

(* A Date holds a time value: a whole number of milliseconds since the epoch,
   or NaN, and the date is then invalid. *)
Definition Date : Type := option Z.

(* new Date(value), which clips the value (TimeClip, ECMA-262 21.4.1.31):
   beyond 8.64e15 milliseconds on either side the date is invalid, and a
   fraction of a millisecond is dropped. *)
Definition new_Date (value : JSNumber) : Date :=
  match value with
  | Finite m e =>
      let beyond := if e >=? 0 then 8640000000000000 <? Z.abs m * 2 ^ e
                    else 8640000000000000 * 2 ^ (- e) <? Z.abs m in
      if beyond then None
      else Some (if e >=? 0 then m * 2 ^ e else Z.quot m (2 ^ (- e)))
  | _ => None
  end.

(* date.getTime() *)
Definition getTime (date : Date) : JSNumber :=
  match date with
  | Some t => of_Z t
  | None => NaN
  end.

(* [z] written with at least [width] digits. *)
Definition padded (width : nat) (z : Z) : string :=
  let ds := decimal z in
  zeros (Z.of_nat (width - String.length ds)) +++ ds.

(* The year, the month and the day of the month of the day [days] after the
   first of January 1970, in the proleptic Gregorian calendar (21.4.1.3 to
   21.4.1.5), counted in eras of 400 years that start on a first of March. *)
Definition civil_from_days (days : Z) : Z * Z * Z :=
  let z := days + 719468 in
  let era := z / 146097 in
  let doe := z - era * 146097 in
  let yoe := (doe - doe / 1460 + doe / 36524 - doe / 146096) / 365 in
  let doy := doe - (365 * yoe + yoe / 4 - yoe / 100) in
  let mp := (5 * doy + 2) / 153 in
  let d := doy - (153 * mp + 2) / 5 + 1 in
  let m := if mp <? 10 then mp + 3 else mp - 9 in
  (yoe + era * 400 + (if m <=? 2 then 1 else 0), m, d).

(* YYYY-MM-DDTHH:mm:ss.sssZ, the year with a sign and six digits outside 0 to
   9999 (21.4.1.32 and 21.4.4.36). *)
Definition iso (t : Z) : string :=
  let '(year, month, day) := civil_from_days (t / 86400000) in
  let ms := t mod 86400000 in
  (if (0 <=? year) && (year <=? 9999) then padded 4 year
   else (if year <? 0 then "-" else "+") +++ padded 6 (Z.abs year))
  +++ "-" +++ padded 2 month +++ "-" +++ padded 2 day
  +++ "T" +++ padded 2 (ms / 3600000) +++ ":" +++ padded 2 (ms / 60000 mod 60)
  +++ ":" +++ padded 2 (ms / 1000 mod 60) +++ "." +++ padded 3 (ms mod 1000) +++ "Z".

(* date.toISOString() *)
Definition toISOString (date : Date) : completion string :=
  match date with
  | Some t => Return (iso t)
  | None => Throw (RangeError "Invalid time value")
  end.


(** ** Numeric literals *)

Definition is_digit (c : ascii) : bool := (48 <=? code c) && (code c <=? 57).

(* A run of digits: its value continued from [acc], how many there were, and
   what follows. *)
Fixpoint digits (acc : Z) (count : Z) (s : list ascii) : Z * Z * list ascii :=
  match s with
  | c :: r => if is_digit c then digits (10 * acc + (code c - 48)) (count + 1) r
              else (acc, count, s)
  | [] => (acc, count, s)
  end.

(* An exponent part, when there is one: e or E, a sign or none, and digits. *)
Definition parse_exponent (s : list ascii) : option (Z * list ascii) :=
  match s with
  | c :: r =>
      if (code c =? 101) || (code c =? 69) then
        let '(negative, r1) :=
          match r with
          | "-"%char :: r' => (true, r')
          | "+"%char :: r' => (false, r')
          | _ => (false, r)
          end in
        let '(e, count, r2) := digits 0 0 r1 in
        if count =? 0 then None else Some (if negative then - e else e, r2)
      else Some (0, s)
  | [] => Some (0, s)
  end.

Definition hex_value (c : ascii) : option Z :=
  let x := code c in
  if (48 <=? x) && (x <=? 57) then Some (x - 48)
  else if (97 <=? x) && (x <=? 102) then Some (x - 87)
  else if (65 <=? x) && (x <=? 70) then Some (x - 55)
  else None.

(* The value of a run of one or more digits in base 2, 8 or 16 that ends the
   text. *)
Fixpoint radix_digits (base acc : Z) (s : list ascii) : option Z :=
  match s with
  | [] => Some acc
  | c :: r =>
      match hex_value c with
      | Some d => if d <? base then radix_digits base (base * acc + d) r else None
      | None => None
      end
  end.

(* StrUnsignedDecimalLiteral: Infinity, or digits with a point and an exponent
   part or without; one digit at least before or after the point. *)
Definition unsigned_decimal (negative : bool) (s : list ascii) : JSNumber :=
  if String.eqb (string_of_list_ascii s) "Infinity" then Infinity negative else
  let '(int, icount, s1) := digits 0 0 s in
  let '(m, fcount, s2) :=
    match s1 with
    | "."%char :: r => digits int 0 r
    | _ => (int, 0, s1)
    end in
  if icount + fcount =? 0 then NaN else
  match parse_exponent s2 with
  | Some (e, []) => of_decimal negative m (e - fcount)
  | _ => NaN
  end.

(* StringToNumber (ECMA-262 7.1.4.1.1) of a text without white space around
   it. *)
Definition numeric_literal (s : list ascii) : JSNumber :=
  match s with
  | [] => Finite 0 0
  | "0"%char :: x :: ((_ :: _) as r) =>
      let base := if (code x =? 120) || (code x =? 88) then 16
                  else if (code x =? 111) || (code x =? 79) then 8
                  else if (code x =? 98) || (code x =? 66) then 2
                  else 0 in
      if base =? 0 then unsigned_decimal false s
      else match radix_digits base 0 r with
           | Some v => round_finite v 0
           | None => NaN
           end
  | "+"%char :: r => unsigned_decimal false r
  | "-"%char :: r => unsigned_decimal true r
  | _ => unsigned_decimal false s
  end.

Definition StringToNumber (s : string) : JSNumber :=
  numeric_literal (list_ascii_of_string (trim s)).

(** ** Values *)

(* What JSON.parse can return, and [undefined]. *)
Inductive JSValue : Type :=
| JUndefined
| JNull
| JBool (b : bool)
| JNumber (n : JSNumber)
| JString (s : string)
| JArray (elements : list JSValue)
| JObject (properties : list (string * JSValue)).

(* !!v *)
Definition truthy (v : JSValue) : bool :=
  match v with
  | JUndefined | JNull => false
  | JBool b => b
  | JNumber n => num_truthy n
  | JString s => negb (String.eqb s "")
  | JArray _ | JObject _ => true
  end.

(* a || b *)
Definition or_else (a b : JSValue) : JSValue := if truthy a then a else b.

(* v === undefined || v === null *)
Definition nullish (v : JSValue) : bool :=
  match v with JUndefined | JNull => true | _ => false end.

(* typeof v === 'string', typeof v === 'number' *)
Definition is_string (v : JSValue) : bool :=
  match v with JString _ => true | _ => false end.
Definition is_number (v : JSValue) : bool :=
  match v with JNumber _ => true | _ => false end.

(* Array.isArray(v) *)
Definition Array_isArray (v : JSValue) : bool :=
  match v with JArray _ => true | _ => false end.

(* Number.isInteger(v) *)
Definition isInteger (v : JSValue) : bool :=
  match v with JNumber n => Number_isInteger n | _ => false end.

(* An own property of an object that JSON.parse built: of two members with
   the same name the later one stays. *)
Fixpoint own_property (props : list (string * JSValue)) (key : string) : option JSValue :=
  match props with
  | [] => None
  | (k, v) :: rest =>
      match own_property rest key with
      | Some v' => Some v'
      | None => if String.eqb k key then Some v else None
      end
  end.

(* v.key and v[key], for the property names this library reads from a parsed
   value: none of them is defined on Object.prototype, Array.prototype or on
   the wrappers of the primitive values, so only an own property of an object
   can answer. *)
Definition get (v : JSValue) (key : string) : completion JSValue :=
  match v with
  | JUndefined =>
      Throw (TypeError ("Cannot read properties of undefined (reading '" +++ key +++ "')"))
  | JNull =>
      Throw (TypeError ("Cannot read properties of null (reading '" +++ key +++ "')"))
  | JObject props =>
      Return (match own_property props key with Some x => x | None => JUndefined end)
  | _ => Return JUndefined
  end.

(* v?.key *)
Definition get_optional (v : JSValue) (key : string) : JSValue :=
  match v with
  | JObject props => match own_property props key with Some x => x | None => JUndefined end
  | _ => JUndefined
  end.

(* ToString(v) of ECMA-262 7.1.17, as a template literal or a regular
   expression applies it.  An array joins its elements with ","; an object
   answers "[object Object]" through Object.prototype.toString, unless it has
   an own property "toString": a parsed value is never callable, and the
   conversion then ends in a TypeError. *)
Fixpoint ToString (v : JSValue) : completion string :=
  match v with
  | JUndefined => Return "undefined"
  | JNull => Return "null"
  | JBool b => Return (if b then "true" else "false")
  | JNumber n => Return (Number_toString n)
  | JString s => Return s
  | JArray elements =>
      (fix join (l : list JSValue) : completion string :=
         match l with
         | [] => Return ""
         | x :: rest =>
             bind (if nullish x then Return "" else ToString x) (fun s =>
             match rest with
             | [] => Return s
             | _ => bind (join rest) (fun t => Return (s +++ "," +++ t))
             end)
         end) elements
  | JObject props =>
      match own_property props "toString" with
      | Some _ => Throw (TypeError "Cannot convert object to primitive value")
      | None => Return "[object Object]"
      end
  end.

(* v?.toString(), [source] being the text of the expression v, which the
   engine quotes when the member is not callable. *)
Definition toString_optional (source : string) (v : JSValue) : completion JSValue :=
  if nullish v then Return JUndefined
  else match v with
       | JObject props =>
           match own_property props "toString" with
           | Some _ => Throw (TypeError (source +++ "?.toString is not a function"))
           | None => Return (JString "[object Object]")
           end
       | _ => bind (ToString v) (fun s => Return (JString s))
       end.

(* const { key, ... } = v, for the first property of the pattern: a value
   that is null or undefined cannot be destructured; [source] is the text of
   the expression v. *)
Definition destructure (source : string) (v : JSValue) (key : string) : completion JSValue :=
  match v with
  | JUndefined =>
      Throw (TypeError ("Cannot destructure property '" +++ key +++ "' of '" +++ source
                        +++ "' as it is undefined."))
  | JNull =>
      Throw (TypeError ("Cannot destructure property '" +++ key +++ "' of '" +++ source
                        +++ "' as it is null."))
  | _ => Return (get_optional v key)
  end.

(* v.method(...) for a method of arrays, reduce or map: the elements of the
   array it is called on.  Nothing else that JSON.parse returns has such a
   member that can be called; [source] is the text of the expression v. *)
Definition array_method (source method : string) (v : JSValue) : completion (list JSValue) :=
  match v with
  | JArray elements => Return elements
  | JUndefined =>
      Throw (TypeError ("Cannot read properties of undefined (reading '" +++ method +++ "')"))
  | JNull =>
      Throw (TypeError ("Cannot read properties of null (reading '" +++ method +++ "')"))
  | _ => Throw (TypeError (source +++ "." +++ method +++ " is not a function"))
  end.

(* ToPrimitive(v) of ECMA-262 7.1.1: an array or an object is converted by its
   toString, valueOf answering the object itself. *)
Definition ToPrimitive (v : JSValue) : completion JSValue :=
  match v with
  | JArray _ | JObject _ => do s <- ToString v ;; Return (JString s)
  | _ => Return v
  end.

(* ToNumber(v) of ECMA-262 7.1.4 *)
Definition ToNumber (v : JSValue) : completion JSNumber :=
  do primitive <- ToPrimitive v ;;
  match primitive with
  | JUndefined => Return NaN
  | JNull => Return (Finite 0 0)
  | JBool b => Return (if b then Finite 1 0 else Finite 0 0)
  | JNumber n => Return n
  | JString s => Return (StringToNumber s)
  | JArray _ | JObject _ => Return NaN
  end.

(* a * b *)
Definition times (a b : JSValue) : completion JSNumber :=
  do x <- ToNumber a ;;
  do y <- ToNumber b ;;
  Return (num_mul x y).

(* a + b: the concatenation when one side is a string once both are
   primitive values, the sum of the two numbers otherwise (13.15.3). *)
Definition plus (a b : JSValue) : completion JSValue :=
  do lprim <- ToPrimitive a ;;
  do rprim <- ToPrimitive b ;;
  if is_string lprim || is_string rprim then
    do lstr <- ToString lprim ;;
    do rstr <- ToString rprim ;;
    Return (JString (lstr +++ rstr))
  else
    do lnum <- ToNumber lprim ;;
    do rnum <- ToNumber rprim ;;
    Return (JNumber (num_add lnum rnum)).

(** ** JSON.parse (ECMA-404) *)

Fixpoint skip_ws (s : list ascii) : list ascii :=
  match s with
  | c :: r =>
      if (code c =? 32) || (code c =? 9) || (code c =? 10) || (code c =? 13)
      then skip_ws r else s
  | [] => []
  end.

Definition parse_number (s : list ascii) : option (JSNumber * list ascii) :=
  let '(negative, s1) :=
    match s with "-"%char :: r => (true, r) | _ => (false, s) end in
  let '(int, icount, s2) := digits 0 0 s1 in
  let leading_zero := match s1 with "0"%char :: _ => true | _ => false end in
  if (icount =? 0) || (leading_zero && (1 <? icount)) then None else
  let frac :=
    match s2 with
    | "."%char :: r =>
        let '(m, fcount, r') := digits int 0 r in
        if fcount =? 0 then None else Some (m, fcount, r')
    | _ => Some (int, 0, s2)
    end in
  match frac with
  | None => None
  | Some (m, fcount, s3) =>
      match parse_exponent s3 with
      | None => None
      | Some (e, s4) => Some (of_decimal negative m (e - fcount), s4)
      end
  end.

(* The characters of a string literal: a byte of the text, or the code unit
   of a \u escape. *)
Inductive string_item : Type :=
| Raw (b : Z)
| Unit16 (u : Z).

Fixpoint parse_chars (s : list ascii) (acc : list string_item)
  : option (list string_item * list ascii) :=
  match s with
  | [] => None
  | c :: r =>
      if code c =? 34 then Some (List.rev acc, r)
      else if code c =? 92 then
        match r with
        | [] => None
        | e :: r1 =>
            if code e =? 34 then parse_chars r1 (Raw 34 :: acc)
            else if code e =? 92 then parse_chars r1 (Raw 92 :: acc)
            else if code e =? 47 then parse_chars r1 (Raw 47 :: acc)
            else if code e =? 98 then parse_chars r1 (Raw 8 :: acc)
            else if code e =? 102 then parse_chars r1 (Raw 12 :: acc)
            else if code e =? 110 then parse_chars r1 (Raw 10 :: acc)
            else if code e =? 114 then parse_chars r1 (Raw 13 :: acc)
            else if code e =? 116 then parse_chars r1 (Raw 9 :: acc)
            else if code e =? 117 then
              match r1 with
              | a :: b :: c :: d :: r2 =>
                  match hex_value a, hex_value b, hex_value c, hex_value d with
                  | Some x3, Some x2, Some x1, Some x0 =>
                      parse_chars r2 (Unit16 (4096 * x3 + 256 * x2 + 16 * x1 + x0) :: acc)
                  | _, _, _, _ => None
                  end
              | _ => None
              end
            else None
        end
      else if code c <? 32 then None
      else parse_chars r (Raw (code c) :: acc)
  end.

(* UTF-8 of a code point; a surrogate on its own keeps its three bytes. *)
Definition utf8 (cp : Z) : list Z :=
  if cp <? 0x80 then [cp]
  else if cp <? 0x800 then [0xC0 + cp / 64; 0x80 + cp mod 64]
  else if cp <? 0x10000 then [0xE0 + cp / 4096; 0x80 + cp / 64 mod 64; 0x80 + cp mod 64]
  else [0xF0 + cp / 262144; 0x80 + cp / 4096 mod 64; 0x80 + cp / 64 mod 64; 0x80 + cp mod 64].

Fixpoint encode_items (l : list string_item) : list Z :=
  match l with
  | [] => []
  | Raw b :: rest => b :: encode_items rest
  | Unit16 hi :: rest =>
      match rest with
      | Unit16 lo :: rest' =>
          if (0xD800 <=? hi) && (hi <=? 0xDBFF) && (0xDC00 <=? lo) && (lo <=? 0xDFFF)
          then utf8 (0x10000 + (hi - 0xD800) * 1024 + (lo - 0xDC00)) ++ encode_items rest'
          else utf8 hi ++ encode_items rest
      | _ => utf8 hi ++ encode_items rest
      end
  end.

Definition parse_string (s : list ascii) : option (string * list ascii) :=
  match parse_chars s [] with
  | Some (items, r) => Some (of_bytes (encode_items items), r)
  | None => None
  end.

Fixpoint strip_prefix (p s : list ascii) : option (list ascii) :=
  match p, s with
  | [], _ => Some s
  | a :: p', b :: s' => if Ascii.eqb a b then strip_prefix p' s' else None
  | _ :: _, [] => None
  end.

(* One fuel unit is spent per value, element and member.  The characters
   are tested by their codes: 34 is the double quote, 44 the comma, 58 the
   colon, 91 and 93 the brackets, 123 and 125 the braces. *)
Fixpoint parse_value (fuel : nat) (s : list ascii) : option (JSValue * list ascii) :=
  match fuel with
  | O => None
  | S fuel' =>
      match skip_ws s with
      | [] => None
      | c :: r =>
          if code c =? 123 then
            match skip_ws r with
            | [] => None
            | c1 :: r1 =>
                if code c1 =? 125 then Some (JObject [], r1)
                else parse_members fuel' (c1 :: r1) []
            end
          else if code c =? 91 then
            match skip_ws r with
            | [] => None
            | c1 :: r1 =>
                if code c1 =? 93 then Some (JArray [], r1)
                else parse_elements fuel' (c1 :: r1) []
            end
          else if code c =? 34 then
            match parse_string r with
            | Some (str, r') => Some (JString str, r')
            | None => None
            end
          else if code c =? 116 then
            match strip_prefix (list_ascii_of_string "true") (c :: r) with
            | Some r' => Some (JBool true, r')
            | None => None
            end
          else if code c =? 102 then
            match strip_prefix (list_ascii_of_string "false") (c :: r) with
            | Some r' => Some (JBool false, r')
            | None => None
            end
          else if code c =? 110 then
            match strip_prefix (list_ascii_of_string "null") (c :: r) with
            | Some r' => Some (JNull, r')
            | None => None
            end
          else
            match parse_number (c :: r) with
            | Some (n, r') => Some (JNumber n, r')
            | None => None
            end
      end
  end
with parse_elements (fuel : nat) (s : list ascii) (acc : list JSValue)
  : option (JSValue * list ascii) :=
  match fuel with
  | O => None
  | S fuel' =>
      match parse_value fuel' s with
      | None => None
      | Some (v, r) =>
          match skip_ws r with
          | [] => None
          | c :: r' =>
              if code c =? 44 then parse_elements fuel' r' (v :: acc)
              else if code c =? 93 then Some (JArray (List.rev (v :: acc)), r')
              else None
          end
      end
  end
with parse_members (fuel : nat) (s : list ascii) (acc : list (string * JSValue))
  : option (JSValue * list ascii) :=
  match fuel with
  | O => None
  | S fuel' =>
      match skip_ws s with
      | [] => None
      | c :: r =>
          if code c =? 34 then
            match parse_string r with
            | None => None
            | Some (key, r1) =>
                match skip_ws r1 with
                | [] => None
                | c2 :: r2 =>
                    if code c2 =? 58 then
                      match parse_value fuel' r2 with
                      | None => None
                      | Some (v, r3) =>
                          match skip_ws r3 with
                          | [] => None
                          | c4 :: r4 =>
                              if code c4 =? 44 then parse_members fuel' r4 ((key, v) :: acc)
                              else if code c4 =? 125
                              then Some (JObject (List.rev ((key, v) :: acc)), r4)
                              else None
                          end
                      end
                    else None
                end
            end
          else None
      end
  end.

(* JSON.parse(text); a text that is not JSON throws a SyntaxError.  The fuel
   is not exhausted: between two units spent in a row at least one character
   of the text is consumed every second time. *)
Definition JSON_parse (text : string) : completion JSValue :=
  let s := list_ascii_of_string text in
  match parse_value (2 * List.length s + 2) s with
  | Some (v, r) =>
      match skip_ws r with
      | [] => Return v
      | _ => Throw (SyntaxError "Unexpected non-whitespace character after JSON")
      end
  | None => Throw (SyntaxError "Unexpected token in JSON")
  end.

End JS.

(** * validators/PaymentValidator.ts *)

Module PaymentValidator.
Import JS.
Local Infix "+++" := String.append (right associativity, at level 60).
Local Open Scope string_scope.

Record ValidationResult : Type := { isValid : bool; errors : list string }.

(* errors.push(message) and errors.push(...messages) *)
Definition push (errors : list string) (message : string) : list string :=
  List.app errors [message].
Definition push_all (errors messages : list string) : list string :=
  List.app errors messages.

Definition isValidEmail (email : JSValue) : completion bool :=
  do s <- ToString email ;;
  Return (emailRegex_test s).

(* The five checks of validatePaymentItem, each on the value of its
   property and the errors pushed so far. *)

(* Validar title (obligatorio) *)
Definition check_title (itemPrefix : string) (title : JSValue) (errors : list string)
  : list string :=
  if negb (truthy title) then push errors (itemPrefix +++ ": título es requerido")
  else match title with
       | JString t =>
           if (js_length (trim t) <? 3)%nat
           then push errors (itemPrefix +++ ": título debe tener al menos 3 caracteres")
           else errors
       | _ => push errors (itemPrefix +++ ": título debe ser una cadena de texto")
       end.

(* Validar quantity (obligatorio) *)
Definition check_quantity (itemPrefix : string) (quantity : JSValue) (errors : list string)
  : list string :=
  if nullish quantity then push errors (itemPrefix +++ ": cantidad es requerida")
  else if negb (isInteger quantity)
          || match quantity with JNumber q => num_le0 q | _ => false end
  then push errors (itemPrefix +++ ": cantidad debe ser un número entero mayor a 0")
  else errors.

(* Validar unit_price (obligatorio) *)
Definition check_unit_price (itemPrefix : string) (unit_price : JSValue)
    (errors : list string) : list string :=
  if nullish unit_price then push errors (itemPrefix +++ ": precio unitario es requerido")
  else if negb (is_number unit_price)
          || match unit_price with JNumber p => num_le0 p | _ => false end
  then push errors (itemPrefix +++ ": precio unitario debe ser un número mayor a 0")
  else if negb (isInteger unit_price)
  then push errors (itemPrefix +++ ": precio unitario debe ser un número entero")
  else errors.

(* Validar description (opcional, pero si está presente debe ser válida) *)
Definition check_description (itemPrefix : string) (description : JSValue)
    (errors : list string) : list string :=
  if negb (nullish description) then
    match description with
    | JString d =>
        if (0 <? js_length (trim d))%nat && (js_length (trim d) <? 5)%nat
        then push errors
               (itemPrefix +++ ": descripción debe tener al menos 5 caracteres o estar vacía")
        else errors
    | _ => push errors (itemPrefix +++ ": descripción debe ser una cadena de texto")
    end
  else errors.

(* Validar id (opcional, pero si está presente debe ser válido) *)
Definition check_id (itemPrefix : string) (id : JSValue) (errors : list string)
  : list string :=
  if negb (nullish id) then
    match id with
    | JString i =>
        if (js_length (trim i) =? 0)%nat
        then push errors (itemPrefix +++ ": id no puede estar vacío si se proporciona")
        else errors
    | _ => push errors (itemPrefix +++ ": id debe ser una cadena de texto")
    end
  else errors.

Definition validatePaymentItem (item : JSValue) (index : nat) : completion (list string) :=
  let errors : list string := [] in
  let itemPrefix := "Item " +++ decimal (Z.of_nat index + 1) in
  do title <- get item "title" ;;
  let errors := check_title itemPrefix title errors in
  do quantity <- get item "quantity" ;;
  let errors := check_quantity itemPrefix quantity errors in
  do unit_price <- get item "unit_price" ;;
  let errors := check_unit_price itemPrefix unit_price errors in
  do description <- get item "description" ;;
  let errors := check_description itemPrefix description errors in
  do id <- get item "id" ;;
  let errors := check_id itemPrefix id errors in
  Return errors.

(* data.items.forEach((item, index) => errors.push(...validatePaymentItem(item, index))) *)
Fixpoint forEach_item (items : list JSValue) (index : nat) (errors : list string)
  : completion (list string) :=
  match items with
  | [] => Return errors
  | item :: rest =>
      do itemErrors <- validatePaymentItem item index ;;
      forEach_item rest (S index) (push_all errors itemErrors)
  end.

Definition validate_customer_info (data : JSValue) (errors : list string)
  : completion (list string) :=
  do customer_info <- get data "customer_info" ;;
  if negb (truthy customer_info) then Return (push errors ("customer_info es requerido"))
  else
    do email <- get customer_info "email" ;;
    do errors <-
      (if negb (truthy email) then Return (push errors ("Email del cliente es requerido"))
       else
         do valid <- isValidEmail email ;;
         Return (if negb valid then push errors ("Email del cliente no es válido") else errors)) ;;
    do name <- get customer_info "name" ;;
    if negb (truthy name) then Return (push errors ("Nombre del cliente es requerido"))
    else match name with
         | JString n =>
             Return (if (js_length (trim n) <? 2)%nat
                     then push errors ("Nombre del cliente debe tener al menos 2 caracteres")
                     else errors)
         | _ => Throw (TypeError "data.customer_info.name.trim is not a function")
         end.

Definition validate_items (data : JSValue) (errors : list string)
  : completion (list string) :=
  do items <- get data "items" ;;
  if negb (truthy items) then Return (push errors ("items es requerido"))
  else match items with
       | JArray l =>
           if (List.length l =? 0)%nat
           then Return (push errors ("Debe incluir al menos un item"))
           else forEach_item l 0 errors
       | _ => Return (push errors ("items debe ser un array"))
       end.

Definition validatePaymentRequest (data : JSValue) : completion ValidationResult :=
  let errors : list string := [] in
  (* Validar customer_info *)
  do errors <- validate_customer_info data errors ;;
  (* Validar items array *)
  do errors <- validate_items data errors ;;
  Return {| isValid := (List.length errors =? 0)%nat; errors := errors |}.

End PaymentValidator.

(** * builders/MercadoPagoBuilder.ts *)

Module MercadoPagoBuilder.
Import JS.
Local Infix "+++" := String.append (right associativity, at level 60).

(** The builder holds the request as the value it is at run time: the types
    of the source are erased, and the service hands over the payload that it
    has validated ([requestData as PaymentRequest]).  What the builder makes
    of the request has the fields of the interfaces of the source: a field
    that is copied from the request holds a value, a field that the builder
    computes holds a number or a string.  The configuration is the one that
    the constructor was given under its type. *)

Record MercadoPagoConfig : Type := {
  accessToken : string;
  baseUrl : string;
  WEBHOOK_URL : string;
  timeout : option JSNumber;
  expirationTime : option JSNumber
}.

Record PreferenceItem : Type := {
  mp_id : JSValue;
  mp_title : JSValue;
  mp_description : JSValue;
  mp_quantity : JSValue;
  mp_unit_price : JSValue;
  mp_currency_id : string
}.

Record BackUrls : Type := { success : string; failure : string; pending : string }.

Record PaymentMethods : Type := {
  installments : Z;
  excluded_payment_types : list string
}.

Record Metadata : Type := {
  customer_email : JSValue;
  customer_name : JSValue;
  service_category : string;
  expiration_minutes : JSNumber;
  meta_created_at : string;
  meta_total_items : JSValue;
  meta_total_amount : JSNumber
}.

Record MercadoPagoPreferenceData : Type := {
  pref_items : list PreferenceItem;
  back_urls : BackUrls;
  auto_return : string;
  notification_url : string;
  payment_methods : PaymentMethods;
  date_of_expiration : string;
  metadata : Metadata
}.

Record OrderItem : Type := {
  item_id : JSValue;
  item_title : JSValue;
  item_description : JSValue;
  item_quantity : JSValue;
  item_unit_price : JSValue;
  total_price : JSNumber
}.

Record Order : Type := {
  order_id : string;
  order_customer_info : JSValue;
  order_items : list OrderItem;
  total_amount : JSNumber;
  total_items : JSValue;
  preference_id : string;
  status : string;
  created_at : string;
  expires_at : string
}.

Record OrderData : Type := {
  data_id : string;
  customer : JSValue;
  items_count : JSValue;
  data_total_amount : JSNumber;
  data_preference_id : string;
  full_order : Order
}.

(* The caller's callback.  As full_order it is handed the order of the builder
   itself, not a copy, and may change it: it answers the order as it leaves
   it, and whether it returns or throws (or rejects). *)
Definition SaveOrderCallback : Type := OrderData -> Order * completion unit.

(* What preference.create answers. *)
Record PreferenceResponse : Type := {
  response_id : option string;
  init_point : option string
}.

Record Builder : Type := {
  config : MercadoPagoConfig;
  preferenceData : option MercadoPagoPreferenceData;
  order : option Order;
  paymentRequest : option JSValue;
  paymentUrl : option string;
  saveOrderCallback : option SaveOrderCallback
}.

(* A method that returns [this]: the builder after the call, and the error
   when the call threw.  What a method assigned before it threw stays. *)
Definition outcome : Type := (Builder * option JSError)%type.

(* new MercadoPagoBuilder(config) *)
Definition new_builder (cfg : MercadoPagoConfig) : Builder :=
  {| config := cfg; preferenceData := None; order := None; paymentRequest := None;
     paymentUrl := None; saveOrderCallback := None |}.

Definition setPaymentRequest (request : JSValue) (b : Builder) : Builder :=
  {| config := config b; preferenceData := preferenceData b; order := order b;
     paymentRequest := Some request; paymentUrl := paymentUrl b;
     saveOrderCallback := saveOrderCallback b |}.

Definition setSaveOrderCallback (callback : SaveOrderCallback) (b : Builder) : Builder :=
  {| config := config b; preferenceData := preferenceData b; order := order b;
     paymentRequest := paymentRequest b; paymentUrl := paymentUrl b;
     saveOrderCallback := Some callback |}.

(* s || fallback, for an optional string *)
Definition string_or (s : option string) (fallback : string) : string :=
  match s with
  | Some x => if String.eqb x "" then fallback else x
  | None => fallback
  end.

(* !s, for an optional string *)
Definition missing (s : option string) : bool :=
  match s with
  | Some x => String.eqb x ""
  | None => true
  end.

(* array.reduce(callback, start), for a callback that may throw. *)
Fixpoint reduce {A B : Type} (callback : A -> B -> completion A) (l : list B) (sum : A)
  : completion A :=
  match l with
  | [] => Return sum
  | item :: rest => do sum' <- callback sum item ;; reduce callback rest sum'
  end.

(* (sum, item) => sum + (item.quantity * item.unit_price): the product is a
   number, and so is the sum, which starts from 0. *)
Definition add_amount (sum : JSNumber) (item : JSValue) : completion JSNumber :=
  do quantity <- get item "quantity" ;;
  do unit_price <- get item "unit_price" ;;
  do product <- times quantity unit_price ;;
  Return (num_add sum product).

(* (sum, item) => sum + item.quantity *)
Definition add_quantity (sum : JSValue) (item : JSValue) : completion JSValue :=
  do quantity <- get item "quantity" ;;
  plus sum quantity.

(* items.map((item, index) => ...), [date_now index] being what Date.now()
   answers while the item at [index] is mapped. *)
Fixpoint mercadoPagoItems (date_now : nat -> Z) (index : nat) (l : list JSValue)
  : completion (list PreferenceItem) :=
  match l with
  | [] => Return []
  | item :: rest =>
      do id <- get item "id" ;;
      let id :=
        or_else id (JString ("item_" +++ Number_toString (of_Z (date_now index)) +++ "_"
                             +++ decimal (Z.of_nat index))) in
      do title <- get item "title" ;;
      do description <- get item "description" ;;
      let description := or_else description title in
      do quantity <- get item "quantity" ;;
      do unit_price <- get item "unit_price" ;;
      do others <- mercadoPagoItems date_now (S index) rest ;;
      Return ({| mp_id := id;
                 mp_title := title;
                 mp_description := description;
                 mp_quantity := quantity;
                 mp_unit_price := unit_price;
                 mp_currency_id := "COP" |} :: others)
  end.

(* The preference of buildPreference; [now] is the time value of new Date(). *)
Definition preference_of (cfg : MercadoPagoConfig) (now : Z) (date_now : nat -> Z)
    (request : JSValue) : completion MercadoPagoPreferenceData :=
  do items <- get request "items" ;;
  do customer_info <- get request "customer_info" ;;
  let now : Date := Some now in
  let expiration_in_minutes := number_or (expirationTime cfg) (of_Z 20) in
  let expirationDate :=
    new_Date (num_add (getTime now)
                      (num_mul (num_mul expiration_in_minutes (of_Z 60)) (of_Z 1000))) in
  (* Calcular totales *)
  do elements <- array_method "items" "reduce" items ;;
  do totalAmount <- reduce add_amount elements (of_Z 0) ;;
  do totalItems <- reduce add_quantity elements (JNumber (of_Z 0)) ;;
  (* Construir items para MercadoPago *)
  do mercadoPagoItems <- mercadoPagoItems date_now 0 elements ;;
  do date_of_expiration <- toISOString expirationDate ;;
  do customer_email <- get customer_info "email" ;;
  do customer_name <- get customer_info "name" ;;
  do created_at <- toISOString now ;;
  Return
    {| pref_items := mercadoPagoItems;
       back_urls := {| success := baseUrl cfg +++ "/payment/success";
                       failure := baseUrl cfg +++ "/payment/failure";
                       pending := baseUrl cfg +++ "/payment/success" |};
       auto_return := "approved";
       notification_url := WEBHOOK_URL cfg;
       payment_methods := {| installments := 1; excluded_payment_types := ["ticket"%string] |};
       date_of_expiration := date_of_expiration;
       metadata := {| customer_email := customer_email;
                      customer_name := customer_name;
                      service_category := "web_development";
                      expiration_minutes := expiration_in_minutes;
                      meta_created_at := created_at;
                      meta_total_items := totalItems;
                      meta_total_amount := totalAmount |} |}.

Definition buildPreference (now : Z) (date_now : nat -> Z) (b : Builder) : outcome :=
  match paymentRequest b with
  | None => (b, Some (Error "Payment request is required"))
  | Some request =>
      if negb (truthy request) then (b, Some (Error "Payment request is required"))
      else
        match preference_of (config b) now date_now request with
        | Throw e => (b, Some e)
        | Return data =>
            ({| config := config b; preferenceData := Some data; order := order b;
                paymentRequest := paymentRequest b; paymentUrl := paymentUrl b;
                saveOrderCallback := saveOrderCallback b |}, None)
        end
  end.

(* item => ({ id: item.id, ..., total_price: item.quantity * item.unit_price }) *)
Definition order_item (item : JSValue) : completion OrderItem :=
  do id <- get item "id" ;;
  do title <- get item "title" ;;
  do description <- get item "description" ;;
  do quantity <- get item "quantity" ;;
  do unit_price <- get item "unit_price" ;;
  do total_price <- times quantity unit_price ;;
  Return {| item_id := id;
            item_title := title;
            item_description := description;
            item_quantity := quantity;
            item_unit_price := unit_price;
            total_price := total_price |}.

(* array.map(callback), for a callback that may throw. *)
Fixpoint map_each {A B : Type} (callback : A -> completion B) (l : list A)
  : completion (list B) :=
  match l with
  | [] => Return []
  | x :: rest =>
      do y <- callback x ;;
      do others <- map_each callback rest ;;
      Return (y :: others)
  end.

(* The order of buildOrder; [now] is the time value of new Date() and
   [date_now] what Date.now() answers. *)
Definition order_of (cfg : MercadoPagoConfig) (preferenceId : string) (now date_now : Z)
    (request : JSValue) : completion Order :=
  (* Procesar items para la orden *)
  do items <- get request "items" ;;
  do elements <- array_method "this.paymentRequest.items" "map" items ;;
  do orderItems <- map_each order_item elements ;;
  (* Calcular totales *)
  do totalAmount <-
    reduce (fun sum item => Return (num_add sum (total_price item))) orderItems (of_Z 0) ;;
  do totalItems <-
    reduce (fun sum item => plus sum (item_quantity item)) orderItems (JNumber (of_Z 0)) ;;
  let now : Date := Some now in
  let expirationTime :=
    num_mul (num_mul (number_or (expirationTime cfg) (of_Z 20)) (of_Z 60)) (of_Z 1000) in
  do customer_info <- get request "customer_info" ;;
  do created_at <- toISOString now ;;
  do expires_at <- toISOString (new_Date (num_add (getTime now) expirationTime)) ;;
  Return {| order_id := "order_" +++ Number_toString (of_Z date_now);
            order_customer_info := customer_info;
            order_items := orderItems;
            total_amount := totalAmount;
            total_items := totalItems;
            preference_id := preferenceId;
            status := "pending";
            created_at := created_at;
            expires_at := expires_at |}.

Definition buildOrder (preferenceId : string) (now date_now : Z) (b : Builder) : outcome :=
  match paymentRequest b with
  | None => (b, Some (Error "Payment request is required"))
  | Some request =>
      if negb (truthy request) then (b, Some (Error "Payment request is required"))
      else
        match order_of (config b) preferenceId now date_now request with
        | Throw e => (b, Some e)
        | Return o =>
            ({| config := config b; preferenceData := preferenceData b; order := Some o;
                paymentRequest := paymentRequest b; paymentUrl := paymentUrl b;
                saveOrderCallback := saveOrderCallback b |}, None)
        end
  end.

(* [create] is the provider's preference.create({ body }); it answers or it
   throws.  Whatever throws inside the try block is thrown again as one
   error. *)
Definition createPreference
    (create : MercadoPagoPreferenceData -> completion PreferenceResponse)
    (now date_now : Z) (b : Builder) : outcome :=
  match preferenceData b with
  | None => (b, Some (Error "Preference data must be built first"))
  | Some data =>
      let rethrown := Some (Error "Error al crear la preferencia de pago en MercadoPago") in
      match create data with
      | Throw _ => (b, rethrown)
      | Return response =>
          if missing (response_id response) || missing (init_point response)
          then (b, rethrown)
          else
            let b1 := {| config := config b; preferenceData := preferenceData b;
                         order := order b; paymentRequest := paymentRequest b;
                         paymentUrl := init_point response;
                         saveOrderCallback := saveOrderCallback b |} in
            match buildOrder (string_or (response_id response) "") now date_now b1 with
            | (b2, None) => (b2, None)
            | (b2, Some _) => (b2, rethrown)
            end
      end
  end.

(* Whatever throws inside the try block is thrown again as one error.  The
   order that the builder holds after the callback is the order as the
   callback left it. *)
Definition saveOrder (b : Builder) : outcome :=
  match order b with
  | None => (b, Some (Error "Order must be built first"))
  | Some o =>
      let rethrown := Some (Error "Error al guardar la orden en la base de datos") in
      (* Preparar datos para el callback *)
      match get (order_customer_info o) "email" with
      | Throw _ => (b, rethrown)
      | Return customer =>
          let orderData :=
            {| data_id := order_id o;
               customer := customer;
               items_count := total_items o;
               data_total_amount := total_amount o;
               data_preference_id := preference_id o;
               full_order := o |} in
          (* Ejecutar callback personalizado si existe *)
          match saveOrderCallback b with
          | Some callback =>
              let b' := {| config := config b; preferenceData := preferenceData b;
                           order := Some (fst (callback orderData));
                           paymentRequest := paymentRequest b; paymentUrl := paymentUrl b;
                           saveOrderCallback := saveOrderCallback b |} in
              match snd (callback orderData) with
              | Return _ => (b', None)
              | Throw _ => (b', rethrown)
              end
          | None => (b, None)
          end
      end
  end.

Definition getResult (b : Builder) : completion (Order * string) :=
  match order b, paymentUrl b with
  | Some o, Some url =>
      if String.eqb url "" then Throw (Error "Order and payment URL not available")
      else Return (o, url)
  | _, _ => Throw (Error "Order and payment URL not available")
  end.

Definition reset (b : Builder) : Builder :=
  {| config := config b; preferenceData := None; order := None; paymentRequest := None;
     paymentUrl := None; saveOrderCallback := None |}.

End MercadoPagoBuilder.

(** * webhooks/MercadoPagoWebhookHandler.ts *)

Module MercadoPagoWebhookHandler.
Import JS.
Local Infix "+++" := String.append (right associativity, at level 60).

Record WebhookConfig : Type := {
  accessToken : string;
  webhookSecret : option string;
  enableSignatureValidation : option bool
}.

(* What a call reads from outside: the provider's payment.get({ id }), which
   answers or throws, and the two readings of the clock, as toISOString
   renders them. *)
Record Environment : Type := {
  payment_get : JSValue -> completion JSValue;
  now_date_created : string;
  now_processed_at : string
}.

(* What statusMapping[key] finds: an entry of the table, or a member that the
   object literal inherits from Object.prototype, which is not a string. *)
Inductive MappedStatus : Type :=
| Mapped (status : string)
| Inherited (member : string).

Record WebhookLogData : Type := {
  webhook_id : JSValue;
  payment_id : JSValue;
  topic : JSValue;
  action : JSValue;
  live_mode : JSValue;
  user_id : JSValue;
  api_version : JSValue;
  date_created : JSValue;
  external_reference : option JSValue;
  log_status : option JSValue;
  log_mapped_status : option MappedStatus;
  transaction_amount : option JSValue;
  currency_id : option JSValue;
  payment_method_id : option JSValue;
  payer_email : option JSValue;
  error_message : option string;
  raw_data : JSValue;
  headers_received : gmap string string;
  processed_at : string
}.

Record WebhookResult : Type := {
  webhook_log : WebhookLogData;
  payment_info : JSValue;
  mapped_status : option MappedStatus
}.

Record WebhookProcessResult : Type := {
  success : bool;
  status : Z;
  message : string;
  error : option string;
  data : option WebhookResult
}.

Record SignatureValidation : Type := {
  isValid : bool;
  validation_error : option string
}.

(* !s, for a header or a setting that may be absent *)
Definition missing (s : option string) : bool :=
  match s with
  | Some x => String.eqb x ""
  | None => true
  end.

(* a || b *)
Definition first_present (a b : option string) : option string :=
  if missing a then b else a.

(* a || '' *)
Definition or_empty (a : option string) : string :=
  match a with Some x => x | None => "" end.

Definition statusMapping : list (string * string) :=
  [ ("approved", "approved");
    ("rejected", "rejected");
    ("cancelled", "cancelled");
    ("authorized", "approved");
    ("in_process", "pending");
    ("in_mediation", "pending");
    ("refunded", "refunded");
    ("charged_back", "chargeback");
    ("pending", "pending") ]%string.

(* The members of Object.prototype (ECMA-262 20.1.3 and B.2.2). *)
Definition Object_prototype : list string :=
  [ "constructor"; "__defineGetter__"; "__defineSetter__"; "hasOwnProperty";
    "__lookupGetter__"; "__lookupSetter__"; "isPrototypeOf"; "propertyIsEnumerable";
    "toString"; "valueOf"; "__proto__"; "toLocaleString" ]%string.

Fixpoint assoc (table : list (string * string)) (key : string) : option string :=
  match table with
  | [] => None
  | (k, v) :: rest => if String.eqb k key then Some v else assoc rest key
  end.

(* statusMapping[mercadoPagoStatus] || 'unknown': every entry of the table
   and every inherited member is truthy. *)
Definition mapPaymentStatus (mercadoPagoStatus : string) : MappedStatus :=
  match assoc statusMapping mercadoPagoStatus with
  | Some local => Mapped local
  | None =>
      if existsb (String.eqb mercadoPagoStatus) Object_prototype
      then Inherited mercadoPagoStatus
      else Mapped "unknown"
  end.

(* try { const data = JSON.parse(body); return data.data?.id || '' } catch { return '' } *)
Definition extractDataIdFromBody (body : string) : JSValue :=
  match (do parsed <- JSON_parse body ;;
         do inner <- get parsed "data" ;;
         Return (or_else (get_optional inner "id") (JString ""))) with
  | Return v => v
  | Throw _ => JString ""
  end.

(* const [key, value] = part.split('=') inside the loop over the parts. *)
Definition read_part (found : option string * option string) (part : string)
  : option string * option string :=
  let pieces := split "=" part in
  let key := List.nth 0 pieces ""%string in
  let value := List.nth_error pieces 1 in
  if String.eqb key "ts" then (value, snd found)
  else if String.eqb key "v1" then (fst found, value)
  else found.

(* The timestamp and the received signature of "ts=...,v1=...". *)
Definition read_signature (signature : string) : option string * option string :=
  List.fold_left read_part (split "," signature) (Some ""%string, Some ""%string).

(* headers['data_id'] || this.extractDataIdFromBody(body) *)
Definition dataId_of (body : string) (headers : gmap string string) : JSValue :=
  if missing (headers !! "data_id"%string)
  then extractDataIdFromBody body
  else JString (or_empty (headers !! "data_id"%string)).

(* `id:${dataId};request-id:${headers['x-request-id'] || ''};ts:${timestamp};` *)
Definition manifest_of (dataId requestId timestamp : string) : string :=
  "id:" +++ dataId +++ ";request-id:" +++ requestId +++ ";ts:" +++ timestamp +++ ";".

Definition requestId_of (headers : gmap string string) : string :=
  if missing (headers !! "x-request-id"%string) then ""%string
  else or_empty (headers !! "x-request-id"%string).

Definition build_manifest (body : string) (headers : gmap string string) (timestamp : string)
  : completion string :=
  do dataId <- ToString (dataId_of body headers) ;;
  Return (manifest_of dataId (requestId_of headers) timestamp).

(* Comparación segura de strings para evitar timing attacks.  On the bytes of
   the two strings the loop decides what it decides on their code units:
   whether the strings are equal. *)
Fixpoint accumulate (result : Z) (expected received : list Z) : Z :=
  match expected, received with
  | e :: es, r :: rs => accumulate (Z.lor result (Z.lxor e r)) es rs
  | _, _ => result
  end.

Definition safeCompare (expected received : string) : bool :=
  if negb (String.length expected =? String.length received)%nat then false
  else accumulate 0 (bytes expected) (bytes received) =? 0.

Definition validateSignature (cfg : WebhookConfig) (body : string)
    (headers : gmap string string) : SignatureValidation :=
  match webhookSecret cfg with
  | None => {| isValid := true; validation_error := None |}
  | Some secret =>
      if String.eqb secret ""
      then {| isValid := true; validation_error := None |}
      else
        let signature :=
          first_present (headers !! "x-signature"%string) (headers !! "X-Signature"%string) in
        if missing signature
        then {| isValid := false; validation_error := Some "Missing x-signature header"%string |}
        else
          let '(timestamp, receivedSignature) := read_signature (or_empty signature) in
          if missing timestamp || missing receivedSignature
          then {| isValid := false; validation_error := Some "Invalid signature format"%string |}
          else
            match build_manifest body headers (or_empty timestamp) with
            | Throw _ =>
                {| isValid := false; validation_error := Some "Signature validation error"%string |}
            | Return manifest =>
                let expectedSignature := createHmac_sha256_hex secret manifest in
                {| isValid := safeCompare expectedSignature (or_empty receivedSignature);
                   validation_error := None |}
            end
  end.

(* A lookup at the provider: the SDK is loaded, a client made, and
   payment.get({ id }) awaited; a failure of any of these steps is a lookup
   that throws.  With what the provider answers comes the record of the
   lookup, the id that was asked. *)
Definition call_payment_get (env : Environment) (id : JSValue)
  : completion JSValue * list JSValue :=
  (payment_get env id, [id]).

(* try { response = await payment.get({ id: paymentId });
         if (!response || !response.id) return null;
         return response }
   catch { return null } *)
Definition getPaymentInfo (env : Environment) (paymentId : JSValue)
  : JSValue * list JSValue :=
  let '(answer, asked) := call_payment_get env paymentId in
  (match answer with
   | Throw _ => JNull
   | Return response =>
       if negb (truthy response) || negb (truthy (get_optional response "id"))
       then JNull else response
   end, asked).

Definition with_error (base : WebhookLogData) (st msg : string) : WebhookLogData :=
  {| webhook_id := webhook_id base; payment_id := payment_id base; topic := topic base;
     action := action base; live_mode := live_mode base; user_id := user_id base;
     api_version := api_version base; date_created := date_created base;
     external_reference := external_reference base;
     log_status := Some (JString st);
     log_mapped_status := log_mapped_status base;
     transaction_amount := transaction_amount base; currency_id := currency_id base;
     payment_method_id := payment_method_id base; payer_email := payer_email base;
     error_message := Some msg;
     raw_data := raw_data base; headers_received := headers_received base;
     processed_at := processed_at base |}.

(* What handlePaymentWebhook answers once it has the payment. *)
Definition payment_result (paymentInfo : JSValue) (baseLogData : WebhookLogData)
  : WebhookProcessResult :=
  if negb (truthy paymentInfo) then
    {| success := false; status := 400;
       message := "Failed to fetch payment information from MercadoPago";
       error := Some "Payment not found or API error"%string;
       data := Some {| webhook_log := with_error baseLogData "error" "Failed to fetch payment info";
                       payment_info := JNull; mapped_status := None |} |}
  else
    let paymentStatus := get_optional paymentInfo "status" in
    let externalReference := get_optional paymentInfo "external_reference" in
    match ToString paymentStatus with
    | Throw e =>
        {| success := false; status := 500;
           message := "Error processing payment webhook";
           error := Some (message_of e);
           data := Some {| webhook_log := with_error baseLogData "processing_error" (message_of e);
                           payment_info := JNull; mapped_status := None |} |}
    | Return key =>
        let mappedStatus := mapPaymentStatus key in
        let completeLogData :=
          {| webhook_id := webhook_id baseLogData; payment_id := payment_id baseLogData;
             topic := topic baseLogData; action := action baseLogData;
             live_mode := live_mode baseLogData; user_id := user_id baseLogData;
             api_version := api_version baseLogData;
             date_created := date_created baseLogData;
             external_reference := Some (or_else externalReference JNull);
             log_status := Some paymentStatus;
             log_mapped_status := Some mappedStatus;
             transaction_amount :=
               Some (or_else (get_optional paymentInfo "transaction_amount") JNull);
             currency_id := Some (or_else (get_optional paymentInfo "currency_id") JNull);
             payment_method_id :=
               Some (or_else (get_optional paymentInfo "payment_method_id") JNull);
             payer_email :=
               Some (or_else (get_optional (get_optional paymentInfo "payer") "email") JNull);
             error_message := error_message baseLogData;
             raw_data := raw_data baseLogData;
             headers_received := headers_received baseLogData;
             processed_at := processed_at baseLogData |} in
        {| success := true; status := 200;
           message := "Payment webhook processed successfully";
           error := None;
           data := Some {| webhook_log := completeLogData;
                           payment_info := paymentInfo;
                           mapped_status := Some mappedStatus |} |}
    end.

(* Procesa webhooks de tipo payment.  With the answer comes the record of the
   calls of the provider. *)
Definition handlePaymentWebhook (env : Environment) (paymentId : JSValue)
    (baseLogData : WebhookLogData) : WebhookProcessResult * list JSValue :=
  (* 1. Obtener información del pago desde MercadoPago API *)
  let '(paymentInfo, asked) := getPaymentInfo env paymentId in
  (payment_result paymentInfo baseLogData, asked).

(* topic === 'payment' *)
Definition is_payment (topic : JSValue) : bool :=
  match topic with JString t => String.eqb t "payment" | _ => false end.

(* Maneja diferentes tipos de eventos de webhook.  With the result comes the
   record of the calls of the provider, none when the provider was not
   called. *)
Definition handleWebhookEvent (env : Environment) (webhookData : JSValue)
    (headers : gmap string string) : completion (WebhookProcessResult * list JSValue) :=
  do topic <- destructure "webhookData" webhookData "type" ;;
  do data <- get webhookData "data" ;;
  do action <- get webhookData "action" ;;
  let paymentId := get_optional data "id" in
  (* Crear datos base del log *)
  do id <- get webhookData "id" ;;
  do id_string <- toString_optional "webhookData.id" id ;;
  do user_id <- get webhookData "user_id" ;;
  do user_id_string <- toString_optional "webhookData.user_id" user_id ;;
  let baseLogData :=
    {| webhook_id := or_else id_string (JString "unknown");
       payment_id := or_else paymentId JNull;
       topic := topic;
       action := or_else action JNull;
       live_mode := or_else (get_optional webhookData "live_mode") (JBool false);
       user_id := or_else user_id_string JNull;
       api_version := or_else (get_optional webhookData "api_version") JNull;
       date_created :=
         or_else (get_optional webhookData "date_created") (JString (now_date_created env));
       external_reference := None; log_status := None; log_mapped_status := None;
       transaction_amount := None; currency_id := None; payment_method_id := None;
       payer_email := None; error_message := None;
       raw_data := webhookData;
       headers_received := headers;
       processed_at := now_processed_at env |} in
  if is_payment topic && truthy paymentId
  then Return (handlePaymentWebhook env paymentId baseLogData)
  else
    (* Otros tipos de webhooks (merchant_orders, subscriptions, etc.) *)
    do topic_string <- ToString topic ;;
    Return ({| success := true; status := 200;
               message := "Webhook type " +++ topic_string +++ " acknowledged but not processed";
               error := None;
               data := Some {| webhook_log := baseLogData;
                               payment_info := JNull;
                               mapped_status := None |} |}, []).

(* Steps 2 and 3 of processWebhook, with the catch of its outer try. *)
Definition parse_and_handle (env : Environment) (requestBody : string)
    (headers : gmap string string) : WebhookProcessResult * list JSValue :=
  (* 2. Parsear el JSON del webhook *)
  match JSON_parse requestBody with
  | Throw _ =>
      ({| success := false; status := 400; message := "Invalid JSON format";
          error := Some "Failed to parse webhook JSON"%string; data := None |}, [])
  | Return webhookData =>
      (* 3. Procesar según el tipo de evento *)
      match handleWebhookEvent env webhookData headers with
      | Return result => result
      | Throw e =>
          ({| success := false; status := 500; message := "Internal server error";
              error := Some (message_of e); data := None |}, [])
      end
  end.

(* Procesa y valida el webhook de MercadoPago. *)
Definition processWebhook (cfg : WebhookConfig) (env : Environment) (requestBody : string)
    (headers : gmap string string) : WebhookProcessResult * list JSValue :=
  (* 1. Validar la firma si está habilitada *)
  match enableSignatureValidation cfg with
  | Some true =>
      let signatureValidation := validateSignature cfg requestBody headers in
      if negb (isValid signatureValidation)
      then ({| success := false; status := 403; message := "Invalid signature";
               error := validation_error signatureValidation; data := None |}, [])
      else parse_and_handle env requestBody headers
  | _ => parse_and_handle env requestBody headers
  end.

(** ** validateWebhookOnly and processWebhookRequest *)

Record WebhookValidation : Type := {
  webhook_isValid : bool;
  webhook_error : option string;
  webhookType : option JSValue
}.

(* Método utilitario para verificar si un webhook es válido sin procesarlo
   completamente.  Reading [type] of a body that parses to null throws, and
   the catch answers as for a text that is not JSON. *)
Definition validateWebhookOnly (cfg : WebhookConfig) (body : string)
    (headers : gmap string string) : WebhookValidation :=
  let parsed :=
    match (do webhookData <- JSON_parse body ;; get webhookData "type") with
    | Return type =>
        {| webhook_isValid := true; webhook_error := None; webhookType := Some type |}
    | Throw _ =>
        {| webhook_isValid := false; webhook_error := Some "Invalid webhook format"%string;
           webhookType := None |}
    end in
  match enableSignatureValidation cfg with
  | Some true =>
      let signatureValidation := validateSignature cfg body headers in
      if negb (isValid signatureValidation)
      then {| webhook_isValid := false;
              webhook_error := validation_error signatureValidation;
              webhookType := None |}
      else parsed
  | _ => parsed
  end.

(* What the handler reads of a NextRequest: the body, which request.text()
   resolves to or rejects, and the headers, Object.fromEntries of which is
   the map from their lower-case names. *)
Record NextRequest : Type := {
  text : completion string;
  request_headers : gmap string string
}.

(* Método principal que procesa directamente el NextRequest. *)
Definition processWebhookRequest (cfg : WebhookConfig) (env : Environment)
    (request : NextRequest) : WebhookProcessResult * list JSValue :=
  match text request with
  | Throw e =>
      ({| success := false; status := 500; message := "Internal server error";
          error := Some (message_of e); data := None |}, [])
  | Return body =>
      let headers := request_headers request in
      let clientIP :=
        first_present
          (first_present (headers !! "x-forwarded-for"%string) (headers !! "x-real-ip"%string))
          (Some "unknown"%string) in
      processWebhook cfg env body headers
  end.

End MercadoPagoWebhookHandler.

(** * MercadoPagoService.ts *)

Module MercadoPagoService.
Import JS.

(** The service keeps one builder and runs its steps in order.  The payload
    arrives untyped; after validation the source hands the same value to the
    builder ([requestData as PaymentRequest], which changes nothing at run
    time). *)

Record PaymentResponse : Type := {
  order_id : string;
  payment_url : string;
  preference_id : string;
  message : string
}.

Record PaymentResult : Type := {
  success : bool;
  data : option PaymentResponse;
  error : option string;
  details : option (list string)
}.

Record Service : Type := {
  builder : MercadoPagoBuilder.Builder;
  saveOrderCallback : option MercadoPagoBuilder.SaveOrderCallback
}.

(* What one payment reads from outside: the provider's preference.create and
   the readings of the clock, in buildPreference (new Date(), and Date.now()
   for the item at each index) and in buildOrder (new Date() and
   Date.now()). *)
Record Outside : Type := {
  create : MercadoPagoBuilder.MercadoPagoPreferenceData
           -> completion MercadoPagoBuilder.PreferenceResponse;
  now_preference : Z;
  date_now_item : nat -> Z;
  now_order : Z;
  date_now_order : Z
}.

(* new MercadoPagoService(config) *)
Definition new_service (cfg : MercadoPagoBuilder.MercadoPagoConfig) : Service :=
  {| builder := MercadoPagoBuilder.new_builder cfg; saveOrderCallback := None |}.

Definition setSaveOrderCallback (callback : MercadoPagoBuilder.SaveOrderCallback)
    (s : Service) : Service :=
  {| builder := builder s; saveOrderCallback := Some callback |}.

Definition with_builder (s : Service) (b : MercadoPagoBuilder.Builder) : Service :=
  {| builder := b; saveOrderCallback := saveOrderCallback s |}.

(* The catch of this method throws again what it caught. *)
Definition executeMercadoPagoPayment (w : Outside) (request : JSValue) (s : Service)
  : Service * completion PaymentResponse :=
  (* Reset builder for new payment *)
  let b := MercadoPagoBuilder.reset (builder s) in
  (* Set the save callback if it exists *)
  let b :=
    match saveOrderCallback s with
    | Some callback => MercadoPagoBuilder.setSaveOrderCallback callback b
    | None => b
    end in
  (* Execute the payment process step by step *)
  let b := MercadoPagoBuilder.setPaymentRequest request b in
  match MercadoPagoBuilder.buildPreference (now_preference w) (date_now_item w) b with
  | (b, Some e) => (with_builder s b, Throw e)
  | (b, None) =>
      match MercadoPagoBuilder.createPreference (create w) (now_order w) (date_now_order w) b with
      | (b, Some e) => (with_builder s b, Throw e)
      | (b, None) =>
          (* Save order to database (now uses callback) *)
          match MercadoPagoBuilder.saveOrder b with
          | (b, Some e) => (with_builder s b, Throw e)
          | (b, None) =>
              (* Get the final result *)
              match MercadoPagoBuilder.getResult b with
              | Throw e => (with_builder s b, Throw e)
              | Return (order, url) =>
                  (with_builder s b,
                   Return {| order_id := MercadoPagoBuilder.order_id order;
                             payment_url := url;
                             preference_id := MercadoPagoBuilder.preference_id order;
                             message := "Orden creada exitosamente con MercadoPago" |})
              end
          end
      end
  end.

Definition processPayment (w : Outside) (requestData : JSValue) (s : Service)
  : Service * PaymentResult :=
  (* Validate input data *)
  match PaymentValidator.validatePaymentRequest requestData with
  | Throw e =>
      (s, {| success := false; data := None; error := Some (message_of e); details := None |})
  | Return validation =>
      if negb (PaymentValidator.isValid validation)
      then (s, {| success := false; data := None; error := Some "Datos inválidos"%string;
                  details := Some (PaymentValidator.errors validation) |})
      else
        (* Cast to PaymentRequest after validation *)
        let paymentRequest := requestData in
        (* Process payment using MercadoPago *)
        match executeMercadoPagoPayment w paymentRequest s with
        | (s', Return result) =>
            (s', {| success := true; data := Some result; error := None; details := None |})
        | (s', Throw e) =>
            (s', {| success := false; data := None; error := Some (message_of e);
                    details := None |})
        end
  end.

End MercadoPagoService.

(** * The vocabulary of the properties *)

Module Vocabulary.
Import JS MercadoPagoWebhookHandler.

(** ** The request that a signature covers *)

(* headers['x-signature'] || headers['X-Signature'] *)
Definition signature_header (headers : gmap string string) : option string :=
  first_present (headers !! "x-signature"%string) (headers !! "X-Signature"%string).

(* The ts value and the v1 value that the handler reads from the header. *)
Definition timestamp_of (headers : gmap string string) : option string :=
  fst (read_signature (or_empty (signature_header headers))).

Definition received_of (headers : gmap string string) : option string :=
  snd (read_signature (or_empty (signature_header headers))).

(* The payment id of the manifest, as the template literal renders it. *)
Definition payment_id_of (body : string) (headers : gmap string string) : completion string :=
  ToString (dataId_of body headers).

(* The header has a component "key=...". *)
Definition carries (signature key : string) : Prop :=
  exists part, In part (split "," signature) /\ List.nth 0 (split "=" part) ""%string = key.

(* A secret is configured. *)
Definition configured (cfg : WebhookConfig) (secret : string) : Prop :=
  webhookSecret cfg = Some secret /\ secret <> ""%string.

(* The request reaches the parsing step: validation is off, or it passed. *)
Definition passes_signature_check (cfg : WebhookConfig) (body : string)
    (headers : gmap string string) : Prop :=
  enableSignatureValidation cfg = Some true ->
  isValid (validateSignature cfg body headers) = true.

(* The two texts have the same length and differ in exactly one byte. *)
Fixpoint differences (a b : list ascii) : nat :=
  match a, b with
  | x :: a', y :: b' => ((if Ascii.eqb x y then 0 else 1) + differences a' b')%nat
  | _, _ => 0%nat
  end.

Definition differ_in_one_byte (s t : string) : bool :=
  (String.length s =? String.length t)%nat
  && (differences (list_ascii_of_string s) (list_ascii_of_string t) =? 1)%nat.

(* v?.toString() returns. *)
Definition stringifiable (v : JSValue) : Prop :=
  forall source, returns (toString_optional source v) = true.

(** ** Payloads that the validator can read *)

(* The customer's email, when there is one, converts to a string, and the
   customer's name, when there is one, is a string. *)
Definition customer_readable (data : JSValue) : Prop :=
  let customer_info := get_optional data "customer_info" in
  truthy customer_info = true ->
  (truthy (get_optional customer_info "email") = true ->
   returns (ToString (get_optional customer_info "email")) = true) /\
  (truthy (get_optional customer_info "name") = true ->
   is_string (get_optional customer_info "name") = true).

(* No item is null or undefined. *)
Definition items_readable (items : list JSValue) : Prop :=
  Forall (fun item => nullish item = false) items.

(** ** Signature headers *)

(* The character does not occur in the string. *)
Definition free_of (c : ascii) (s : string) : Prop :=
  ~ In c (list_ascii_of_string s).

(* A hexadecimal digit of a digest: 0 to 9 or a to f. *)
Definition is_hex (c : ascii) : bool :=
  ((48 <=? code c) && (code c <=? 57)) || ((97 <=? code c) && (code c <=? 102)).

(* The header that the provider sends: "ts=<ts>,v1=<v1>". *)
Definition signature_of (ts v1 : string) : string :=
  String.append "ts=" (String.append ts (String.append ",v1=" v1)).

(** ** Answers of the handler *)


(* The flag and the code of an answer agree: 200 with success, or 400, 403 or
   500 without. *)
Definition coherent (r : WebhookProcessResult) : Prop :=
  (status r = 200 /\ success r = true) \/
  (In (status r) [400; 403; 500] /\ success r = false).

(** ** Requests that pass validation *)

(* The constraints on an item: a title of 3 characters or more, a quantity
   and a unit price that are positive integers, a description that is absent,
   blank or of 5 characters or more, an id that is absent or not blank. *)
Definition item_valid (item : JSValue) : bool :=
  match get_optional item "title" with
  | JString t => (3 <=? js_length (trim t))%nat
  | _ => false
  end
  && match get_optional item "quantity" with
     | JNumber q => Number_isInteger q && negb (num_le0 q)
     | _ => false
     end
  && match get_optional item "unit_price" with
     | JNumber p => Number_isInteger p && negb (num_le0 p)
     | _ => false
     end
  && match get_optional item "description" with
     | JUndefined | JNull => true
     | JString d => (js_length (trim d) =? 0)%nat || (5 <=? js_length (trim d))%nat
     | _ => false
     end
  && match get_optional item "id" with
     | JUndefined | JNull => true
     | JString i => negb (js_length (trim i) =? 0)%nat
     | _ => false
     end.

(* The constraints on the customer: an email that reads as local@domain.tld
   and a name of 2 characters or more. *)
Definition customer_valid (customer_info : JSValue) : bool :=
  truthy customer_info
  && truthy (get_optional customer_info "email")
  && match ToString (get_optional customer_info "email") with
     | Return s => emailRegex_test s
     | Throw _ => false
     end
  && match get_optional customer_info "name" with
     | JString n => negb (String.eqb n "") && (2 <=? js_length (trim n))%nat
     | _ => false
     end.

Definition request_valid (data : JSValue) : bool :=
  customer_valid (get_optional data "customer_info")
  && match get_optional data "items" with
     | JArray (item :: items) => forallb item_valid (item :: items)
     | _ => false
     end.

(** ** Totals *)

(* The sum of a list of amounts. *)
Fixpoint sum_of (l : list Z) : Z :=
  match l with
  | [] => 0
  | x :: rest => x + sum_of rest
  end.

(** ** JSON texts *)

(* A JSON text written with ' for the double quote. *)
Definition json (text : string) : string :=
  string_of_list_ascii
    (List.map (fun c => if Ascii.eqb c "'" then ascii_of_nat 34 else c)
              (list_ascii_of_string text)).

End Vocabulary.

(** * The vocabulary of the properties of the builder and the service *)

Module PaymentVocabulary.
Import JS MercadoPagoBuilder Vocabulary.

(** ** Amounts *)

(* The integer that a number is, when it is one. *)
Definition integer_of (x : JSNumber) : option Z :=
  match x with
  | Finite m e =>
      if e >=? 0 then Some (m * 2 ^ e)
      else if m mod 2 ^ (- e) =? 0 then Some (m / 2 ^ (- e))
      else None
  | _ => None
  end.

(* The item carries a quantity and a unit price that are the two integers of
   [amounts], neither of them negative. *)
Definition priced (item : JSValue) (amounts : Z * Z) : Prop :=
  exists quantity unit_price,
    get item "quantity" = Return (JNumber quantity) /\
    get item "unit_price" = Return (JNumber unit_price) /\
    integer_of quantity = Some (fst amounts) /\
    integer_of unit_price = Some (snd amounts) /\
    0 <= fst amounts /\ 0 <= snd amounts.

(* The items of the request are an array, and they carry [amounts], one pair
   for each item and in order. *)
Definition items_priced (request : JSValue) (amounts : list (Z * Z)) : Prop :=
  exists items,
    get_optional request "items" = JArray items /\
    Forall2 priced items amounts.

(* The exact total amount and the exact total of items. *)
Definition exact_amount (amounts : list (Z * Z)) : Z :=
  sum_of (List.map (fun a => fst a * snd a) amounts).

Definition exact_count (amounts : list (Z * Z)) : Z :=
  sum_of (List.map fst amounts).

(* Up to 2^53 every integer is a double. *)
Definition largest_exact : Z := 2 ^ 53.

(* 1 <= x *)
Definition at_least_one (x : JSNumber) : bool :=
  match x with
  | NaN => false
  | Infinity negative => negb negative
  | Finite m e => if e >=? 0 then 0 <? m else 2 ^ (- e) <=? m
  end.

(* 0 <= x *)
Definition not_negative (x : JSNumber) : bool :=
  match x with
  | NaN => false
  | Infinity negative => negb negative
  | Finite m _ => 0 <=? m
  end.

(** ** Expiration *)

(* The window of a configuration, expirationTime || 20, when it is a whole
   number of minutes. *)
Definition whole_minutes (cfg : MercadoPagoConfig) : option Z :=
  integer_of (number_or (expirationTime cfg) (of_Z 20)).

(* The date on which what is built at [now] expires: [now] and the window of
   the configuration in milliseconds. *)
Definition expiry (cfg : MercadoPagoConfig) (now : Z) : Date :=
  new_Date (num_add (of_Z now)
              (num_mul (num_mul (number_or (expirationTime cfg) (of_Z 20)) (of_Z 60))
                       (of_Z 1000))).

(* The largest time value of a Date. *)
Definition latest : Z := 8640000000000000.

(** ** One payment of the service *)

(* The provider did not create the preference: the call threw, or its answer
   lacks the id or the init_point. *)
Definition creation_failed (answer : completion PreferenceResponse) : Prop :=
  match answer with
  | Throw _ => True
  | Return response =>
      missing (response_id response) = true \/ missing (init_point response) = true
  end.

(* The service's builder when createPreference is called: reset, given the
   callback and the request, and after buildPreference. *)
Definition prepared (w : MercadoPagoService.Outside) (request : JSValue)
    (s : MercadoPagoService.Service) : Builder :=
  let b := reset (MercadoPagoService.builder s) in
  let b := match MercadoPagoService.saveOrderCallback s with
           | Some callback => setSaveOrderCallback callback b
           | None => b
           end in
  fst (buildPreference (MercadoPagoService.now_preference w)
         (MercadoPagoService.date_now_item w) (setPaymentRequest request b)).

(* The builder on which the steps of a payment run: reset, given the callback
   and the request. *)
Definition started (request : JSValue) (s : MercadoPagoService.Service) : Builder :=
  {| config := config (MercadoPagoService.builder s); preferenceData := None; order := None;
     paymentRequest := Some request; paymentUrl := None;
     saveOrderCallback := MercadoPagoService.saveOrderCallback s |}.

(* The answer of a payment that went through. *)
Definition answer (o : Order) (url : string) : MercadoPagoService.PaymentResponse :=
  {| MercadoPagoService.order_id := order_id o;
     MercadoPagoService.payment_url := url;
     MercadoPagoService.preference_id := preference_id o;
     MercadoPagoService.message := "Orden creada exitosamente con MercadoPago" |}.

(* The callback of the service, when there is one, returns. *)
Definition callback_returns (s : MercadoPagoService.Service) : Prop :=
  forall callback orderData,
    MercadoPagoService.saveOrderCallback s = Some callback ->
    returns (snd (callback orderData)) = true.

(* The callback of the service, when there is one, leaves the order that it
   is handed as it is. *)
Definition callback_keeps_order (s : MercadoPagoService.Service) : Prop :=
  forall callback orderData,
    MercadoPagoService.saveOrderCallback s = Some callback ->
    fst (callback orderData) = full_order orderData.

End PaymentVocabulary.

(** * Requests and payloads used as examples *)

Module Examples.
Import JS MercadoPagoWebhookHandler Vocabulary.
Local Open Scope string_scope.

(* Validation on, with a secret. *)
Definition cfg_signed : WebhookConfig :=
  {| accessToken := "token"; webhookSecret := Some "secret";
     enableSignatureValidation := Some true |}.

(* Validation on, without a secret. *)
Definition cfg_no_secret : WebhookConfig :=
  {| accessToken := "token"; webhookSecret := None;
     enableSignatureValidation := Some true |}.

(* Validation off. *)
Definition cfg_open : WebhookConfig :=
  {| accessToken := "token"; webhookSecret := None;
     enableSignatureValidation := None |}.

(* A request with a customer whose name is a number. *)
Definition payload_numeric_name : string :=
  json "{'customer_info':{'email':'a@b.com','name':123},'items':[{'title':'Widget','quantity':2,'unit_price':100}]}".

(* An item with quantity 0 and unit price 10.5, and a request with this item
   alone. *)
Definition item_two_defects : JSValue :=
  JObject [ ("title", JString "Widget");
            ("quantity", JNumber (Finite 0 0));
            ("unit_price", JNumber (Finite 21 (-1))) ].

Definition payload_two_defects : JSValue :=
  JObject
    [ ("customer_info", JObject [("email", JString "a@b.com"); ("name", JString "Jo")]);
      ("items", JArray [item_two_defects]) ].

(* The same item followed by null. *)
Definition payload_defects_then_null : JSValue :=
  JObject
    [ ("customer_info", JObject [("email", JString "a@b.com"); ("name", JString "Jo")]);
      ("items", JArray [item_two_defects; JNull]) ].

(* The request of the specification's example. *)
Definition payload_widget : string :=
  json "{'customer_info':{'email':'a@b.com','name':'Jo'},'items':[{'title':'Widget','quantity':2,'unit_price':100}]}".

(* The builder's configuration and the request of the specification's
   example: two Widgets at 100. *)
Definition builder_config : MercadoPagoBuilder.MercadoPagoConfig :=
  {| MercadoPagoBuilder.accessToken := "token";
     MercadoPagoBuilder.baseUrl := "https://shop.example";
     MercadoPagoBuilder.WEBHOOK_URL := "https://shop.example/webhook";
     MercadoPagoBuilder.timeout := None;
     MercadoPagoBuilder.expirationTime := None |}.

Definition widget_request : JSValue :=
  JObject
    [ ("customer_info", JObject [("email", JString "a@b.com"); ("name", JString "Jo")]);
      ("items", JArray [ JObject [ ("title", JString "Widget");
                                   ("quantity", JNumber (of_Z 2));
                                   ("unit_price", JNumber (of_Z 100)) ] ]) ].

(* A request that passes validation and whose totals are beyond 2^53: 2^53
   Widgets at 1, and one more. *)
Definition large_request : JSValue :=
  JObject
    [ ("customer_info", JObject [("email", JString "a@b.com"); ("name", JString "Jo")]);
      ("items", JArray [ JObject [ ("title", JString "Widget");
                                   ("quantity", JNumber (of_Z 9007199254740992));
                                   ("unit_price", JNumber (of_Z 1)) ];
                         JObject [ ("title", JString "Widget");
                                   ("quantity", JNumber (of_Z 1));
                                   ("unit_price", JNumber (of_Z 1)) ] ]) ].

(* A configuration whose preferences expire after 10^13 minutes, beyond the
   range of Date. *)
Definition config_far : MercadoPagoBuilder.MercadoPagoConfig :=
  {| MercadoPagoBuilder.accessToken := "token";
     MercadoPagoBuilder.baseUrl := "https://shop.example";
     MercadoPagoBuilder.WEBHOOK_URL := "https://shop.example/webhook";
     MercadoPagoBuilder.timeout := None;
     MercadoPagoBuilder.expirationTime := Some (of_Z 10000000000000) |}.

(* A provider that creates every preference. *)
Definition create_ok (data : MercadoPagoBuilder.MercadoPagoPreferenceData)
  : completion MercadoPagoBuilder.PreferenceResponse :=
  Return {| MercadoPagoBuilder.response_id := Some "pref-1";
            MercadoPagoBuilder.init_point := Some "https://pay.example/pref-1" |}.

(* The outside of a payment: the provider that creates every preference,
   and a clock. *)
Definition outside_ok : MercadoPagoService.Outside :=
  {| MercadoPagoService.create := create_ok;
     MercadoPagoService.now_preference := 1700000000000;
     MercadoPagoService.date_now_item := fun _ => 1700000000000;
     MercadoPagoService.now_order := 1700000000500;
     MercadoPagoService.date_now_order := 1700000000501 |}.

(* An outside whose provider is down. *)
Definition outside_down : MercadoPagoService.Outside :=
  {| MercadoPagoService.create := fun _ => Throw (Error "ECONNREFUSED");
     MercadoPagoService.now_preference := 1700000000000;
     MercadoPagoService.date_now_item := fun _ => 1700000000000;
     MercadoPagoService.now_order := 1700000000500;
     MercadoPagoService.date_now_order := 1700000000501 |}.

(* A provider that knows every payment as approved. *)
Definition env_approved : Environment :=
  {| payment_get := fun id =>
       Return (JObject [("id", id); ("status", JString "approved")]);
     now_date_created := "2024-01-01T00:00:00.000Z";
     now_processed_at := "2024-01-01T00:00:00.001Z" |}.

Definition body_payment : string := json "{'type':'payment','data':{'id':'123'}}".

(* [body_payment] with the last letter of the type changed. *)
Definition body_tampered : string := json "{'type':'paymenu','data':{'id':'123'}}".

(* A payment event without a payment id. *)
Definition body_no_id : string := json "{'type':'payment','id':7}".

(* The digest is that of "id:123;request-id:req-1;ts:1700000000;" under
   "secret". *)
Definition headers_signed : gmap string string :=
  <["x-signature" :=
      "ts=1700000000,v1=8cbc7cc9c21afbafddbbace85a5b789ee02e67df73511c13f89648366069da39"]>
    (<["x-request-id" := "req-1"]> ∅).

(* [headers_signed] with the last digit of ts changed. *)
Definition headers_later : gmap string string :=
  <["x-signature" :=
      "ts=1700000001,v1=8cbc7cc9c21afbafddbbace85a5b789ee02e67df73511c13f89648366069da39"]>
    (<["x-request-id" := "req-1"]> ∅).

End Examples.

(** * The runtime, checked against its standards *)

Module RuntimeProperties.
Import JS Vocabulary.
Local Open Scope string_scope.

(* FIPS 180-4, the one-block message of appendix B.1. *)
Example sha256_abc :
  Crypto.hex (Crypto.sha256 (Crypto.bytes_of_string "abc"))
  = "ba7816bf8f01cfea414140de5dae2223b00361a396177a9cb410ff61f20015ad".
Proof. vm_compute. reflexivity. Qed.

(* RFC 4231, test case 2. *)
Example createHmac_rfc4231_case2 :
  createHmac_sha256_hex "Jefe" "what do ya want for nothing?"
  = "5bdcc146bf60754e6a042426089575c75a003f089d2739839dec58b964ec3843".
Proof. vm_compute. reflexivity. Qed.

Example JSON_parse_event :
  JSON_parse (json "{'type':'payment','data':{'id':'123'}}")
  = Return (JObject [("type", JString "payment"); ("data", JObject [("id", JString "123")])]).
Proof. vm_compute. reflexivity. Qed.

Example JSON_parse_numbers :
  JSON_parse "[1, 2.5, -0, 1e2, 0.1]"
  = Return (JArray [ JNumber (Finite 1 0); JNumber (Finite 5 (-1)); JNumber (Finite 0 0);
                     JNumber (Finite 25 2); JNumber (Finite 3602879701896397 (-55)) ]).
Proof. vm_compute. reflexivity. Qed.

Example JSON_parse_rejects :
  List.map (fun text => returns (JSON_parse text))
    ["not json"; ""; "01"; "[1,]"; "{a:1}"; "1 2"; "nul"]
  = [false; false; false; false; false; false; false].
Proof. vm_compute. reflexivity. Qed.

Example Number_toString_examples :
  List.map Number_toString
    [ of_Z 123; Finite 21 (-1); of_decimal false 1 (-1); of_decimal false 1 21;
      of_decimal false 1 (-7); of_decimal true 15 (-1); of_decimal false 5 (-324);
      of_decimal false 2 400; NaN ]
  = ["123"; "10.5"; "0.1"; "1e+21"; "1e-7"; "-1.5"; "5e-324"; "Infinity"; "NaN"].
Proof. vm_compute. reflexivity. Qed.

Example ToString_examples :
  List.map (fun text => do v <- JSON_parse (json text) ;; ToString v)
    ["[1,[2,3],null,{},'x']"; "{'a':1}"; "{'toString':1}"; "123"]
  = [ Return "1,2,3,,[object Object],x"; Return "[object Object]";
      Throw (TypeError "Cannot convert object to primitive value"); Return "123" ].
Proof. vm_compute. reflexivity. Qed.

Example trim_and_length :
  List.map (fun s => js_length (trim s)) ["  ab  "; "Jo"; " "; ""; "Widget"]
  = [2; 2; 0; 0; 6]%nat.
Proof. vm_compute. reflexivity. Qed.

Example emailRegex_examples :
  List.map emailRegex_test ["a@b.com"; "a@b"; "a@b."; "a@.b"; "@b.c"; "a b@c.d"; "a@b@c.d"]
  = [true; false; false; false; false; false; false].
Proof. vm_compute. reflexivity. Qed.

(* 0.1 + 0.2, 2^53 + 1, 1e308 * 10, 0.5 * 0.5, Infinity - Infinity, and
   the smallest double halved. *)
Example arithmetic_examples :
  List.map Number_toString
    [ num_add (of_decimal false 1 (-1)) (of_decimal false 2 (-1));
      num_add (of_Z 9007199254740992) (of_Z 1);
      num_mul (of_decimal false 1 308) (of_Z 10);
      num_mul (Finite 1 (-1)) (Finite 1 (-1));
      num_add (Infinity false) (Infinity true);
      num_mul (of_decimal false 5 (-324)) (Finite 1 (-1));
      num_mul (of_Z 3) (of_decimal true 15 (-1)) ]
  = ["0.30000000000000004"; "9007199254740992"; "Infinity"; "0.25"; "NaN"; "0"; "-4.5"].
Proof. vm_compute. reflexivity. Qed.

Example StringToNumber_examples :
  List.map (fun s => Number_toString (StringToNumber s))
    [ ""; "  12  "; "1.5"; ".5"; "5."; "-5"; "1e3"; "0x1F"; "0b101"; "0o17"; "Infinity";
      "-Infinity"; "12px"; "1,2"; "- 5"; "0x"; "-0x10"; "." ]
  = [ "0"; "12"; "1.5"; "0.5"; "5"; "-5"; "1000"; "31"; "5"; "15"; "Infinity";
      "-Infinity"; "NaN"; "NaN"; "NaN"; "NaN"; "NaN"; "NaN" ].
Proof. vm_compute. reflexivity. Qed.

(* 0 + "2", 1 + null, 1 + undefined, [] + {}, 1 + [2], "3" * [2], and the
   product with an object that cannot be converted. *)
Example operator_examples :
  ( [ plus (JNumber (of_Z 0)) (JString "2"); plus (JNumber (of_Z 1)) JNull;
      plus (JNumber (of_Z 1)) JUndefined; plus (JArray []) (JObject []);
      plus (JNumber (of_Z 1)) (JArray [JNumber (of_Z 2)]) ],
    [ times (JString "3") (JArray [JNumber (of_Z 2)]);
      times (JNumber (of_Z 3)) (JObject [("toString", JNull)]) ] )
  = ( [ Return (JString "02"); Return (JNumber (of_Z 1)); Return (JNumber NaN);
        Return (JString "[object Object]"); Return (JString "12") ],
      [ Return (of_Z 6); Throw (TypeError "Cannot convert object to primitive value") ] ).
Proof. vm_compute. reflexivity. Qed.

(* The epoch, a leap day, the last millisecond of a year, the year 0 and the
   year before it, the year 10000, and the two ends of the range of Date. *)
Example toISOString_examples :
  List.map iso
    [ 0; 1709164800000; 1704067199999; -62167219200000; -62167219200001;
      253402300800000; 8640000000000000; -8640000000000000 ]
  = [ "1970-01-01T00:00:00.000Z"; "2024-02-29T00:00:00.000Z"; "2023-12-31T23:59:59.999Z";
      "0000-01-01T00:00:00.000Z"; "-000001-12-31T23:59:59.999Z";
      "+010000-01-01T00:00:00.000Z"; "+275760-09-13T00:00:00.000Z";
      "-271821-04-20T00:00:00.000Z" ].
Proof. vm_compute. reflexivity. Qed.

(* new Date(8.64e15), new Date(8.64e15 + 1), new Date(1.5), new Date(-1.5),
   new Date(NaN). *)
Example new_Date_examples :
  List.map new_Date
    [ of_Z 8640000000000000; of_Z 8640000000000001; Finite 3 (-1); Finite (-3) (-1); NaN ]
  = [Some 8640000000000000; None; Some 1; Some (-1); None].
Proof. vm_compute. reflexivity. Qed.

(** ** The digest is 64 hexadecimal digits *)

Lemma be_bytes_range (n : nat) (x : Z) :
  Forall (fun b => 0 <= b < 256) (Crypto.be_bytes n x).
Proof.
  induction n as [|n IH]; simpl; constructor; [|assumption].
  change 255 with (Z.ones 8). rewrite Z.land_ones by lia.
  apply Z.mod_pos_bound. lia.
Qed.

Lemma be_bytes_length (n : nat) (x : Z) : List.length (Crypto.be_bytes n x) = n.
Proof. induction n as [|n IH]; simpl; [reflexivity | now rewrite IH]. Qed.

Lemma sha256_range (msg : list Z) : Forall (fun b => 0 <= b < 256) (Crypto.sha256 msg).
Proof.
  unfold Crypto.sha256. cbv zeta.
  generalize (List.fold_left Crypto.compress
                (Crypto.blocks (List.length (Crypto.words_of_bytes (Crypto.pad msg)))
                   (Crypto.words_of_bytes (Crypto.pad msg))) Crypto.H256).
  intros h. induction h as [|x h IH]; [constructor|].
  cbn [List.flat_map]. apply List.Forall_app. split; [apply (be_bytes_range 4) | exact IH].
Qed.

Lemma compress_length (h block : list Z) :
  List.length h = 8%nat -> List.length (Crypto.compress h block) = 8%nat.
Proof.
  intros H. unfold Crypto.compress. cbv zeta.
  rewrite List.length_map, List.length_combine, H. reflexivity.
Qed.

Lemma sha256_length (msg : list Z) : List.length (Crypto.sha256 msg) = 32%nat.
Proof.
  unfold Crypto.sha256. cbv zeta.
  assert (H : forall bl h, List.length h = 8%nat ->
                List.length (List.fold_left Crypto.compress bl h) = 8%nat).
  { induction bl as [|b bl IH]; intros h Hh; simpl; [assumption|].
    apply IH, compress_length, Hh. }
  specialize (H (Crypto.blocks (List.length (Crypto.words_of_bytes (Crypto.pad msg)))
                   (Crypto.words_of_bytes (Crypto.pad msg))) Crypto.H256 eq_refl).
  revert H.
  generalize (List.fold_left Crypto.compress
                (Crypto.blocks (List.length (Crypto.words_of_bytes (Crypto.pad msg)))
                   (Crypto.words_of_bytes (Crypto.pad msg))) Crypto.H256).
  intros h Hh.
  do 9 (destruct h as [|? h]; try discriminate). reflexivity.
Qed.

Lemma hex_digit_is_hex (d : Z) : 0 <= d < 16 -> is_hex (Crypto.hex_digit d) = true.
Proof.
  intros H.
  assert (Hd : In d [0; 1; 2; 3; 4; 5; 6; 7; 8; 9; 10; 11; 12; 13; 14; 15]).
  { simpl. lia. }
  simpl in Hd. repeat (destruct Hd as [<-|Hd]; [reflexivity|]). contradiction.
Qed.

Lemma hex_is_hex (bs : list Z) :
  Forall (fun b => 0 <= b < 256) bs ->
  Forall (fun c => is_hex c = true) (list_ascii_of_string (Crypto.hex bs)).
Proof.
  induction 1 as [|b bs Hb _ IH]; simpl; [constructor|].
  constructor; [|constructor; [|exact IH]]; apply hex_digit_is_hex.
  - rewrite Z.shiftr_div_pow2 by lia. change (2 ^ 4) with 16.
    split; [apply Z.div_pos; lia | apply Z.div_lt_upper_bound; lia].
  - change 15 with (Z.ones 4). rewrite Z.land_ones by lia. apply Z.mod_pos_bound. lia.
Qed.

Lemma hex_length (bs : list Z) : String.length (Crypto.hex bs) = (2 * List.length bs)%nat.
Proof. induction bs as [|b bs IH]; simpl; [reflexivity | rewrite IH; lia]. Qed.

End RuntimeProperties.

(** * Properties of the numbers *)

Module NumberProperties.
Import JS Vocabulary PaymentVocabulary.
Local Open Scope Z_scope.

(** ** Whole numbers up to 2^53 are computed exactly *)

Lemma odd_part_spec (p : positive) (e : Z) :
  e <= snd (odd_part p e) /\
  Zpos p = Zpos (fst (odd_part p e)) * 2 ^ (snd (odd_part p e) - e).
Proof.
  revert e. induction p as [p IH|p IH|]; intros e; cbn [odd_part fst snd].
  - rewrite Z.sub_diag. split; lia.
  - destruct (IH (e + 1)) as [Hle Heq]. split; [lia|].
    rewrite Pos2Z.inj_xO, Heq.
    replace (snd (odd_part p (e + 1)) - e) with (Z.succ (snd (odd_part p (e + 1)) - (e + 1)))
      by lia.
    rewrite Z.pow_succ_r by lia. lia.
  - rewrite Z.sub_diag. split; lia.
Qed.

(* Doubling the mantissa is adding one to the exponent. *)
Lemma finite_double (m e : Z) : finite (2 * m) e = finite m (e + 1).
Proof. destruct m as [|p|p]; reflexivity. Qed.

Lemma finite_shift (m e k : Z) : 0 <= k -> finite (m * 2 ^ k) e = finite m (e + k).
Proof.
  intros Hk. revert e. pattern k. apply natlike_ind; [| |exact Hk].
  - intros e. now rewrite Z.pow_0_r, Z.mul_1_r, Z.add_0_r.
  - intros x Hx IH e. rewrite Z.pow_succ_r by assumption.
    replace (m * (2 * 2 ^ x)) with (2 * (m * 2 ^ x)) by lia.
    rewrite finite_double, IH. f_equal; lia.
Qed.

(* What [finite] answers for a number that is not zero. *)
Lemma finite_spec (m e : Z) :
  m <> 0 ->
  exists m' e', finite m e = Finite m' e' /\ e <= e' /\ m = m' * 2 ^ (e' - e) /\
                (m' <? 0) = (m <? 0).
Proof.
  intros Hm. destruct m as [|p|p]; [contradiction| |];
    unfold finite; destruct (odd_part p e) as [p' e'] eqn:Hodd;
    pose proof (odd_part_spec p e) as [Hle Heq]; rewrite Hodd in Hle, Heq;
    cbn [fst snd] in Hle, Heq; eexists; eexists; (split; [reflexivity|]);
    (split; [assumption|]); (split; [|reflexivity]).
  - exact Heq.
  - rewrite <- !Pos2Z.opp_pos, Heq. lia.
Qed.

(* A number that is an integer is the normal form of that integer. *)
Lemma integer_of_finite (m e z : Z) :
  integer_of (Finite m e) = Some z -> finite m e = of_Z z.
Proof.
  unfold integer_of, of_Z. destruct (e >=? 0) eqn:He.
  - intros [= <-]. rewrite finite_shift by lia. f_equal; lia.
  - destruct (m mod 2 ^ (- e) =? 0) eqn:Hmod; [|discriminate]. intros [= <-].
    apply Z.eqb_eq in Hmod.
    assert (Hm : m = m / 2 ^ (- e) * 2 ^ (- e)).
    { pose proof (Z.div_mod m (2 ^ (- e))) as H.
      assert (2 ^ (- e) <> 0) by (apply Z.pow_nonzero; lia). lia. }
    rewrite Hm at 1. rewrite finite_shift by lia. f_equal; lia.
Qed.

Lemma integer_of_of_Z (z : Z) : integer_of (of_Z z) = Some z.
Proof.
  destruct (Z.eq_dec z 0) as [->|Hz]; [reflexivity|].
  unfold of_Z. destruct (finite_spec z 0 Hz) as (m' & e' & -> & Hle & Heq & _).
  unfold integer_of. replace (e' >=? 0) with true by lia.
  rewrite Z.sub_0_r in Heq. now rewrite <- Heq.
Qed.

(* An integer of at most 53 bits is a double. *)
Lemma round_double_integer (negative : bool) (a : Z) :
  0 < a <= 2 ^ 53 ->
  round_double negative a 1 = finite (if negative then - a else a) 0.
Proof.
  intros [Hpos Hle]. unfold round_double.
  replace (a <=? 0) with false by lia.
  change (Z.log2 1) with 0. rewrite Z.sub_0_r.
  pose proof (Z.log2_nonneg a) as Hl0.
  pose proof (Z.log2_spec a Hpos) as [Hlo Hhi].
  assert (Hl53 : Z.log2 a <= 53).
  { rewrite <- (Z.log2_pow2 53) by lia. apply Z.log2_le_mono. exact Hle. }
  cbv zeta.
  replace (Z.log2 a >=? 0) with true by lia.
  replace (1 * 2 ^ Z.log2 a <=? a) with true by lia.
  destruct (Z.eq_dec (Z.log2 a) 53) as [H53|H53].
  - (* a = 2^53 *)
    assert (Ha : a = 2 ^ 53).
    { rewrite H53 in Hlo. lia. }
    subst a. destruct negative; vm_compute; reflexivity.
  - assert (Hu : Z.max (Z.log2 a - 52) (-1074) = Z.log2 a - 52) by lia.
    rewrite Hu.
    assert (Hlt : a < 2 ^ 53).
    { apply Z.le_lteq in Hle. destruct Hle as [H|H]; [assumption|].
      exfalso. apply H53. rewrite H. reflexivity. }
    destruct (Z.log2 a - 52 >=? 0) eqn:Hge.
    + assert (Hz : Z.log2 a - 52 = 0) by lia. rewrite Hz.
      change (1 * 2 ^ 0) with 1. rewrite Z.div_1_r, Z.mod_1_r.
      change (2 * 0 <? 1) with true. cbv iota.
      change (Z.max 0 0) with 0. rewrite Z.pow_0_r, Z.mul_1_r.
      replace (2 ^ 1024 <=? a) with false; [reflexivity|].
      symmetry. apply Z.leb_gt. 
      apply Z.lt_trans with (2 ^ 53); [assumption | reflexivity].
    + set (k := - (Z.log2 a - 52)). assert (Hk : 0 < k) by (unfold k; lia).
      rewrite Z.div_1_r, Z.mod_1_r.
      change (2 * 0 <? 1) with true. cbv iota.
      replace (Z.max (Z.log2 a - 52) 0) with 0 by lia.
      rewrite Z.pow_0_r, Z.mul_1_r.
      assert (Hbound : a * 2 ^ k < 2 ^ 1024).
      { assert (k <= 52) by (unfold k; lia).
        assert (2 ^ k <= 2 ^ 52) by (apply Z.pow_le_mono_r; lia).
        assert (0 < 2 ^ k) by (apply Z.pow_pos_nonneg; lia).
        apply Z.lt_le_trans with (2 ^ 53 * 2 ^ 52); [nia | vm_compute; discriminate]. }
      replace (2 ^ 1024 <=? a * 2 ^ k) with false by (symmetry; apply Z.leb_gt; exact Hbound).
      replace (Z.log2 a - 52) with (- k) by (unfold k; lia).
      destruct negative.
      * replace (- (a * 2 ^ k)) with ((- a) * 2 ^ k) by lia.
        rewrite finite_shift by lia. f_equal; lia.
      * rewrite finite_shift by lia. f_equal; lia.
Qed.

(* Rounding an integer of at most 53 bits changes nothing. *)
Lemma round_finite_integer (m e z : Z) :
  finite m e = of_Z z -> Z.abs z <= 2 ^ 53 -> round_finite m e = of_Z z.
Proof.
  intros Hfinite Hz. unfold round_finite. rewrite Hfinite.
  destruct (Z.eq_dec z 0) as [->|Hne]; [reflexivity|].
  unfold of_Z at 1. destruct (finite_spec z 0 Hne) as (m' & e' & -> & Hle & Heq & Hsign).
  rewrite Z.sub_0_r in Heq.
  replace (e' >=? 0) with true by lia.
  assert (Habs : Z.abs m' * 2 ^ e' = Z.abs z).
  { rewrite Heq, Z.abs_mul. f_equal. apply eq_sym, Z.abs_eq. apply Z.pow_nonneg. lia. }
  rewrite Habs, Hsign, round_double_integer by lia.
  unfold of_Z. f_equal. destruct (z <? 0) eqn:Hneg; lia.
Qed.

(* m * 2^(e - k) is the integer times 2^(-k), for an exponent k at most e
   and at most 0. *)
Lemma integer_scaled (m e z k : Z) :
  integer_of (Finite m e) = Some z -> k <= e -> k <= 0 ->
  m * 2 ^ (e - k) = z * 2 ^ (- k).
Proof.
  unfold integer_of. intros H Hke Hk0. destruct (e >=? 0) eqn:He.
  - injection H as <-. now rewrite <- Z.mul_assoc, <- Z.pow_add_r by lia.
  - destruct (m mod 2 ^ (- e) =? 0) eqn:Hmod; [|discriminate]. injection H as <-.
    apply Z.eqb_eq in Hmod.
    assert (Hm : m = m / 2 ^ (- e) * 2 ^ (- e)).
    { pose proof (Z.div_mod m (2 ^ (- e))) as H.
      assert (2 ^ (- e) <> 0) by (apply Z.pow_nonzero; lia). lia. }
    rewrite Hm at 1. rewrite <- Z.mul_assoc, <- Z.pow_add_r by lia.
    replace (- e + (e - k)) with (- k) by lia. reflexivity.
Qed.

(* The sum of two integers, when it has at most 53 bits, is exact. *)
Lemma num_add_integers (x y : JSNumber) (a b : Z) :
  integer_of x = Some a -> integer_of y = Some b -> Z.abs (a + b) <= 2 ^ 53 ->
  num_add x y = of_Z (a + b).
Proof.
  intros Hx Hy Hsum.
  destruct x as [| |m1 e1]; try discriminate. destruct y as [| |m2 e2]; try discriminate.
  unfold num_add. apply round_finite_integer; [|assumption].
  set (e := Z.min e1 e2). set (k := Z.min e 0).
  (* bring the exponent down to k, which is at most 0 *)
  assert (Hshift : finite (m1 * 2 ^ (e1 - e) + m2 * 2 ^ (e2 - e)) e
                   = finite ((m1 * 2 ^ (e1 - e) + m2 * 2 ^ (e2 - e)) * 2 ^ (e - k)) k).
  { rewrite finite_shift by (unfold k; lia). f_equal; lia. }
  rewrite Hshift.
  assert (Hvalue : (m1 * 2 ^ (e1 - e) + m2 * 2 ^ (e2 - e)) * 2 ^ (e - k) = (a + b) * 2 ^ (- k)).
  { rewrite Z.mul_add_distr_r, <- !Z.mul_assoc, <- !Z.pow_add_r by (unfold e, k; lia).
    replace (e1 - e + (e - k)) with (e1 - k) by lia.
    replace (e2 - e + (e - k)) with (e2 - k) by lia.
    rewrite (integer_scaled m1 e1 a k Hx), (integer_scaled m2 e2 b k Hy)
      by (unfold e, k; lia).
    lia. }
  rewrite Hvalue, finite_shift by (unfold k; lia).
  unfold of_Z. f_equal; lia.
Qed.

(* The product of two integers, when it has at most 53 bits, is exact. *)
Lemma num_mul_integers (x y : JSNumber) (a b : Z) :
  integer_of x = Some a -> integer_of y = Some b -> Z.abs (a * b) <= 2 ^ 53 ->
  num_mul x y = of_Z (a * b).
Proof.
  intros Hx Hy Hproduct.
  destruct x as [| |m1 e1]; try discriminate. destruct y as [| |m2 e2]; try discriminate.
  unfold num_mul. apply round_finite_integer; [|assumption].
  set (k1 := Z.min e1 0). set (k2 := Z.min e2 0).
  assert (Hshift : finite (m1 * m2) (e1 + e2)
                   = finite (m1 * m2 * 2 ^ (e1 - k1 + (e2 - k2))) (k1 + k2)).
  { rewrite finite_shift by (unfold k1, k2; lia). f_equal; lia. }
  rewrite Hshift.
  assert (Hvalue : m1 * m2 * 2 ^ (e1 - k1 + (e2 - k2)) = a * b * 2 ^ (- (k1 + k2))).
  { rewrite Z.pow_add_r by (unfold k1, k2; lia).
    replace (m1 * m2 * (2 ^ (e1 - k1) * 2 ^ (e2 - k2)))
      with ((m1 * 2 ^ (e1 - k1)) * (m2 * 2 ^ (e2 - k2))) by ring.
    rewrite (integer_scaled m1 e1 a k1 Hx), (integer_scaled m2 e2 b k2 Hy)
      by (unfold k1, k2; lia).
    replace (- (k1 + k2)) with (- k1 + - k2) by lia.
    rewrite Z.pow_add_r by (unfold k1, k2; lia). ring. }
  rewrite Hvalue, finite_shift by (unfold k1, k2; lia).
  unfold of_Z. f_equal; lia.
Qed.

(* A whole number of milliseconds within the range of Date is a time value. *)
Lemma new_Date_of_Z (z : Z) : Z.abs z <= latest -> new_Date (of_Z z) = Some z.
Proof.
  intros Hz. destruct (Z.eq_dec z 0) as [->|Hne]; [reflexivity|].
  unfold of_Z. destruct (finite_spec z 0 Hne) as (m' & e' & -> & Hle & Heq & _).
  rewrite Z.sub_0_r in Heq. unfold new_Date.
  replace (e' >=? 0) with true by lia.
  assert (Habs : Z.abs m' * 2 ^ e' = Z.abs z).
  { rewrite Heq, Z.abs_mul. f_equal. apply eq_sym, Z.abs_eq. apply Z.pow_nonneg. lia. }
  rewrite Habs. unfold latest in Hz.
  replace (8640000000000000 <? Z.abs z) with false by lia.
  now rewrite <- Heq.
Qed.

(* The window of a whole number of minutes is added exactly. *)
Lemma expiry_exact (cfg : MercadoPagoBuilder.MercadoPagoConfig) (now minutes : Z) :
  whole_minutes cfg = Some minutes ->
  0 <= minutes -> 0 <= now -> now + minutes * 60000 <= latest ->
  expiry cfg now = Some (now + minutes * 60000).
Proof.
  unfold whole_minutes, expiry, latest. intros Hminutes Hm Hnow Hlate.
  rewrite (num_mul_integers _ (of_Z 60) minutes 60 Hminutes (integer_of_of_Z 60))
    by (rewrite Z.abs_eq; lia).
  rewrite (num_mul_integers _ (of_Z 1000) (minutes * 60) 1000 (integer_of_of_Z _)
             (integer_of_of_Z 1000)) by (rewrite Z.abs_eq; lia).
  rewrite (num_add_integers _ _ now (minutes * 60 * 1000) (integer_of_of_Z now)
             (integer_of_of_Z _)) by (rewrite Z.abs_eq; lia).
  rewrite new_Date_of_Z by (unfold latest; rewrite Z.abs_eq; lia).
  f_equal. lia.
Qed.

(** ** Rounding keeps a number that is at least 1 at least 1 *)

Lemma finite_at_least_one (m e : Z) :
  at_least_one (Finite m e) = true -> at_least_one (finite m e) = true.
Proof.
  intros H.
  assert (Hm : 0 < m).
  { cbn in H. destruct (e >=? 0) eqn:Hsigne; [lia|].
    assert (0 < 2 ^ (- e)) by (apply Z.pow_pos_nonneg; lia). lia. }
  destruct (finite_spec m e ltac:(lia)) as (m' & e' & -> & Hle & Heq & Hsign).
  assert (Hpow : 0 < 2 ^ (e' - e)) by (apply Z.pow_pos_nonneg; lia).
  assert (Hm' : 0 < m') by nia.
  cbn in H |- *. destruct (e' >=? 0) eqn:He'; [lia|].
  replace (e >=? 0) with false in H by lia.
  apply Z.leb_le in H. apply Z.leb_le.
  replace (- e) with (- e' + (e' - e)) in H by lia.
  rewrite Z.pow_add_r in H by lia. rewrite Heq in H.
  assert (0 < 2 ^ (- e')) by (apply Z.pow_pos_nonneg; lia). nia.
Qed.

Lemma round_double_at_least_one (num den : Z) :
  0 < den -> den <= num -> at_least_one (round_double false num den) = true.
Proof.
  intros Hden Hnum. unfold round_double.
  replace (num <=? 0) with false by lia.
  set (l := Z.log2 num - Z.log2 den).
  assert (Hl : 0 <= l) by (unfold l; pose proof (Z.log2_le_mono den num Hnum); lia).
  replace (l >=? 0) with true by lia.
  remember (den * 2 ^ l <=? num) as ge eqn:Hge.
  set (p := if ge then l else l - 1).
  set (u := Z.max (p - 52) (-1074)).
  (* the divisor is at most the dividend *)
  assert (Hdivisor : 0 <= u -> den * 2 ^ u <= num).
  { intros Hu.
    assert (Hup : u <= p) by (unfold u; lia).
    assert (Hp : den * 2 ^ p <= num).
    { unfold u, p in *. destruct ge; [lia|].
      assert (1 <= l) by lia.
      pose proof (Z.log2_spec den Hden) as [_ Hhi].
      pose proof (Z.log2_spec num ltac:(lia)) as [Hlo _].
      pose proof (Z.log2_nonneg den) as Hd0.
      replace (Z.log2 num) with (Z.succ (Z.log2 den) + (l - 1)) in Hlo by (unfold l; lia).
      rewrite Z.pow_add_r in Hlo by lia.
      assert (0 < 2 ^ (l - 1)) by (apply Z.pow_pos_nonneg; lia). nia. }
    assert (2 ^ u <= 2 ^ p) by (apply Z.pow_le_mono_r; lia).
    assert (0 < 2 ^ u) by (apply Z.pow_pos_nonneg; lia). nia. }
  set (n' := if u >=? 0 then num else num * 2 ^ (- u)).
  set (d' := if u >=? 0 then den * 2 ^ u else den).
  assert (Hd' : 0 < d').
  { unfold d'. destruct (u >=? 0) eqn:Hu; [|assumption].
    assert (0 < 2 ^ u) by (apply Z.pow_pos_nonneg; lia). nia. }
  assert (Hq : (if u >=? 0 then 1 else 2 ^ (- u)) <= n' / d').
  { unfold n', d'. destruct (u >=? 0) eqn:Hu.
    - apply Z.div_le_lower_bound; [|rewrite Z.mul_1_r; apply Hdivisor; lia].
      assert (0 < 2 ^ u) by (apply Z.pow_pos_nonneg; lia). nia.
    - apply Z.div_le_lower_bound; [assumption|].
      assert (0 < 2 ^ (- u)) by (apply Z.pow_pos_nonneg; lia). nia. }
  cbv zeta. fold n' d'.
  set (q' := if 2 * (n' mod d') <? d' then n' / d'
             else if d' <? 2 * (n' mod d') then n' / d' + 1
             else if Z.even (n' / d') then n' / d' else n' / d' + 1).
  assert (Hq' : n' / d' <= q').
  { unfold q'. destruct (2 * (n' mod d') <? d'); [lia|].
    destruct (d' <? 2 * (n' mod d')); [lia|].
    destruct (Z.even (n' / d')); lia. }
  destruct (2 ^ 1024 <=? q' * 2 ^ Z.max u 0); [reflexivity|].
  apply finite_at_least_one. cbn. destruct (u >=? 0) eqn:Hu; lia.
Qed.

Lemma round_finite_at_least_one (m e : Z) :
  at_least_one (Finite m e) = true -> at_least_one (round_finite m e) = true.
Proof.
  intros H. pose proof (finite_at_least_one m e H) as Hnormal.
  assert (Hm : m <> 0).
  { cbn in H. destruct (e >=? 0) eqn:Hsigne; [lia|].
    assert (0 < 2 ^ (- e)) by (apply Z.pow_pos_nonneg; lia). lia. }
  unfold round_finite.
  destruct (finite_spec m e Hm) as (m' & e' & Hfinite & _). rewrite Hfinite in Hnormal |- *.
  cbn in Hnormal. destruct (e' >=? 0) eqn:He'.
  - assert (0 < 2 ^ e') by (apply Z.pow_pos_nonneg; lia).
    replace (m' <? 0) with false by lia.
    apply round_double_at_least_one; [lia|]. rewrite Z.abs_eq by lia. nia.
  - assert (0 < 2 ^ (- e')) by (apply Z.pow_pos_nonneg; lia).
    replace (m' <? 0) with false by lia.
    apply round_double_at_least_one; [assumption|]. rewrite Z.abs_eq by lia. lia.
Qed.

Lemma at_least_one_not_negative (x : JSNumber) :
  at_least_one x = true -> not_negative x = true.
Proof.
  destruct x as [|negative|m e]; cbn; try (intros; assumption).
  destruct (e >=? 0) eqn:Hsigne; [lia|].
  assert (0 < 2 ^ (- e)) by (apply Z.pow_pos_nonneg; lia). lia.
Qed.

Lemma num_mul_at_least_one (x y : JSNumber) :
  at_least_one x = true -> at_least_one y = true -> at_least_one (num_mul x y) = true.
Proof.
  intros Hx Hy. pose proof (at_least_one_not_negative x Hx) as Hx0.
  pose proof (at_least_one_not_negative y Hy) as Hy0.
  destruct x as [|a|m1 e1]; [discriminate| |]; destruct y as [|b|m2 e2]; try discriminate.
  - cbn in *. now destruct a, b.
  - cbn in Hx, Hy, Hy0 |- *.
    assert (0 < m2).
    { destruct (e2 >=? 0) eqn:Hsigne2; [lia|].
      assert (0 < 2 ^ (- e2)) by (apply Z.pow_pos_nonneg; lia). lia. }
    replace (m2 =? 0) with false by lia. replace (m2 <? 0) with false by lia.
    now destruct a.
  - cbn in Hx, Hy, Hx0 |- *.
    assert (0 < m1).
    { destruct (e1 >=? 0) eqn:Hsigne1; [lia|].
      assert (0 < 2 ^ (- e1)) by (apply Z.pow_pos_nonneg; lia). lia. }
    replace (m1 =? 0) with false by lia. replace (m1 <? 0) with false by lia.
    now destruct b.
  - unfold num_mul. apply round_finite_at_least_one. cbn in Hx, Hy |- *.
    destruct (e1 >=? 0) eqn:H1, (e2 >=? 0) eqn:H2.
    + replace (e1 + e2 >=? 0) with true by lia. nia.
    + assert (0 < 2 ^ (- e2)) by (apply Z.pow_pos_nonneg; lia).
      destruct (e1 + e2 >=? 0) eqn:H12; [nia|].
      assert (2 ^ (- (e1 + e2)) <= 2 ^ (- e2)) by (apply Z.pow_le_mono_r; lia). 
      apply Z.leb_le. apply Z.leb_le in Hy. nia.
    + assert (0 < 2 ^ (- e1)) by (apply Z.pow_pos_nonneg; lia).
      destruct (e1 + e2 >=? 0) eqn:H12; [nia|].
      assert (2 ^ (- (e1 + e2)) <= 2 ^ (- e1)) by (apply Z.pow_le_mono_r; lia).
      apply Z.leb_le. apply Z.leb_le in Hx. nia.
    + replace (e1 + e2 >=? 0) with false by lia.
      replace (- (e1 + e2)) with (- e1 + - e2) by lia. rewrite Z.pow_add_r by lia.
      assert (0 < 2 ^ (- e1)) by (apply Z.pow_pos_nonneg; lia).
      assert (0 < 2 ^ (- e2)) by (apply Z.pow_pos_nonneg; lia).
      apply Z.leb_le. apply Z.leb_le in Hx, Hy. nia.
Qed.

Lemma num_add_at_least_one (x y : JSNumber) :
  not_negative x = true -> at_least_one y = true -> at_least_one (num_add x y) = true.
Proof.
  intros Hx Hy.
  destruct x as [|a|m1 e1]; [discriminate| |]; destruct y as [|b|m2 e2]; try discriminate.
  - cbn in *. now destruct a, b.
  - cbn in *. assumption.
  - cbn in *. assumption.
  - unfold num_add. apply round_finite_at_least_one. cbn in Hx, Hy |- *.
    set (e := Z.min e1 e2).
    assert (H1 : 0 <= m1 * 2 ^ (e1 - e)).
    { assert (0 < 2 ^ (e1 - e)) by (apply Z.pow_pos_nonneg; unfold e; lia). nia. }
    assert (H2pow : 0 < 2 ^ (e2 - e)) by (apply Z.pow_pos_nonneg; unfold e; lia).
    destruct (e >=? 0) eqn:He.
    + replace (e2 >=? 0) with true in Hy by (unfold e in He; lia). nia.
    + apply Z.leb_le.
      cut (2 ^ (- e) <= m2 * 2 ^ (e2 - e)); [lia|].
      destruct (e2 >=? 0) eqn:He2.
      * assert (2 ^ (- e) <= 2 ^ (e2 - e)) by (apply Z.pow_le_mono_r; lia). nia.
      * apply Z.leb_le in Hy.
        replace (- e) with (- e2 + (e2 - e)) by lia. rewrite Z.pow_add_r by (unfold e; lia).
        nia.
Qed.

(* An integer that is positive is at least 1. *)
Lemma integer_at_least_one (x : JSNumber) :
  Number_isInteger x = true -> num_le0 x = false -> at_least_one x = true.
Proof.
  destruct x as [|negative|m e]; cbn; try discriminate.
  destruct (e >=? 0) eqn:Hsigne; [lia|]. intros Hmod Hpos.
  apply Z.eqb_eq in Hmod.
  assert (Hpow : 0 < 2 ^ (- e)) by (apply Z.pow_pos_nonneg; lia).
  pose proof (Z.div_mod m (2 ^ (- e)) ltac:(lia)) as Hdiv.
  apply Z.leb_le.
  assert (0 < m / 2 ^ (- e)) by nia. nia.
Qed.

End NumberProperties.


(** * Properties of the validator *)

Module PaymentValidatorProperties.
Import JS PaymentValidator Vocabulary Examples.
Local Infix "+++" := String.append (right associativity, at level 60).

(** ** C4: the inputs on which the validator throws *)

Example widget_request_is_valid :
  (do data <- JSON_parse payload_widget ;; validatePaymentRequest data)
  = Return {| isValid := true; errors := [] |}.
Proof. vm_compute. reflexivity. Qed.

Example empty_object_is_reported :
  validatePaymentRequest (JObject [])
  = Return {| isValid := false;
              errors := ["customer_info es requerido"; "items es requerido"]%string |}.
Proof. vm_compute. reflexivity. Qed.

(** C4 fails on the code: for a customer name that is a number the validator
    calls trim on it, without the typeof test that guards the title, the
    description and the id of an item, and throws a TypeError instead of
    returning a result. *)
Theorem C4_validator_throws_on_numeric_name :
  (do data <- JSON_parse payload_numeric_name ;; validatePaymentRequest data)
  = Throw (TypeError "data.customer_info.name.trim is not a function").
Proof. vm_compute. reflexivity. Qed.

(* So does it on null and on undefined, and on an item that is null. *)
Lemma validator_throws_on_nullish (data : JSValue) :
  nullish data = true -> returns (validatePaymentRequest data) = false.
Proof. destruct data; simpl; intros H; try discriminate; reflexivity. Qed.

Example validator_throws_on_null_item :
  returns (do data <- JSON_parse
                        (json "{'customer_info':{'email':'a@b.com','name':'Jo'},'items':[null]}") ;;
           validatePaymentRequest data) = false.
Proof. vm_compute. reflexivity. Qed.

(** ** C8: the messages of all items are in the result *)

Lemma push_In (errors : list string) (message x : string) :
  In x (push errors message) <-> In x errors \/ x = message.
Proof. unfold push. rewrite List.in_app_iff. simpl. intuition. Qed.

Lemma push_all_In (errors messages : list string) (x : string) :
  In x (push_all errors messages) <-> In x errors \/ In x messages.
Proof. unfold push_all. apply List.in_app_iff. Qed.

(* A check only adds to the errors. *)
Lemma check_title_keeps (itemPrefix : string) (v : JSValue) (errors : list string) (x : string) :
  In x errors -> In x (check_title itemPrefix v errors).
Proof.
  unfold check_title. intros H.
  destruct (negb (truthy v)); [apply push_In; auto|].
  destruct v; try (apply push_In; auto).
  destruct (js_length (trim s) <? 3)%nat; [apply push_In|]; auto.
Qed.

Lemma check_quantity_keeps (itemPrefix : string) (v : JSValue) (errors : list string)
    (x : string) :
  In x errors -> In x (check_quantity itemPrefix v errors).
Proof.
  unfold check_quantity. intros H.
  destruct (nullish v); [apply push_In; auto|].
  destruct (_ || _); [apply push_In|]; auto.
Qed.

Lemma check_unit_price_keeps (itemPrefix : string) (v : JSValue) (errors : list string)
    (x : string) :
  In x errors -> In x (check_unit_price itemPrefix v errors).
Proof.
  unfold check_unit_price. intros H.
  destruct (nullish v); [apply push_In; auto|].
  destruct (_ || _); [apply push_In; auto|].
  destruct (negb (isInteger v)); [apply push_In|]; auto.
Qed.

Lemma check_description_keeps (itemPrefix : string) (v : JSValue) (errors : list string)
    (x : string) :
  In x errors -> In x (check_description itemPrefix v errors).
Proof.
  unfold check_description. intros H.
  destruct (negb (nullish v)); [|assumption].
  destruct v; try (apply push_In; auto).
  destruct (_ && _); [apply push_In|]; auto.
Qed.

Lemma check_id_keeps (itemPrefix : string) (v : JSValue) (errors : list string) (x : string) :
  In x errors -> In x (check_id itemPrefix v errors).
Proof.
  unfold check_id. intros H.
  destruct (negb (nullish v)); [|assumption].
  destruct v; try (apply push_In; auto).
  destruct (_ =? _)%nat; [apply push_In|]; auto.
Qed.

(* A quantity of 0 is reported. *)
Lemma check_quantity_zero (itemPrefix : string) (q : JSNumber) (errors : list string) :
  num_is_zero q = true ->
  In (itemPrefix +++ ": cantidad debe ser un número entero mayor a 0")
     (check_quantity itemPrefix (JNumber q) errors).
Proof.
  intros Hzero. unfold check_quantity. simpl.
  assert (Hle : num_le0 q = true).
  { destruct q as [| |m e]; simpl in *; try discriminate.
    apply Z.eqb_eq in Hzero. subst m. reflexivity. }
  rewrite Hle, Bool.orb_true_r. apply push_In. auto.
Qed.

(* A unit price that is not an integer is reported, as not positive when it
   is not, and as not an integer otherwise. *)
Lemma check_unit_price_fraction (itemPrefix : string) (p : JSNumber) (errors : list string) :
  Number_isInteger p = false ->
  In (itemPrefix +++ (if num_le0 p then ": precio unitario debe ser un número mayor a 0"
                      else ": precio unitario debe ser un número entero"))
     (check_unit_price itemPrefix (JNumber p) errors).
Proof.
  intros Hint. unfold check_unit_price. simpl. rewrite Hint. simpl.
  destruct (num_le0 p); apply push_In; auto.
Qed.

Lemma get_returns (v : JSValue) (key : string) (x : JSValue) :
  get v key = Return x -> forall k, get v k = Return (get_optional v k).
Proof. destruct v; simpl; intros H k; try discriminate; reflexivity. Qed.

(* The message for a quantity of 0 and the message for a unit price that is
   not an integer. *)
Lemma validatePaymentItem_defects (item : JSValue) (index : nat) (q p : JSNumber)
    (itemErrors : list string) :
  validatePaymentItem item index = Return itemErrors ->
  get item "quantity" = Return (JNumber q) ->
  num_is_zero q = true ->
  get item "unit_price" = Return (JNumber p) ->
  Number_isInteger p = false ->
  In ("Item " +++ decimal (Z.of_nat index + 1)
        +++ ": cantidad debe ser un número entero mayor a 0") itemErrors /\
  In ("Item " +++ decimal (Z.of_nat index + 1)
        +++ (if num_le0 p then ": precio unitario debe ser un número mayor a 0"
             else ": precio unitario debe ser un número entero")) itemErrors.
Proof.
  intros Hitem Hq Hzero Hp Hint. unfold validatePaymentItem in Hitem.
  rewrite Hq, Hp in Hitem.
  rewrite !(get_returns item _ _ Hq) in Hitem. cbn [bind] in Hitem.
  injection Hitem as <-. split.
  - apply check_id_keeps, check_description_keeps, check_unit_price_keeps.
    apply (check_quantity_zero ("Item " +++ decimal (Z.of_nat index + 1))), Hzero.
  - apply check_id_keeps, check_description_keeps.
    apply (check_unit_price_fraction ("Item " +++ decimal (Z.of_nat index + 1))), Hint.
Qed.

(* The loop over the items keeps what was pushed before it and pushes the
   messages of every item. *)
Lemma forEach_item_accumulates (items : list JSValue) (first : nat)
    (errors result : list string) :
  forEach_item items first errors = Return result ->
  incl errors result /\
  forall index item,
    List.nth_error items index = Some item ->
    exists itemErrors,
      validatePaymentItem item (first + index) = Return itemErrors /\
      incl itemErrors result.
Proof.
  revert first errors. induction items as [|item0 items IH]; intros first errors H; simpl in H.
  - injection H as <-. split; [apply List.incl_refl|].
    intros [|index] item Hnth; discriminate.
  - destruct (validatePaymentItem item0 first) as [errors0|e] eqn:H0; [|discriminate].
    simpl in H. apply IH in H as [Hkept Hrest]. split.
    + intros x Hx. apply Hkept, push_all_In. auto.
    + intros [|index] item Hnth; simpl in Hnth.
      * injection Hnth as <-. exists errors0. rewrite Nat.add_0_r. split; [assumption|].
        intros x Hx. apply Hkept, push_all_In. auto.
      * destruct (Hrest index item Hnth) as (itemErrors & Hitem & Hincl).
        exists itemErrors. split; [|assumption].
        now replace (first + S index)%nat with (S first + index)%nat by lia.
Qed.

(* When the validator returns, the messages of every item are in its result. *)
Lemma item_errors_in_result (data : JSValue) (items : list JSValue)
    (result : ValidationResult) :
  get data "items" = Return (JArray items) ->
  validatePaymentRequest data = Return result ->
  forall index item,
    List.nth_error items index = Some item ->
    exists itemErrors,
      validatePaymentItem item index = Return itemErrors /\
      incl itemErrors (errors result).
Proof.
  intros Hitems Hresult. unfold validatePaymentRequest in Hresult.
  destruct (validate_customer_info data []) as [errors1|e]; [|discriminate].
  simpl in Hresult. unfold validate_items in Hresult. rewrite Hitems in Hresult.
  simpl in Hresult.
  destruct items as [|item0 items'].
  - intros [|index] item Hnth; discriminate.
  - set (l := item0 :: items') in *. change (List.length l =? 0)%nat with false in Hresult.
    destruct (forEach_item l 0 errors1) as [errors2|e] eqn:Hloop; [|discriminate].
    simpl in Hresult. injection Hresult as <-. simpl.
    apply forEach_item_accumulates in Hloop as [_ Hloop]. exact Hloop.
Qed.

(* The validator returns on the payloads that it can read. *)
Lemma validatePaymentItem_returns (item : JSValue) (index : nat) :
  nullish item = false -> returns (validatePaymentItem item index) = true.
Proof.
  intros H. unfold validatePaymentItem.
  assert (Hget : forall k, get item k = Return (get_optional item k)).
  { destruct item; try discriminate; reflexivity. }
  rewrite !Hget. reflexivity.
Qed.

Lemma forEach_item_returns (items : list JSValue) (first : nat) (errors : list string) :
  items_readable items -> returns (forEach_item items first errors) = true.
Proof.
  intros H. revert first errors. induction H as [|item items Hitem _ IH]; intros first errors.
  - reflexivity.
  - simpl. pose proof (validatePaymentItem_returns item first Hitem) as Hr.
    destruct (validatePaymentItem item first); [|discriminate]. simpl. apply IH.
Qed.

Lemma validate_customer_info_returns (data : JSValue) (errors : list string) :
  nullish data = false ->
  customer_readable data ->
  returns (validate_customer_info data errors) = true.
Proof.
  intros Hdata Hreadable. unfold validate_customer_info.
  assert (Hget : forall k, get data k = Return (get_optional data k)).
  { destruct data; try discriminate; reflexivity. }
  rewrite Hget. simpl. unfold customer_readable in Hreadable.
  destruct (truthy (get_optional data "customer_info")) eqn:Hci; [|reflexivity].
  destruct (Hreadable eq_refl) as [Hemail Hname]. simpl.
  assert (Hget' : forall k, get (get_optional data "customer_info") k
                            = Return (get_optional (get_optional data "customer_info") k)).
  { destruct (get_optional data "customer_info"); try discriminate; reflexivity. }
  rewrite !Hget'. simpl.
  set (email := get_optional (get_optional data "customer_info") "email") in *.
  set (name := get_optional (get_optional data "customer_info") "name") in *.
  assert (Hname' : forall errors',
            returns (if negb (truthy name)
                     then Return (push errors' "Nombre del cliente es requerido")
                     else match name with
                          | JString n =>
                              Return (if (js_length (trim n) <? 2)%nat
                                      then push errors'
                                             "Nombre del cliente debe tener al menos 2 caracteres"
                                      else errors')
                          | _ => Throw (TypeError "data.customer_info.name.trim is not a function")
                          end) = true).
  { intros errors'. destruct (truthy name); [|reflexivity].
    specialize (Hname eq_refl). destruct name; try discriminate. reflexivity. }
  destruct (truthy email); simpl.
  - specialize (Hemail eq_refl). unfold isValidEmail.
    destruct (ToString email); [|discriminate]. simpl. apply Hname'.
  - apply Hname'.
Qed.

(** C8, the claim as stated, fails: the item with quantity 0 and unit price
    10.5 has its two messages, but in a payload where null follows it the
    validator throws on the second item and returns no errors list at all. *)
Lemma C8_null_item_stops_validation :
  validatePaymentItem item_two_defects 0
  = Return [ "Item 1: cantidad debe ser un número entero mayor a 0";
             "Item 1: precio unitario debe ser un número entero" ]%string /\
  get payload_defects_then_null "items" = Return (JArray [item_two_defects; JNull]) /\
  validatePaymentRequest payload_defects_then_null
  = Throw (TypeError "Cannot read properties of null (reading 'title')").
Proof. vm_compute. auto. Qed.

(** C8, as amended: for every payload whose items are an array, the validator
    returns a result when it can read the payload (a customer whose email,
    when there is one, converts to a string and whose name, when there is
    one, is a string, and no item that is null or undefined), and every
    result that it returns holds the messages of every item, those of a later
    item as well as those of the first that fails; in particular an item with
    quantity 0 and a unit price that is not an integer has in the returned
    errors its quantity message and a unit-price message: 'debe ser un número
    mayor a 0' when the price is less than 0, 'debe ser un número entero'
    otherwise. *)
Theorem C8_item_errors_are_accumulated (data : JSValue) (items : list JSValue) :
  get data "items" = Return (JArray items) ->
  (customer_readable data -> items_readable items ->
   exists result, validatePaymentRequest data = Return result) /\
  forall result,
    validatePaymentRequest data = Return result ->
    (forall index item,
       List.nth_error items index = Some item ->
       exists itemErrors,
         validatePaymentItem item index = Return itemErrors /\
         incl itemErrors (errors result)) /\
    (forall index item q p,
       List.nth_error items index = Some item ->
       get item "quantity" = Return (JNumber q) ->
       num_is_zero q = true ->
       get item "unit_price" = Return (JNumber p) ->
       Number_isInteger p = false ->
       In ("Item " +++ decimal (Z.of_nat index + 1)
             +++ ": cantidad debe ser un número entero mayor a 0") (errors result) /\
       In ("Item " +++ decimal (Z.of_nat index + 1)
             +++ (if num_le0 p then ": precio unitario debe ser un número mayor a 0"
                  else ": precio unitario debe ser un número entero")) (errors result)).
Proof.
  intros Hitems.
  assert (Hdata : nullish data = false) by (destruct data; try discriminate; reflexivity).
  split.
  { intros Hcustomer Hreadable. unfold validatePaymentRequest.
    pose proof (validate_customer_info_returns data [] Hdata Hcustomer) as H1.
    destruct (validate_customer_info data []) as [errors1|e]; [|discriminate]. simpl.
    unfold validate_items. rewrite Hitems. simpl.
    destruct items as [|item0 items']; [simpl; eauto|].
    set (l := item0 :: items') in *. change (List.length l =? 0)%nat with false. cbn iota.
    pose proof (forEach_item_returns l 0 errors1 Hreadable) as H2.
    destruct (forEach_item l 0 errors1); [|discriminate]. simpl. eauto. }
  intros result Hresult.
  pose proof (item_errors_in_result data items result Hitems Hresult) as Hall.
  split; [exact Hall|].
  intros index item q p Hnth Hq Hzero Hp Hint.
  destruct (Hall index item Hnth) as (itemErrors & Hitem & Hincl).
  destruct (validatePaymentItem_defects item index q p itemErrors Hitem Hq Hzero Hp Hint)
    as [H1 H2].
  split; apply Hincl; assumption.
Qed.

(* The item with quantity 0 and unit price 10.5. *)
Lemma C8_item_errors_are_accumulated_witness :
  exists result,
    validatePaymentRequest payload_two_defects = Return result /\
    In "Item 1: cantidad debe ser un número entero mayor a 0"%string (errors result) /\
    In "Item 1: precio unitario debe ser un número entero"%string (errors result).
Proof.
  destruct (C8_item_errors_are_accumulated payload_two_defects [item_two_defects] eq_refl)
    as (Hreturns & Haccumulated).
  destruct Hreturns as [result Hresult].
  - intros _. split; intros _; reflexivity.
  - repeat constructor.
  - exists result. split; [exact Hresult|].
    destruct (Haccumulated result Hresult) as (_ & Hdefects).
    apply (Hdefects 0%nat item_two_defects (Finite 0 0) (Finite 21 (-1))); reflexivity.
Defined.

Example two_defects_text :
  JSON_parse
    (json "{'customer_info':{'email':'a@b.com','name':'Jo'},'items':[{'title':'Widget','quantity':0,'unit_price':10.5}]}")
  = Return payload_two_defects.
Proof. vm_compute. reflexivity. Qed.

(* The messages of two items, both kept. *)
Example two_items_both_reported :
  (do data <- JSON_parse
                (json "{'customer_info':{'email':'a@b.com','name':'Jo'},'items':[{'title':'ab','quantity':1,'unit_price':1},{'title':'Widget','quantity':0,'unit_price':1}]}") ;;
   validatePaymentRequest data)
  = Return {| isValid := false;
              errors := [ "Item 1: título debe tener al menos 3 caracteres";
                          "Item 2: cantidad debe ser un número entero mayor a 0" ]%string |}.
Proof. vm_compute. reflexivity. Qed.

(** * Further properties of the validator *)

(** ** The payloads that are valid *)

Lemma push_not_nil (errors : list string) (message : string) : push errors message <> [].
Proof. unfold push. destruct errors; discriminate. Qed.

(* The two directions, once every test is decided. *)
Ltac nil_done :=
  split;
  [ intros H; first [ now apply push_not_nil in H | subst; auto ]
  | intros [H1 H2]; first [ discriminate | subst; auto ] ].

Ltac nil_cases :=
  cbn [truthy nullish negb isInteger is_number orb andb];
  repeat match goal with
         | |- context [if ?c then _ else _] => destruct c eqn:?
         end;
  nil_done.

Lemma check_title_nil (itemPrefix : string) (v : JSValue) (errors : list string) :
  check_title itemPrefix v errors = [] <->
  errors = [] /\
  match v with JString t => (3 <=? js_length (trim t))%nat | _ => false end = true.
Proof.
  unfold check_title. destruct v as [| |b|n|s|l|props]; try (nil_cases; fail).
  cbn [truthy]. rewrite Bool.negb_involutive, Nat.ltb_antisym.
  destruct (String.eqb_spec s "") as [->|Hne]; [nil_done|].
  destruct (3 <=? js_length (trim s))%nat; cbn [negb]; nil_done.
Qed.

Lemma check_quantity_nil (itemPrefix : string) (v : JSValue) (errors : list string) :
  check_quantity itemPrefix v errors = [] <->
  errors = [] /\
  match v with JNumber q => Number_isInteger q && negb (num_le0 q) | _ => false end = true.
Proof.
  unfold check_quantity. destruct v as [| |b|n|s|l|props]; try (nil_cases; fail).
  cbn [nullish isInteger].
  destruct (Number_isInteger n), (num_le0 n); cbn [negb orb andb]; nil_done.
Qed.

Lemma check_unit_price_nil (itemPrefix : string) (v : JSValue) (errors : list string) :
  check_unit_price itemPrefix v errors = [] <->
  errors = [] /\
  match v with JNumber p => Number_isInteger p && negb (num_le0 p) | _ => false end = true.
Proof.
  unfold check_unit_price. destruct v as [| |b|n|s|l|props]; try (nil_cases; fail).
  cbn [nullish isInteger is_number].
  destruct (Number_isInteger n), (num_le0 n); cbn [negb orb andb]; nil_done.
Qed.

Lemma check_description_nil (itemPrefix : string) (v : JSValue) (errors : list string) :
  check_description itemPrefix v errors = [] <->
  errors = [] /\
  match v with
  | JUndefined | JNull => true
  | JString d => (js_length (trim d) =? 0)%nat || (5 <=? js_length (trim d))%nat
  | _ => false
  end = true.
Proof.
  unfold check_description. destruct v as [| |b|n|s|l|props]; try (nil_cases; fail).
  cbn [nullish negb]. rewrite Nat.ltb_antisym, Nat.ltb_antisym.
  replace (js_length (trim s) <=? 0)%nat with (js_length (trim s) =? 0)%nat
    by (destruct (js_length (trim s)); reflexivity).
  destruct (js_length (trim s) =? 0)%nat, (5 <=? js_length (trim s))%nat;
    cbn [negb orb andb]; nil_done.
Qed.

Lemma check_id_nil (itemPrefix : string) (v : JSValue) (errors : list string) :
  check_id itemPrefix v errors = [] <->
  errors = [] /\
  match v with
  | JUndefined | JNull => true
  | JString i => negb (js_length (trim i) =? 0)%nat
  | _ => false
  end = true.
Proof.
  unfold check_id. destruct v as [| |b|n|s|l|props]; nil_cases.
Qed.

(* An item gets no message exactly when it meets the constraints. *)
Lemma validatePaymentItem_nil (item : JSValue) (index : nat) :
  validatePaymentItem item index = Return [] <-> item_valid item = true.
Proof.
  unfold item_valid. destruct (nullish item) eqn:Hnull.
  - destruct item; try discriminate; simpl; split; discriminate.
  - assert (Hget : forall k, get item k = Return (get_optional item k)).
    { destruct item; try discriminate; reflexivity. }
    unfold validatePaymentItem. rewrite !Hget. cbn [bind].
    split.
    + intros [= H]. apply check_id_nil in H as [H ->].
      apply check_description_nil in H as [H ->].
      apply check_unit_price_nil in H as [H ->].
      apply check_quantity_nil in H as [H ->].
      apply check_title_nil in H as [_ ->]. reflexivity.
    + intros H. repeat (apply Bool.andb_true_iff in H as [H ?]).
      f_equal. apply check_id_nil. split; [|assumption].
      apply check_description_nil. split; [|assumption].
      apply check_unit_price_nil. split; [|assumption].
      apply check_quantity_nil. split; [|assumption].
      apply check_title_nil. split; [reflexivity | assumption].
Qed.

Lemma forEach_item_nil (items : list JSValue) (first : nat) (errors : list string) :
  forEach_item items first errors = Return [] <->
  errors = [] /\ forallb item_valid items = true.
Proof.
  revert first errors. induction items as [|item items IH]; intros first errors; simpl.
  - split; [intros [= ->]; auto | intros [-> _]; reflexivity].
  - destruct (validatePaymentItem item first) as [itemErrors|e] eqn:Hitem; simpl.
    + rewrite IH. unfold push_all. split.
      * intros [Happ Hrest]. apply List.app_eq_nil in Happ as [-> ->].
        apply validatePaymentItem_nil in Hitem. rewrite Hitem. auto.
      * intros [-> Hall]. apply Bool.andb_true_iff in Hall as [Hvalid Hrest].
        apply (validatePaymentItem_nil item first) in Hvalid.
        rewrite Hvalid in Hitem. injection Hitem as <-. auto.
    + split; [discriminate|]. intros [_ Hall].
      apply Bool.andb_true_iff in Hall as [Hvalid _].
      apply (validatePaymentItem_nil item first) in Hvalid.
      rewrite Hvalid in Hitem. discriminate.
Qed.

Lemma validate_customer_info_nil (data : JSValue) :
  validate_customer_info data [] = Return [] <->
  customer_valid (get_optional data "customer_info") = true.
Proof.
  unfold validate_customer_info, customer_valid.
  destruct (nullish data) eqn:Hnull.
  { destruct data; try discriminate; simpl; split; discriminate. }
  assert (Hget : forall k, get data k = Return (get_optional data k)).
  { destruct data; try discriminate; reflexivity. }
  rewrite Hget. cbn [bind].
  set (customer_info := get_optional data "customer_info").
  destruct (truthy customer_info) eqn:Hci; cbn [negb andb].
  2:{ split; [intros [= H]; now apply push_not_nil in H | discriminate]. }
  assert (Hget' : forall k, get customer_info k = Return (get_optional customer_info k)).
  { destruct customer_info; try discriminate; reflexivity. }
  rewrite !Hget'. cbn [bind].
  set (email := get_optional customer_info "email").
  set (name := get_optional customer_info "name").
  assert (Hname : forall errors,
    (if negb (truthy name)
     then Return (push errors "Nombre del cliente es requerido")
     else match name with
          | JString n =>
              Return (if (js_length (trim n) <? 2)%nat
                      then push errors "Nombre del cliente debe tener al menos 2 caracteres"
                      else errors)
          | _ => Throw (TypeError "data.customer_info.name.trim is not a function")
          end) = Return [] <->
    errors = [] /\
    match name with
    | JString n => negb (String.eqb n "") && (2 <=? js_length (trim n))%nat
    | _ => false
    end = true).
  { intros errors. destruct name as [| |b|n|s|l|props]; cbn [truthy negb];
      try (split; [intros [= H]; now apply push_not_nil in H | intros [_ H]; discriminate]);
      try (destruct (negb _);
           (split; [intros H; try discriminate; injection H as H; now apply push_not_nil in H
                   | intros [_ H]; discriminate])).
    rewrite Bool.negb_involutive, Nat.ltb_antisym.
    destruct (String.eqb s ""); cbn [negb andb].
    - split; [intros [= H]; now apply push_not_nil in H | intros [_ H]; discriminate].
    - destruct (2 <=? js_length (trim s))%nat; cbn [negb].
      + split; [intros [= ->]; auto | intros [-> _]; reflexivity].
      + split; [intros [= H]; now apply push_not_nil in H | intros [_ H]; discriminate]. }
  destruct (truthy email) eqn:Hemail; cbn [negb andb bind].
  2:{ rewrite Hname. split; [intros [H _]; now apply push_not_nil in H | discriminate]. }
  unfold isValidEmail. destruct (ToString email) as [s|e]; cbn [bind].
  2:{ split; discriminate. }
  destruct (emailRegex_test s); cbn [negb andb].
  - rewrite Hname. intuition.
  - rewrite Hname. split; [intros [H _]; now apply push_not_nil in H | discriminate].
Qed.

Lemma validatePaymentRequest_valid_iff (data : JSValue) :
  (exists result, validatePaymentRequest data = Return result /\ isValid result = true) <->
  request_valid data = true.
Proof.
  unfold request_valid.
  assert (Hresult : (exists result,
             validatePaymentRequest data = Return result /\ isValid result = true) <->
          validatePaymentRequest data = Return {| isValid := true; errors := [] |}).
  { split.
    - intros (result & Hr & Hvalid). rewrite Hr. unfold validatePaymentRequest in Hr.
      destruct (validate_customer_info data []) as [errors1|]; [|discriminate].
      cbn [bind] in Hr. destruct (validate_items data errors1) as [errors2|]; [|discriminate].
      cbn [bind] in Hr. injection Hr as <-. cbn in Hvalid.
      destruct errors2; [reflexivity | discriminate].
    - intros H. eexists. split; [exact H | reflexivity]. }
  rewrite Hresult. clear Hresult. unfold validatePaymentRequest.
  destruct (validate_customer_info data []) as [errors1|e] eqn:Hcustomer; cbn [bind].
  2:{ split; [discriminate|]. intros H. apply Bool.andb_true_iff in H as [H _].
      apply validate_customer_info_nil in H. rewrite H in Hcustomer. discriminate. }
  assert (Hdata : nullish data = false).
  { destruct data; try discriminate; reflexivity. }
  assert (Hget : forall k, get data k = Return (get_optional data k)).
  { destruct data; try discriminate; reflexivity. }
  assert (Hitems : validate_items data errors1 = Return [] <->
            errors1 = [] /\
            match get_optional data "items" with
            | JArray (item :: items) => forallb item_valid (item :: items)
            | _ => false
            end = true).
  { unfold validate_items. rewrite Hget. cbn [bind].
    destruct (get_optional data "items") as [| |b|n|s|l|props]; cbn [truthy negb];
      try (split; [intros [= H]; now apply push_not_nil in H | intros [_ H]; discriminate]);
      try (destruct (negb _);
           (split; [intros [= H]; now apply push_not_nil in H | intros [_ H]; discriminate])).
    destruct l as [|item items].
    - split; [intros [= H]; now apply push_not_nil in H | intros [_ H]; discriminate].
    - change (List.length (item :: items) =? 0)%nat with false. cbn iota.
      apply forEach_item_nil. }
  destruct (validate_items data errors1) as [errors2|e]; cbn [bind].
  - split.
    + intros [= _ ->]. destruct (proj1 Hitems eq_refl) as [-> ->].
      apply validate_customer_info_nil in Hcustomer. now rewrite Hcustomer.
    + intros H. apply Bool.andb_true_iff in H as [Hc Hi].
      apply validate_customer_info_nil in Hc. rewrite Hc in Hcustomer.
      injection Hcustomer as <-.
      assert (Hnil : Return errors2 = Return (A := list string) []) by (apply Hitems; auto).
      injection Hnil as ->. reflexivity.
  - split; [discriminate|]. intros H. apply Bool.andb_true_iff in H as [Hc Hi].
    apply validate_customer_info_nil in Hc. rewrite Hc in Hcustomer.
    injection Hcustomer as <-.
    assert (Hnil : Throw e = Return (A := list string) []) by (apply Hitems; auto).
    discriminate.
Qed.

(** X16: the validator answers isValid=true exactly on the payloads that meet
    the constraints of the data model: a customer with an email that reads as
    local@domain.tld and a name of 2 characters or more, and one item or more,
    each with a title of 3 characters or more, a quantity and a unit price
    that are positive integers, a description that is absent, blank or of 5
    characters or more, and an id that is absent or not blank. *)
Theorem X16_valid_exactly_when_constraints_hold (data : JSValue) :
  (exists result, validatePaymentRequest data = Return result /\ isValid result = true) <->
  request_valid data = true.
Proof. apply validatePaymentRequest_valid_iff. Qed.

Lemma validate_items_keeps (data : JSValue) (errors result : list string) :
  validate_items data errors = Return result -> incl errors result.
Proof.
  unfold validate_items. destruct (get data "items") as [items|]; [|discriminate].
  cbn [bind]. destruct (negb (truthy items)).
  { intros [= <-] x Hx. apply push_In. auto. }
  destruct items; try (intros [= <-] x Hx; apply push_In; auto).
  destruct (_ =? _)%nat; [intros [= <-] x Hx; apply push_In; auto|].
  intros H. now apply forEach_item_accumulates in H as [H _].
Qed.

(** X17: the missing parts of a request are each reported. In every result
    that the validator returns, errors holds 'customer_info es requerido' when
    customer_info is missing or falsy, 'items es requerido' when items is
    missing or falsy, 'items debe ser un array' when items is something else
    than an array, and 'Debe incluir al menos un item' when items is the empty
    array; and isValid is false in each of these cases. *)
Theorem X17_missing_parts_are_reported (data : JSValue) (result : ValidationResult) :
  validatePaymentRequest data = Return result ->
  (truthy (get_optional data "customer_info") = false ->
   In "customer_info es requerido"%string (errors result) /\ isValid result = false) /\
  (truthy (get_optional data "items") = false ->
   In "items es requerido"%string (errors result) /\ isValid result = false) /\
  (truthy (get_optional data "items") = true ->
   Array_isArray (get_optional data "items") = false ->
   In "items debe ser un array"%string (errors result) /\ isValid result = false) /\
  (get_optional data "items" = JArray [] ->
   In "Debe incluir al menos un item"%string (errors result) /\ isValid result = false).
Proof.
  intros Hresult.
  assert (Hinvalid : forall x, In x (errors result) -> isValid result = false).
  { unfold validatePaymentRequest in Hresult.
    destruct (validate_customer_info data []) as [errors1|]; [|discriminate].
    cbn [bind] in Hresult.
    destruct (validate_items data errors1) as [errors2|]; [|discriminate].
    injection Hresult as <-. cbn. destruct errors2; [contradiction | reflexivity]. }
  assert (Hwith : forall x, (In x (errors result) -> In x (errors result) /\ isValid result = false)).
  { intros x Hx. split; [assumption | eapply Hinvalid, Hx]. }
  unfold validatePaymentRequest in Hresult.
  destruct (validate_customer_info data []) as [errors1|] eqn:Hcustomer; [|discriminate].
  cbn [bind] in Hresult.
  destruct (validate_items data errors1) as [errors2|] eqn:Hitems; [|discriminate].
  assert (Herrors : errors result = errors2) by (injection Hresult as <-; reflexivity).
  rewrite Herrors in *. clear Hresult Herrors.
  assert (Hget : forall k, get data k = Return (get_optional data k)).
  { destruct data; try discriminate; reflexivity. }
  split; [|split; [|split]].
  - intros Hci. apply Hwith. apply (validate_items_keeps _ _ _ Hitems).
    unfold validate_customer_info in Hcustomer. rewrite Hget in Hcustomer.
    cbn [bind] in Hcustomer. rewrite Hci in Hcustomer. injection Hcustomer as <-.
    apply push_In. auto.
  - intros Hfalsy. apply Hwith. unfold validate_items in Hitems. rewrite Hget in Hitems.
    cbn [bind] in Hitems. rewrite Hfalsy in Hitems. injection Hitems as <-.
    apply push_In. auto.
  - intros Htruthy Harray. apply Hwith. unfold validate_items in Hitems.
    rewrite Hget in Hitems. cbn [bind] in Hitems. rewrite Htruthy in Hitems.
    destruct (get_optional data "items"); try discriminate;
      injection Hitems as <-; apply push_In; auto.
  - intros Hempty. apply Hwith. unfold validate_items in Hitems. rewrite Hget in Hitems.
    cbn [bind] in Hitems. rewrite Hempty in Hitems. injection Hitems as <-.
    apply push_In. auto.
Qed.

(* The empty object lacks both parts. *)
Lemma X17_missing_parts_are_reported_witness :
  (In "customer_info es requerido"%string
      ["customer_info es requerido"; "items es requerido"]%string /\ false = false) /\
  (In "items es requerido"%string
      ["customer_info es requerido"; "items es requerido"]%string /\ false = false).
Proof.
  destruct (X17_missing_parts_are_reported (JObject [])
              {| isValid := false;
                 errors := ["customer_info es requerido"; "items es requerido"]%string |}
              eq_refl) as (H1 & H2 & _).
  split; [apply H1 | apply H2]; reflexivity.
Defined.

(** ** The messages of an item *)

Ltac step_get H :=
  match type of H with
  | context [bind (get ?v ?k) _] => destruct (get v k); [cbn [bind] in H | discriminate H]
  end.

Ltac check_adds :=
  intros [HP Hlen];
  repeat match goal with
         | |- context [if ?c then _ else _] => destruct c
         | |- context [match ?v with JUndefined => _ | _ => _ end] => destruct v
         end;
  unfold push;
  (split;
   [ first [ assumption
           | apply List.Forall_app; split;
             [assumption | constructor; [eexists; reflexivity | constructor]] ]
   | first [ lia | rewrite List.length_app; simpl; lia ] ]).

Lemma checks_add_one (itemPrefix : string) (v : JSValue) (errors : list string) (n : nat) :
  let P := fun m => exists rest, m = itemPrefix +++ ": " +++ rest in
  (Forall P errors /\ (List.length errors <= n)%nat ->
   Forall P (check_title itemPrefix v errors)
   /\ (List.length (check_title itemPrefix v errors) <= S n)%nat) /\
  (Forall P errors /\ (List.length errors <= n)%nat ->
   Forall P (check_quantity itemPrefix v errors)
   /\ (List.length (check_quantity itemPrefix v errors) <= S n)%nat) /\
  (Forall P errors /\ (List.length errors <= n)%nat ->
   Forall P (check_unit_price itemPrefix v errors)
   /\ (List.length (check_unit_price itemPrefix v errors) <= S n)%nat) /\
  (Forall P errors /\ (List.length errors <= n)%nat ->
   Forall P (check_description itemPrefix v errors)
   /\ (List.length (check_description itemPrefix v errors) <= S n)%nat) /\
  (Forall P errors /\ (List.length errors <= n)%nat ->
   Forall P (check_id itemPrefix v errors)
   /\ (List.length (check_id itemPrefix v errors) <= S n)%nat).
Proof.
  intros P. subst P.
  unfold check_title, check_quantity, check_unit_price, check_description, check_id.
  split; [|split; [|split; [|split]]]; check_adds.
Qed.

(** X18: every message about an item names the item by its position,
    counted from 1: it starts with 'Item <index+1>: '; and an item gets at
    most five messages, one for each property checked. *)
Theorem X18_item_messages_name_the_item (item : JSValue) (index : nat)
    (itemErrors : list string) :
  validatePaymentItem item index = Return itemErrors ->
  Forall (fun m => exists rest,
            m = "Item " +++ decimal (Z.of_nat index + 1) +++ ": " +++ rest) itemErrors /\
  (List.length itemErrors <= 5)%nat.
Proof.
  unfold validatePaymentItem. intros H.
  repeat (step_get H).
  injection H as <-.
  match goal with |- context [check_id ?p ?v ?e] =>
    apply (proj2 (proj2 (proj2 (proj2 (checks_add_one p v e 4))))) end.
  match goal with |- context [check_description ?p ?v ?e] =>
    apply (proj1 (proj2 (proj2 (proj2 (checks_add_one p v e 3))))) end.
  match goal with |- context [check_unit_price ?p ?v ?e] =>
    apply (proj1 (proj2 (proj2 (checks_add_one p v e 2)))) end.
  match goal with |- context [check_quantity ?p ?v ?e] =>
    apply (proj1 (proj2 (checks_add_one p v e 1))) end.
  match goal with |- context [check_title ?p ?v ?e] =>
    apply (proj1 (checks_add_one p v e 0)) end.
  split; [constructor | simpl; lia].
Qed.

(* The item with two defects. *)
Lemma X18_item_messages_name_the_item_witness :
  Forall (fun m => exists rest, m = "Item " +++ decimal (Z.of_nat 0 + 1) +++ ": " +++ rest)
    [ "Item 1: cantidad debe ser un número entero mayor a 0";
      "Item 1: precio unitario debe ser un número entero" ]%string /\
  (List.length [ "Item 1: cantidad debe ser un número entero mayor a 0";
                 "Item 1: precio unitario debe ser un número entero" ]%string <= 5)%nat.
Proof.
  apply (X18_item_messages_name_the_item item_two_defects 0). reflexivity.
Defined.

End PaymentValidatorProperties.

(** * Properties of the builder *)

Module MercadoPagoBuilderProperties.
Import JS MercadoPagoBuilder Vocabulary PaymentVocabulary Examples NumberProperties.
Local Open Scope Z_scope.

(* In [H : (do x <- c ;; k) = Return r], the step c returned. *)
Ltac bind_in H :=
  match type of H with
  | context [bind ?c _] =>
      let x := fresh "x" in
      let E := fresh "E" in
      destruct c as [x|x] eqn:E; cbn [bind] in H; [|discriminate H]
  end.

(** ** Reading the request *)

(* A value that has been read once is read again without an error. *)
Lemma get_again (v x : JSValue) (key key' : string) :
  get v key = Return x -> get v key' = Return (get_optional v key').
Proof. destruct v; try discriminate; intros _; reflexivity. Qed.

Lemma get_is_optional (v x : JSValue) (key : string) :
  get v key = Return x -> x = get_optional v key.
Proof. destruct v; try discriminate; now intros [= <-]. Qed.

Lemma get_truthy (v : JSValue) (key : string) :
  truthy v = true -> get v key = Return (get_optional v key).
Proof. destruct v; try discriminate; intros _; reflexivity. Qed.

Lemma array_method_items (source method : string) (v : JSValue) (l : list JSValue) :
  array_method source method v = Return l -> v = JArray l.
Proof. destruct v; try discriminate. now intros [= <-]. Qed.

(** ** C6: the totals *)

Lemma priced_totals_nonneg (items : list JSValue) (amounts : list (Z * Z)) :
  Forall2 priced items amounts -> 0 <= exact_amount amounts /\ 0 <= exact_count amounts.
Proof.
  unfold exact_amount, exact_count.
  induction 1 as [|item a items amounts (q & p & _ & _ & _ & _ & Ha & Hb) _ [IH1 IH2]];
    cbn [List.map sum_of]; [lia|]. split; nia.
Qed.

(* The first reduce of buildPreference adds up the exact amounts. *)
Lemma reduce_add_amount (items : list JSValue) (amounts : list (Z * Z)) (start : Z) :
  Forall2 priced items amounts ->
  0 <= start -> start + exact_amount amounts <= largest_exact ->
  reduce add_amount items (of_Z start) = Return (of_Z (start + exact_amount amounts)).
Proof.
  intros H. revert start.
  induction H as [|item a items amounts Hitem Hrest IH]; intros start Hstart Hbound.
  - cbn. f_equal. f_equal. unfold exact_amount. cbn. lia.
  - pose proof (priced_totals_nonneg _ _ Hrest) as [Hnonneg _].
    destruct Hitem as (q & p & Hq & Hp & Hqa & Hpa & Ha & Hb).
    unfold exact_amount in *. cbn [List.map sum_of] in *. unfold largest_exact in *.
    cbn [reduce]. unfold add_amount. rewrite Hq, Hp. cbn [bind times ToNumber ToPrimitive].
    rewrite (num_mul_integers q p _ _ Hqa Hpa) by (rewrite Z.abs_eq; nia).
    rewrite (num_add_integers (of_Z start) _ start _ (integer_of_of_Z start)
               (integer_of_of_Z _)) by (rewrite Z.abs_eq; nia).
    rewrite IH by nia. f_equal. f_equal. lia.
Qed.

(* The second reduce adds up the quantities. *)
Lemma reduce_add_quantity (items : list JSValue) (amounts : list (Z * Z)) (start : Z) :
  Forall2 priced items amounts ->
  0 <= start -> start + exact_count amounts <= largest_exact ->
  reduce add_quantity items (JNumber (of_Z start))
  = Return (JNumber (of_Z (start + exact_count amounts))).
Proof.
  intros H. revert start.
  induction H as [|item a items amounts Hitem Hrest IH]; intros start Hstart Hbound.
  - cbn. f_equal. f_equal. f_equal. unfold exact_count. cbn. lia.
  - pose proof (priced_totals_nonneg _ _ Hrest) as [_ Hnonneg].
    destruct Hitem as (q & p & Hq & Hp & Hqa & Hpa & Ha & Hb).
    unfold exact_count in *. cbn [List.map sum_of] in *. unfold largest_exact in *.
    cbn [reduce]. unfold add_quantity. rewrite Hq.
    cbn [bind plus ToNumber ToPrimitive is_string orb].
    rewrite (num_add_integers (of_Z start) q start _ (integer_of_of_Z start) Hqa)
      by (rewrite Z.abs_eq; nia).
    rewrite IH by nia. f_equal. f_equal. f_equal. lia.
Qed.

Lemma order_item_numbers (item : JSValue) (q p : JSNumber) :
  get item "quantity" = Return (JNumber q) ->
  get item "unit_price" = Return (JNumber p) ->
  order_item item
  = Return {| item_id := get_optional item "id";
              item_title := get_optional item "title";
              item_description := get_optional item "description";
              item_quantity := JNumber q;
              item_unit_price := JNumber p;
              total_price := num_mul q p |}.
Proof.
  intros Hq Hp. unfold order_item.
  now rewrite (get_again _ _ _ "id" Hq), (get_again _ _ _ "title" Hq),
    (get_again _ _ _ "description" Hq), Hq, Hp.
Qed.

(* The items of an order carry the exact prices, and its two reduces add them
   up. *)
Lemma order_items_exact (items : list JSValue) (amounts : list (Z * Z)) :
  Forall2 priced items amounts ->
  exact_amount amounts <= largest_exact ->
  exists orderItems,
    map_each order_item items = Return orderItems /\
    forall start,
      0 <= start ->
      (start + exact_amount amounts <= largest_exact ->
       reduce (fun sum item => Return (num_add sum (total_price item))) orderItems (of_Z start)
       = Return (of_Z (start + exact_amount amounts))) /\
      (start + exact_count amounts <= largest_exact ->
       reduce (fun sum item => plus sum (item_quantity item)) orderItems (JNumber (of_Z start))
       = Return (JNumber (of_Z (start + exact_count amounts)))).
Proof.
  induction 1 as [|item a items amounts Hitem Hrest IH]; intros Hbound.
  - exists []. split; [reflexivity|]. intros start _. unfold exact_amount, exact_count. cbn.
    split; intros _; rewrite Z.add_0_r; reflexivity.
  - pose proof (priced_totals_nonneg _ _ Hrest) as [Hnonneg Hnonneg'].
    destruct Hitem as (q & p & Hq & Hp & Hqa & Hpa & Ha & Hb).
    unfold exact_amount, exact_count in *. cbn [List.map sum_of] in *.
    unfold largest_exact in *.
    destruct IH as (orderItems & Hmap & Hsums); [nia|].
    cbn [map_each]. rewrite (order_item_numbers item q p Hq Hp), Hmap. cbn [bind].
    eexists. split; [reflexivity|]. intros start Hstart. cbn [reduce bind total_price item_quantity].
    split; intros Hsum.
    + rewrite (num_mul_integers q p _ _ Hqa Hpa) by (rewrite Z.abs_eq; nia).
      rewrite (num_add_integers (of_Z start) _ start _ (integer_of_of_Z start)
                 (integer_of_of_Z _)) by (rewrite Z.abs_eq; nia).
      assert (Hnext : 0 <= start + fst a * snd a) by nia.
      rewrite (proj1 (Hsums _ Hnext)) by lia. f_equal. f_equal. lia.
    + cbn [plus bind ToPrimitive ToNumber is_string orb].
      rewrite (num_add_integers (of_Z start) q start _ (integer_of_of_Z start) Hqa)
        by (rewrite Z.abs_eq; nia).
      assert (Hnext : 0 <= start + fst a) by lia.
      rewrite (proj2 (Hsums _ Hnext)) by lia. f_equal. f_equal. f_equal. lia.
Qed.

(* What a call of buildPreference that returns has done. *)
Lemma buildPreference_returns (b : Builder) (request : JSValue) (now : Z)
    (date_now : nat -> Z) :
  paymentRequest b = Some request ->
  snd (buildPreference now date_now b) = None ->
  truthy request = true /\
  exists data,
    preference_of (config b) now date_now request = Return data /\
    fst (buildPreference now date_now b)
    = {| config := config b; preferenceData := Some data; order := order b;
         paymentRequest := paymentRequest b; paymentUrl := paymentUrl b;
         saveOrderCallback := saveOrderCallback b |}.
Proof.
  intros Hrequest. unfold buildPreference. rewrite Hrequest.
  destruct (truthy request); cbn [negb]; [|discriminate].
  destruct (preference_of (config b) now date_now request) as [data|e]; [|discriminate].
  intros _. split; [reflexivity|]. exists data. split; reflexivity.
Qed.

(* What a call of createPreference that returns has done. *)
Lemma createPreference_returns
    (create : MercadoPagoPreferenceData -> completion PreferenceResponse)
    (b : Builder) (request : JSValue) (now date_now : Z) :
  paymentRequest b = Some request ->
  snd (createPreference create now date_now b) = None ->
  truthy request = true /\
  exists data response o,
    preferenceData b = Some data /\
    create data = Return response /\
    missing (response_id response) = false /\
    missing (init_point response) = false /\
    order_of (config b) (string_or (response_id response) "") now date_now request = Return o /\
    fst (createPreference create now date_now b)
    = {| config := config b; preferenceData := preferenceData b; order := Some o;
         paymentRequest := paymentRequest b; paymentUrl := init_point response;
         saveOrderCallback := saveOrderCallback b |}.
Proof.
  intros Hrequest. unfold createPreference.
  destruct (preferenceData b) as [data|] eqn:Hdata; [|discriminate].
  destruct (create data) as [response|] eqn:Hcreate; [|discriminate].
  destruct (missing (response_id response)) eqn:Hid; [discriminate|].
  destruct (missing (init_point response)) eqn:Hurl; [discriminate|].
  cbn [orb]. unfold buildOrder. cbn [paymentRequest config]. rewrite Hrequest.
  destruct (truthy request); cbn [negb]; [|discriminate].
  destruct (order_of (config b) (string_or (response_id response) "") now date_now request)
    as [o|e] eqn:Ho; [|discriminate].
  intros _. split; [reflexivity|]. exists data, response, o.
  repeat split; first [assumption | reflexivity].
Qed.

Lemma preference_totals (cfg : MercadoPagoConfig) (now : Z) (date_now : nat -> Z)
    (request : JSValue) (amounts : list (Z * Z)) (data : MercadoPagoPreferenceData) :
  truthy request = true ->
  items_priced request amounts ->
  exact_amount amounts <= largest_exact ->
  exact_count amounts <= largest_exact ->
  preference_of cfg now date_now request = Return data ->
  meta_total_amount (metadata data) = of_Z (exact_amount amounts) /\
  meta_total_items (metadata data) = JNumber (of_Z (exact_count amounts)).
Proof.
  intros Htruthy (items & Hitems & Hpriced) Hamount Hcount.
  unfold preference_of. rewrite !(get_truthy request _ Htruthy), Hitems. cbn [bind array_method].
  rewrite (reduce_add_amount items amounts 0 Hpriced) by lia.
  rewrite (reduce_add_quantity items amounts 0 Hpriced) by lia.
  cbn [bind]. intros H. repeat bind_in H. injection H as <-. split; reflexivity.
Qed.

Lemma order_totals (cfg : MercadoPagoConfig) (preferenceId : string) (now date_now : Z)
    (request : JSValue) (amounts : list (Z * Z)) (o : Order) :
  truthy request = true ->
  items_priced request amounts ->
  exact_amount amounts <= largest_exact ->
  exact_count amounts <= largest_exact ->
  order_of cfg preferenceId now date_now request = Return o ->
  total_amount o = of_Z (exact_amount amounts) /\
  total_items o = JNumber (of_Z (exact_count amounts)).
Proof.
  intros Htruthy (items & Hitems & Hpriced) Hamount Hcount.
  unfold order_of. rewrite !(get_truthy request _ Htruthy), Hitems. cbn [bind array_method].
  destruct (order_items_exact items amounts Hpriced Hamount) as (orderItems & -> & Hsums).
  cbn [bind].
  rewrite (proj1 (Hsums 0 (Z.le_refl 0)) Hamount), (proj2 (Hsums 0 (Z.le_refl 0)) Hcount).
  cbn [bind]. intros H. repeat bind_in H. injection H as <-. split; reflexivity.
Qed.

(* The items of a request that carries amounts can be read. *)
Lemma mercadoPagoItems_priced (date_now : nat -> Z) (items : list JSValue)
    (amounts : list (Z * Z)) (first : nat) :
  Forall2 priced items amounts ->
  exists ps, mercadoPagoItems date_now first items = Return ps.
Proof.
  intros H. revert first.
  induction H as [|item a items amounts (q & p & Hq & _) _ IH]; intros first; [cbn; eauto|].
  destruct (IH (S first)) as [ps Hps]. cbn [mercadoPagoItems].
  rewrite (get_again _ _ _ "id" Hq), (get_again _ _ _ "title" Hq),
    (get_again _ _ _ "description" Hq), (get_again _ _ _ "quantity" Hq),
    (get_again _ _ _ "unit_price" Hq), Hps.
  cbn [bind]. eauto.
Qed.

Lemma get_not_nullish (v : JSValue) (key : string) :
  nullish v = false -> get v key = Return (get_optional v key).
Proof. destruct v; try discriminate; intros _; reflexivity. Qed.

Lemma items_priced_truthy (request : JSValue) (amounts : list (Z * Z)) :
  items_priced request amounts -> truthy request = true.
Proof. intros (items & Hitems & _). destruct request; try discriminate Hitems; reflexivity. Qed.

(* With amounts that are exact, a customer that can be read and an expiration
   within the range of Date, the preference is built. *)
Lemma preference_of_priced (cfg : MercadoPagoConfig) (now : Z) (date_now : nat -> Z)
    (request : JSValue) (amounts : list (Z * Z)) :
  items_priced request amounts ->
  exact_amount amounts <= largest_exact ->
  exact_count amounts <= largest_exact ->
  nullish (get_optional request "customer_info") = false ->
  expiry cfg now <> None ->
  exists data, preference_of cfg now date_now request = Return data.
Proof.
  intros Hpriced Hamount Hcount Hcustomer Hexpiry.
  pose proof (items_priced_truthy _ _ Hpriced) as Htruthy.
  destruct Hpriced as (items & Hitems & Hpriced).
  destruct (mercadoPagoItems_priced date_now items amounts 0 Hpriced) as [ps Hps].
  unfold preference_of. rewrite !(get_truthy request _ Htruthy), Hitems.
  cbn [bind array_method getTime].
  rewrite (reduce_add_amount items amounts 0 Hpriced) by lia.
  rewrite (reduce_add_quantity items amounts 0 Hpriced) by lia.
  rewrite Hps. cbn [bind]. fold (expiry cfg now).
  destruct (expiry cfg now) as [t|]; [|now elim Hexpiry].
  cbn [toISOString bind]. rewrite !(get_not_nullish _ _ Hcustomer). cbn [bind]. eauto.
Qed.

(* And so is the order. *)
Lemma order_of_priced (cfg : MercadoPagoConfig) (preferenceId : string) (now date_now : Z)
    (request : JSValue) (amounts : list (Z * Z)) :
  items_priced request amounts ->
  exact_amount amounts <= largest_exact ->
  exact_count amounts <= largest_exact ->
  expiry cfg now <> None ->
  exists o, order_of cfg preferenceId now date_now request = Return o.
Proof.
  intros Hpriced Hamount Hcount Hexpiry.
  pose proof (items_priced_truthy _ _ Hpriced) as Htruthy.
  destruct Hpriced as (items & Hitems & Hpriced).
  unfold order_of. rewrite !(get_truthy request _ Htruthy), Hitems. cbn [bind array_method].
  destruct (order_items_exact items amounts Hpriced Hamount) as (orderItems & -> & Hsums).
  cbn [bind].
  rewrite (proj1 (Hsums 0 (Z.le_refl 0)) Hamount), (proj2 (Hsums 0 (Z.le_refl 0)) Hcount).
  cbn [bind getTime toISOString]. fold (expiry cfg now).
  destruct (expiry cfg now) as [t|]; [|now elim Hexpiry].
  cbn [toISOString bind]. eauto.
Qed.

(** C6, as amended: for every payment request whose items carry quantities
    and unit prices that are integers and not negative, and whose exact
    totals are at most 2^53: buildPreference returns when the customer can be
    read and the expiration is within the range of Date, and whenever it
    returns, the total amount in the metadata of the preference is the sum
    over the items of quantity * unit_price and the total of items is the sum
    of the quantities; createPreference returns when the provider answers the
    preference with an id and an init_point and the expiration of the order is
    within the range of Date, and whenever it returns, the two totals of the
    order are these sums. *)
Theorem C6_totals_are_sums (b : Builder) (request : JSValue) (amounts : list (Z * Z))
    (create : MercadoPagoPreferenceData -> completion PreferenceResponse)
    (now now' date_now' : Z) (date_now : nat -> Z) :
  paymentRequest b = Some request ->
  items_priced request amounts ->
  exact_amount amounts <= largest_exact ->
  exact_count amounts <= largest_exact ->
  (nullish (get_optional request "customer_info") = false ->
   expiry (config b) now <> None ->
   snd (buildPreference now date_now b) = None) /\
  (snd (buildPreference now date_now b) = None ->
   exists data,
     preferenceData (fst (buildPreference now date_now b)) = Some data /\
     meta_total_amount (metadata data) = of_Z (exact_amount amounts) /\
     meta_total_items (metadata data) = JNumber (of_Z (exact_count amounts))) /\
  (forall data response,
     preferenceData b = Some data ->
     create data = Return response ->
     missing (response_id response) = false ->
     missing (init_point response) = false ->
     expiry (config b) now' <> None ->
     snd (createPreference create now' date_now' b) = None) /\
  (snd (createPreference create now' date_now' b) = None ->
   exists o,
     order (fst (createPreference create now' date_now' b)) = Some o /\
     total_amount o = of_Z (exact_amount amounts) /\
     total_items o = JNumber (of_Z (exact_count amounts))).
Proof.
  intros Hrequest Hpriced Hamount Hcount.
  pose proof (items_priced_truthy _ _ Hpriced) as Htruthy.
  split; [|split; [|split]].
  - intros Hcustomer Hexpiry.
    destruct (preference_of_priced (config b) now date_now request amounts Hpriced Hamount
                Hcount Hcustomer Hexpiry) as [data Hdata].
    unfold buildPreference. now rewrite Hrequest, Htruthy, Hdata.
  - intros Hreturns.
    destruct (buildPreference_returns b request now date_now Hrequest Hreturns)
      as (_ & data & Hdata & ->).
    exists data. split; [reflexivity|].
    exact (preference_totals _ _ _ _ _ _ Htruthy Hpriced Hamount Hcount Hdata).
  - intros data response Hdata Hcreate Hid Hurl Hexpiry.
    destruct (order_of_priced (config b) (string_or (response_id response) "") now' date_now'
                request amounts Hpriced Hamount Hcount Hexpiry) as [o Ho].
    unfold createPreference. rewrite Hdata, Hcreate, Hid, Hurl. cbn [orb].
    unfold buildOrder. cbn [paymentRequest config]. now rewrite Hrequest, Htruthy, Ho.
  - intros Hreturns.
    destruct (createPreference_returns create b request now' date_now' Hrequest Hreturns)
      as (_ & data & response & o & _ & _ & _ & _ & Ho & ->).
    exists o. split; [reflexivity|].
    exact (order_totals _ _ _ _ _ _ _ Htruthy Hpriced Hamount Hcount Ho).
Qed.

(* The example of the specification: two Widgets at 100 give a total amount
   of 200 and 2 items, in the preference and in the order. *)
Lemma C6_totals_are_sums_witness :
  let b0 := setPaymentRequest widget_request (new_builder builder_config) in
  let b1 := fst (buildPreference 1700000000000 (fun _ => 1700000000000) b0) in
  snd (buildPreference 1700000000000 (fun _ => 1700000000000) b0) = None /\
  (exists data,
     preferenceData b1 = Some data /\
     meta_total_amount (metadata data) = of_Z 200 /\
     meta_total_items (metadata data) = JNumber (of_Z 2)) /\
  snd (createPreference create_ok 1700000000500 1700000000501 b1) = None /\
  (exists o,
     order (fst (createPreference create_ok 1700000000500 1700000000501 b1)) = Some o /\
     total_amount o = of_Z 200 /\
     total_items o = JNumber (of_Z 2)).
Proof.
  assert (Hpriced : items_priced widget_request [(2, 100)]).
  { eexists. split; [reflexivity|]. constructor; [|constructor].
    exists (of_Z 2), (of_Z 100). cbn. repeat split; reflexivity || lia. }
  destruct (C6_totals_are_sums
              (setPaymentRequest widget_request (new_builder builder_config))
              widget_request [(2, 100)] create_ok 1700000000000 1700000000500 1700000000501
              (fun _ => 1700000000000) eq_refl Hpriced)
    as (Hreturns & Htotals & _); [vm_compute; discriminate | vm_compute; discriminate |].
  destruct (C6_totals_are_sums
              (fst (buildPreference 1700000000000 (fun _ => 1700000000000)
                      (setPaymentRequest widget_request (new_builder builder_config))))
              widget_request [(2, 100)] create_ok 1700000000000 1700000000500 1700000000501
              (fun _ => 1700000000000) eq_refl Hpriced)
    as (_ & _ & Hcreated & Hordered); [vm_compute; discriminate | vm_compute; discriminate |].
  assert (H1 : snd (buildPreference 1700000000000 (fun _ => 1700000000000)
                      (setPaymentRequest widget_request (new_builder builder_config))) = None).
  { apply Hreturns; [reflexivity | vm_compute; discriminate]. }
  assert (H2 : snd (createPreference create_ok 1700000000500 1700000000501
                      (fst (buildPreference 1700000000000 (fun _ => 1700000000000)
                              (setPaymentRequest widget_request (new_builder builder_config)))))
               = None).
  { eapply Hcreated; [vm_compute; reflexivity | reflexivity | reflexivity | reflexivity
                     | vm_compute; discriminate]. }
  split; [exact H1|]. split; [exact (Htotals H1)|]. split; [exact H2|]. exact (Hordered H2).
Defined.

(** C6, the claim as stated, fails: a request that passes validation, with
    2^53 Widgets at 1 and one more, has the exact totals 2^53 + 1, and the
    builder computes 2^53 for both: the sums are sums of doubles. *)
Lemma C6_large_totals_are_rounded :
  request_valid large_request = true /\
  items_priced large_request [(9007199254740992, 1); (1, 1)] /\
  exact_amount [(9007199254740992, 1); (1, 1)] = 9007199254740993 /\
  exact_count [(9007199254740992, 1); (1, 1)] = 9007199254740993 /\
  exists data,
    buildPreference 1700000000000 (fun _ => 1700000000000)
      (setPaymentRequest large_request (new_builder builder_config))
    = ({| config := builder_config; preferenceData := Some data; order := None;
          paymentRequest := Some large_request; paymentUrl := None;
          saveOrderCallback := None |}, None) /\
    meta_total_amount (metadata data) = of_Z 9007199254740992 /\
    meta_total_items (metadata data) = JNumber (of_Z 9007199254740992) /\
    of_Z 9007199254740992 <> of_Z 9007199254740993.
Proof.
  split; [vm_compute; reflexivity|]. split.
  { eexists. split; [reflexivity|].
    constructor; [|constructor; [|constructor]].
    - exists (of_Z 9007199254740992), (of_Z 1). cbn. repeat split; reflexivity || lia.
    - exists (of_Z 1), (of_Z 1). cbn. repeat split; reflexivity || lia. }
  split; [reflexivity|]. split; [reflexivity|].
  eexists. split; [vm_compute; reflexivity|]. cbn.
  split; [reflexivity|]. split; [reflexivity|]. vm_compute. discriminate.
Qed.

Example widget_order :
  let b1 := setPaymentRequest widget_request (new_builder builder_config) in
  let b2 := fst (buildPreference 1700000000000 (fun _ => 1700000000000) b1) in
  let b3 := fst (createPreference create_ok 1700000000500 1700000000501 b2) in
  option_map (fun r => (total_amount (fst r), total_items (fst r), status (fst r),
                        created_at (fst r), expires_at (fst r), snd r))
    (match getResult (fst (saveOrder b3)) with Return r => Some r | Throw _ => None end)
  = Some (of_Z 200, JNumber (of_Z 2), "pending"%string, "2023-11-14T22:13:20.500Z"%string,
          "2023-11-14T22:33:20.500Z"%string, "https://pay.example/pref-1"%string).
Proof. vm_compute. reflexivity. Qed.

(** ** C7: the steps called out of order *)

(** C7: a step whose prerequisite is missing throws the error that names it:
    buildPreference without a stored request, createPreference without built
    preference data, saveOrder without a built order, getResult without an
    order or without a payment URL; and after reset each of the four steps
    throws its error. *)
Theorem C7_steps_out_of_order_throw (b : Builder)
    (create : MercadoPagoPreferenceData -> completion PreferenceResponse)
    (now date_now' : Z) (date_now : nat -> Z) :
  (paymentRequest b = None ->
   snd (buildPreference now date_now b) = Some (Error "Payment request is required")) /\
  (preferenceData b = None ->
   snd (createPreference create now date_now' b)
   = Some (Error "Preference data must be built first")) /\
  (order b = None ->
   snd (saveOrder b) = Some (Error "Order must be built first")) /\
  (order b = None \/ missing (paymentUrl b) = true ->
   getResult b = Throw (Error "Order and payment URL not available")) /\
  (snd (buildPreference now date_now (reset b)) = Some (Error "Payment request is required") /\
   snd (createPreference create now date_now' (reset b))
   = Some (Error "Preference data must be built first") /\
   snd (saveOrder (reset b)) = Some (Error "Order must be built first") /\
   getResult (reset b) = Throw (Error "Order and payment URL not available")).
Proof.
  split; [|split; [|split; [|split]]].
  - intros H. unfold buildPreference. now rewrite H.
  - intros H. unfold createPreference. now rewrite H.
  - intros H. unfold saveOrder. now rewrite H.
  - intros [H|H]; unfold getResult.
    + now rewrite H.
    + destruct (order b); [|reflexivity].
      destruct (paymentUrl b) as [url|]; [|reflexivity].
      simpl in H. now rewrite H.
  - repeat split.
Qed.

(* A new builder, on which nothing was called. *)
Lemma C7_steps_out_of_order_throw_witness :
  snd (buildPreference 0 (fun _ => 0) (new_builder builder_config))
  = Some (Error "Payment request is required") /\
  snd (createPreference create_ok 0 0 (new_builder builder_config))
  = Some (Error "Preference data must be built first") /\
  snd (saveOrder (new_builder builder_config)) = Some (Error "Order must be built first") /\
  getResult (new_builder builder_config) = Throw (Error "Order and payment URL not available").
Proof.
  destruct (C7_steps_out_of_order_throw (new_builder builder_config) create_ok 0 0 (fun _ => 0))
    as (H1 & H2 & H3 & H4 & _).
  split; [|split; [|split]].
  - apply H1. reflexivity.
  - apply H2. reflexivity.
  - apply H3. reflexivity.
  - apply H4. left. reflexivity.
Defined.

(* buildPreference without a request leaves the builder as it was. *)
Lemma failed_step_keeps_builder (b : Builder) (now : Z) (date_now : nat -> Z) :
  paymentRequest b = None -> fst (buildPreference now date_now b) = b.
Proof. intros H. unfold buildPreference. now rewrite H. Qed.

(** * Further properties of the builder *)

(* What a preference that was built is made of. *)
Lemma preference_of_inv (cfg : MercadoPagoConfig) (now : Z) (date_now : nat -> Z)
    (request : JSValue) (data : MercadoPagoPreferenceData) :
  preference_of cfg now date_now request = Return data ->
  exists items t,
    get_optional request "items" = JArray items /\
    reduce add_amount items (of_Z 0) = Return (meta_total_amount (metadata data)) /\
    reduce add_quantity items (JNumber (of_Z 0)) = Return (meta_total_items (metadata data)) /\
    mercadoPagoItems date_now 0 items = Return (pref_items data) /\
    expiry cfg now = Some t /\
    date_of_expiration data = iso t /\
    meta_created_at (metadata data) = iso now /\
    expiration_minutes (metadata data) = number_or (expirationTime cfg) (of_Z 20) /\
    get (get_optional request "customer_info") "email"
    = Return (customer_email (metadata data)) /\
    get (get_optional request "customer_info") "name"
    = Return (customer_name (metadata data)).
Proof.
  unfold preference_of. intros H.
  destruct (get request "items") as [items|] eqn:Hitems; [|discriminate].
  destruct (get request "customer_info") as [customer_info|] eqn:Hcustomer; [|discriminate].
  apply get_is_optional in Hitems, Hcustomer. subst items customer_info.
  cbn [bind getTime] in H.
  destruct (array_method "items" "reduce" (get_optional request "items")) as [elements|]
    eqn:Harray; [|discriminate].
  apply array_method_items in Harray. cbn [bind] in H.
  destruct (reduce add_amount elements (of_Z 0)) as [totalAmount|] eqn:Hamount;
    [|discriminate].
  destruct (reduce add_quantity elements (JNumber (of_Z 0))) as [totalItems|] eqn:Hcount;
    [|discriminate].
  destruct (mercadoPagoItems date_now 0 elements) as [mpItems|] eqn:Hmp; [|discriminate].
  cbn [bind] in H. fold (expiry cfg now) in H.
  destruct (expiry cfg now) as [t|] eqn:Hexpiry; [|discriminate]. cbn [toISOString bind] in H.
  destruct (get (get_optional request "customer_info") "email") as [customer_email|]
    eqn:Hemail; [|discriminate].
  destruct (get (get_optional request "customer_info") "name") as [customer_name|]
    eqn:Hname; [|discriminate].
  cbn [bind] in H. injection H as <-. exists elements, t. cbn. repeat split; assumption.
Qed.

(* What an order that was built is made of. *)
Lemma order_of_inv (cfg : MercadoPagoConfig) (preferenceId : string) (now date_now : Z)
    (request : JSValue) (o : Order) :
  order_of cfg preferenceId now date_now request = Return o ->
  exists items t,
    get_optional request "items" = JArray items /\
    map_each order_item items = Return (order_items o) /\
    expiry cfg now = Some t /\
    expires_at o = iso t /\
    created_at o = iso now /\
    status o = "pending"%string /\
    preference_id o = preferenceId /\
    order_id o = String.append "order_" (Number_toString (of_Z date_now)) /\
    order_customer_info o = get_optional request "customer_info".
Proof.
  unfold order_of. intros H.
  destruct (get request "items") as [items|] eqn:Hitems; [|discriminate].
  apply get_is_optional in Hitems. subst items. cbn [bind] in H.
  destruct (array_method "this.paymentRequest.items" "map" (get_optional request "items"))
    as [elements|] eqn:Harray; [|discriminate].
  apply array_method_items in Harray. cbn [bind] in H.
  destruct (map_each order_item elements) as [orderItems|] eqn:Hmap; [|discriminate].
  cbn [bind] in H.
  match type of H with context [bind ?c _] =>
    destruct c as [totalAmount|] eqn:Hamount; [|discriminate] end.
  cbn [bind] in H.
  match type of H with context [bind ?c _] =>
    destruct c as [totalItems|] eqn:Hcount; [|discriminate] end.
  cbn [bind getTime] in H.
  destruct (get request "customer_info") as [customer_info|] eqn:Hcustomer; [|discriminate].
  apply get_is_optional in Hcustomer. subst customer_info.
  cbn [bind toISOString] in H. fold (expiry cfg now) in H.
  destruct (expiry cfg now) as [t|] eqn:Hexpiry; [|discriminate]. cbn [toISOString bind] in H.
  injection H as <-. exists elements, t. cbn. repeat split; assumption.
Qed.

(** ** Requests that pass validation *)

(* A valid item is an object with a quantity and a unit price that are
   numbers of at least 1. *)
Lemma item_valid_numbers (item : JSValue) :
  item_valid item = true ->
  exists q p,
    get item "quantity" = Return (JNumber q) /\
    get item "unit_price" = Return (JNumber p) /\
    at_least_one q = true /\ at_least_one p = true.
Proof.
  unfold item_valid. intros H.
  assert (Hobject : exists props, item = JObject props).
  { destruct item; try discriminate H. eauto. }
  destruct Hobject as [props ->].
  apply andb_prop in H as [H _]. apply andb_prop in H as [H _].
  apply andb_prop in H as [H Hp]. apply andb_prop in H as [_ Hq].
  destruct (get_optional (JObject props) "quantity") as [| | | q | | |] eqn:Eq;
    try discriminate Hq.
  destruct (get_optional (JObject props) "unit_price") as [| | | p | | |] eqn:Ep;
    try discriminate Hp.
  apply andb_prop in Hq as [Hq1 Hq2]. apply andb_prop in Hp as [Hp1 Hp2].
  apply negb_true_iff in Hq2, Hp2.
  exists q, p. cbn [get]. cbn [get_optional] in Eq, Ep. rewrite Eq, Ep.
  repeat split; apply integer_at_least_one; assumption.
Qed.

Lemma add_amount_valid (sum : JSNumber) (item : JSValue) :
  item_valid item = true -> not_negative sum = true ->
  exists sum', add_amount sum item = Return sum' /\ at_least_one sum' = true.
Proof.
  intros Hitem Hsum. destruct (item_valid_numbers item Hitem) as (q & p & Hq & Hp & Hq1 & Hp1).
  unfold add_amount. rewrite Hq, Hp. cbn [bind times ToNumber ToPrimitive].
  eexists. split; [reflexivity|].
  apply num_add_at_least_one; [assumption|]. now apply num_mul_at_least_one.
Qed.

Lemma add_quantity_valid (sum : JSNumber) (item : JSValue) :
  item_valid item = true -> not_negative sum = true ->
  exists sum', add_quantity (JNumber sum) item = Return (JNumber sum') /\
               at_least_one sum' = true.
Proof.
  intros Hitem Hsum. destruct (item_valid_numbers item Hitem) as (q & p & Hq & Hp & Hq1 & Hp1).
  unfold add_quantity. rewrite Hq. cbn [bind plus ToNumber ToPrimitive is_string orb].
  eexists. split; [reflexivity|]. now apply num_add_at_least_one.
Qed.

(* Over valid items the two reduces return, and their totals are at least 1
   once one item has been added. *)
Lemma reduce_add_amount_valid (items : list JSValue) (sum : JSNumber) :
  forallb item_valid items = true -> not_negative sum = true ->
  exists total,
    reduce add_amount items sum = Return total /\
    not_negative total = true /\
    (items <> [] -> at_least_one total = true).
Proof.
  revert sum. induction items as [|item items IH]; intros sum Hvalid Hsum.
  - exists sum. repeat split; [assumption | intros H; now elim H].
  - cbn [forallb] in Hvalid. apply andb_prop in Hvalid as [Hitem Hvalid].
    destruct (add_amount_valid sum item Hitem Hsum) as (sum' & Hstep & Hsum').
    destruct (IH sum' Hvalid (at_least_one_not_negative _ Hsum')) as (total & Htotal & H0 & H1).
    exists total. cbn [reduce]. rewrite Hstep. cbn [bind].
    repeat split; [assumption..|]. intros _.
    destruct items as [|item' items']; [|apply H1; discriminate].
    cbn in Htotal. now injection Htotal as <-.
Qed.

Lemma reduce_add_quantity_valid (items : list JSValue) (sum : JSNumber) :
  forallb item_valid items = true -> not_negative sum = true ->
  exists total,
    reduce add_quantity items (JNumber sum) = Return (JNumber total) /\
    not_negative total = true /\
    (items <> [] -> at_least_one total = true).
Proof.
  revert sum. induction items as [|item items IH]; intros sum Hvalid Hsum.
  - exists sum. repeat split; [assumption | intros H; now elim H].
  - cbn [forallb] in Hvalid. apply andb_prop in Hvalid as [Hitem Hvalid].
    destruct (add_quantity_valid sum item Hitem Hsum) as (sum' & Hstep & Hsum').
    destruct (IH sum' Hvalid (at_least_one_not_negative _ Hsum')) as (total & Htotal & H0 & H1).
    exists total. cbn [reduce]. rewrite Hstep. cbn [bind].
    repeat split; [assumption..|]. intros _.
    destruct items as [|item' items']; [|apply H1; discriminate].
    cbn in Htotal. now injection Htotal as <-.
Qed.

(* A request that passes validation is an object whose customer can be read
   and whose items are an array of one valid item or more. *)
Lemma request_valid_inv (request : JSValue) :
  request_valid request = true ->
  truthy request = true /\
  truthy (get_optional request "customer_info") = true /\
  exists item items,
    get_optional request "items" = JArray (item :: items) /\
    forallb item_valid (item :: items) = true.
Proof.
  unfold request_valid. intros H. apply andb_prop in H as [Hcustomer Hitems].
  assert (Htruthy : truthy (get_optional request "customer_info") = true).
  { unfold customer_valid in Hcustomer.
    apply andb_prop in Hcustomer as [H _]. apply andb_prop in H as [H _].
    now apply andb_prop in H as [H _]. }
  split; [|split; [assumption|]].
  - destruct request; try discriminate Htruthy. reflexivity.
  - destruct (get_optional request "items") as [| | | | |l|]; try discriminate Hitems.
    destruct l as [|item items]; [discriminate Hitems|]. eauto.
Qed.

Lemma mercadoPagoItems_valid (date_now : nat -> Z) (items : list JSValue) (first : nat) :
  forallb item_valid items = true ->
  exists ps, mercadoPagoItems date_now first items = Return ps.
Proof.
  revert first. induction items as [|item items IH]; intros first Hvalid; [cbn; eauto|].
  cbn [forallb] in Hvalid. apply andb_prop in Hvalid as [Hitem Hvalid].
  destruct (item_valid_numbers item Hitem) as (q & p & Hq & _).
  destruct (IH (S first) Hvalid) as [ps Hps].
  cbn [mercadoPagoItems].
  rewrite (get_again _ _ _ "id" Hq), (get_again _ _ _ "title" Hq),
    (get_again _ _ _ "description" Hq), (get_again _ _ _ "quantity" Hq),
    (get_again _ _ _ "unit_price" Hq), Hps.
  cbn [bind]. eauto.
Qed.

(* For a request that passes validation buildPreference fails in one way
   only: by an expiration that is out of the range of Date. *)
Lemma preference_of_valid (cfg : MercadoPagoConfig) (now : Z) (date_now : nat -> Z)
    (request : JSValue) :
  request_valid request = true ->
  match expiry cfg now with
  | Some t => exists data, preference_of cfg now date_now request = Return data
  | None => preference_of cfg now date_now request = Throw (RangeError "Invalid time value")
  end.
Proof.
  intros Hvalid.
  destruct (request_valid_inv request Hvalid) as (Htruthy & Hcustomer & item & items & Hitems & Hall).
  destruct (reduce_add_amount_valid _ (of_Z 0) Hall eq_refl) as (total & Htotal & _).
  destruct (reduce_add_quantity_valid _ (of_Z 0) Hall eq_refl) as (count & Hcount & _).
  destruct (mercadoPagoItems_valid date_now _ 0 Hall) as [ps Hps].
  unfold preference_of. rewrite !(get_truthy request _ Htruthy), Hitems.
  cbn [bind array_method getTime]. rewrite Htotal, Hcount, Hps. cbn [bind].
  fold (expiry cfg now). destruct (expiry cfg now) as [t|]; [|reflexivity].
  cbn [toISOString bind]. rewrite !(get_truthy _ _ Hcustomer). cbn [bind]. eauto.
Qed.

Lemma order_items_valid (items : list JSValue) :
  forallb item_valid items = true ->
  exists orderItems,
    map_each order_item items = Return orderItems /\
    Forall (fun item => exists q, item_quantity item = JNumber q) orderItems.
Proof.
  induction items as [|item items IH]; intros Hvalid; [exists []; split; [reflexivity|constructor]|].
  cbn [forallb] in Hvalid. apply andb_prop in Hvalid as [Hitem Hvalid].
  destruct (item_valid_numbers item Hitem) as (q & p & Hq & Hp & _).
  destruct (IH Hvalid) as (orderItems & Hmap & Hnumbers).
  cbn [map_each]. rewrite (order_item_numbers item q p Hq Hp), Hmap. cbn [bind].
  eexists. split; [reflexivity|]. constructor; [cbn; eauto | assumption].
Qed.

Lemma reduce_total_price (orderItems : list OrderItem) (sum : JSNumber) :
  exists total,
    reduce (fun sum item => Return (num_add sum (total_price item))) orderItems sum
    = Return total.
Proof.
  revert sum. induction orderItems as [|item orderItems IH]; intros sum; cbn; eauto.
Qed.

Lemma reduce_item_quantity (orderItems : list OrderItem) (sum : JSNumber) :
  Forall (fun item => exists q, item_quantity item = JNumber q) orderItems ->
  exists total,
    reduce (fun sum item => plus sum (item_quantity item)) orderItems (JNumber sum)
    = Return total.
Proof.
  intros H. revert sum. induction H as [|item orderItems [q Hq] _ IH]; intros sum;
    cbn [reduce]; [eauto|].
  rewrite Hq. cbn [plus bind ToPrimitive ToNumber is_string orb]. apply IH.
Qed.

(* And so does buildOrder. *)
Lemma order_of_valid (cfg : MercadoPagoConfig) (preferenceId : string) (now date_now : Z)
    (request : JSValue) :
  request_valid request = true ->
  match expiry cfg now with
  | Some t => exists o, order_of cfg preferenceId now date_now request = Return o
  | None =>
      order_of cfg preferenceId now date_now request
      = Throw (RangeError "Invalid time value")
  end.
Proof.
  intros Hvalid.
  destruct (request_valid_inv request Hvalid) as (Htruthy & Hcustomer & item & items & Hitems & Hall).
  destruct (order_items_valid _ Hall) as (orderItems & Hmap & Hnumbers).
  destruct (reduce_total_price orderItems (of_Z 0)) as [total Htotal].
  destruct (reduce_item_quantity orderItems (of_Z 0) Hnumbers) as [count Hcount].
  unfold order_of. rewrite !(get_truthy request _ Htruthy), Hitems.
  cbn [bind array_method]. rewrite Hmap. cbn [bind]. rewrite Htotal. cbn [bind].
  rewrite Hcount. cbn [bind getTime toISOString].
  fold (expiry cfg now). destruct (expiry cfg now) as [t|]; [|reflexivity].
  cbn [toISOString bind]. eauto.
Qed.


(* For a request that passes validation the two steps return as soon as the
   expiration is within the range of Date. *)
Lemma buildPreference_valid (b : Builder) (request : JSValue) (now : Z)
    (date_now : nat -> Z) :
  paymentRequest b = Some request ->
  request_valid request = true ->
  expiry (config b) now <> None ->
  snd (buildPreference now date_now b) = None.
Proof.
  intros Hrequest Hvalid Hexpiry.
  destruct (request_valid_inv request Hvalid) as (Htruthy & _).
  pose proof (preference_of_valid (config b) now date_now request Hvalid) as H.
  destruct (expiry (config b) now) as [t|]; [|now elim Hexpiry].
  destruct H as [data Hdata]. unfold buildPreference. now rewrite Hrequest, Htruthy, Hdata.
Qed.

Lemma createPreference_valid
    (create : MercadoPagoPreferenceData -> completion PreferenceResponse)
    (b : Builder) (request : JSValue) (now date_now : Z)
    (data : MercadoPagoPreferenceData) (response : PreferenceResponse) :
  paymentRequest b = Some request ->
  request_valid request = true ->
  preferenceData b = Some data ->
  create data = Return response ->
  missing (response_id response) = false ->
  missing (init_point response) = false ->
  expiry (config b) now <> None ->
  snd (createPreference create now date_now b) = None.
Proof.
  intros Hrequest Hvalid Hdata Hcreate Hid Hurl Hexpiry.
  destruct (request_valid_inv request Hvalid) as (Htruthy & _).
  pose proof (order_of_valid (config b) (string_or (response_id response) "") now date_now
                request Hvalid) as H.
  destruct (expiry (config b) now) as [t|]; [|now elim Hexpiry].
  destruct H as [o Ho]. unfold createPreference. rewrite Hdata, Hcreate, Hid, Hurl. cbn [orb].
  unfold buildOrder. cbn [paymentRequest config]. now rewrite Hrequest, Htruthy, Ho.
Qed.

(** ** The items of the preference *)

Lemma mercadoPagoItems_nth (date_now : nat -> Z) (l : list JSValue) (first index : nat)
    (ps : list PreferenceItem) (item : JSValue) :
  mercadoPagoItems date_now first l = Return ps ->
  List.nth_error l index = Some item ->
  List.nth_error ps index =
  Some {| mp_id := or_else (get_optional item "id")
                     (JString (String.append "item_"
                        (String.append (Number_toString (of_Z (date_now (first + index)%nat)))
                           (String.append "_" (decimal (Z.of_nat (first + index)))))));
          mp_title := get_optional item "title";
          mp_description := or_else (get_optional item "description")
                              (get_optional item "title");
          mp_quantity := get_optional item "quantity";
          mp_unit_price := get_optional item "unit_price";
          mp_currency_id := "COP" |}.
Proof.
  revert first index ps.
  induction l as [|x l IH]; intros first index ps H Hnth; [destruct index; discriminate|].
  cbn [mercadoPagoItems] in H.
  destruct (get x "id") as [id|] eqn:Hid; [|discriminate]. cbn [bind] in H.
  rewrite (get_again _ _ _ "title" Hid), (get_again _ _ _ "description" Hid),
    (get_again _ _ _ "quantity" Hid), (get_again _ _ _ "unit_price" Hid) in H.
  cbn [bind] in H. apply get_is_optional in Hid. subst id.
  destruct (mercadoPagoItems date_now (S first) l) as [others|] eqn:Hothers; [|discriminate].
  cbn [bind] in H. injection H as <-.
  destruct index as [|index].
  - injection Hnth as <-. cbn [List.nth_error]. now rewrite Nat.add_0_r.
  - cbn [List.nth_error] in *. rewrite (IH (S first) index others Hothers Hnth).
    now replace (S first + index)%nat with (first + S index)%nat by lia.
Qed.

Lemma mercadoPagoItems_length (date_now : nat -> Z) (l : list JSValue) (first : nat)
    (ps : list PreferenceItem) :
  mercadoPagoItems date_now first l = Return ps -> List.length ps = List.length l.
Proof.
  revert first ps. induction l as [|x l IH]; intros first ps H.
  - injection H as <-. reflexivity.
  - cbn [mercadoPagoItems] in H. repeat bind_in H. injection H as <-.
    cbn [List.length]. f_equal. eapply IH. eassumption.
Qed.

(** X13: the items of the preference are the items of the request.
    buildPreference returns for a request that passes validation when the
    expiration is within the range of Date; and whenever it returns, the items
    of the preference are those of the request, one for one and in order: same
    title, quantity and unit price, currency COP, the description or else the
    title, and an id that is never empty: the id of the item when it has one,
    else item_<Date.now()>_<index>. *)
Theorem X13_preference_items_mirror_request (b : Builder) (request : JSValue)
    (now : Z) (date_now : nat -> Z) :
  paymentRequest b = Some request ->
  (request_valid request = true -> expiry (config b) now <> None ->
   snd (buildPreference now date_now b) = None) /\
  (snd (buildPreference now date_now b) = None ->
   exists data items,
     preferenceData (fst (buildPreference now date_now b)) = Some data /\
     get_optional request "items" = JArray items /\
     List.length (pref_items data) = List.length items /\
     forall index item,
       List.nth_error items index = Some item ->
       exists p,
         List.nth_error (pref_items data) index = Some p /\
         mp_title p = get_optional item "title" /\
         mp_quantity p = get_optional item "quantity" /\
         mp_unit_price p = get_optional item "unit_price" /\
         mp_currency_id p = "COP"%string /\
         mp_description p = or_else (get_optional item "description")
                              (get_optional item "title") /\
         truthy (mp_id p) = true /\
         (truthy (get_optional item "id") = true -> mp_id p = get_optional item "id") /\
         (truthy (get_optional item "id") = false ->
          mp_id p = JString (String.append "item_"
                       (String.append (Number_toString (of_Z (date_now index)))
                          (String.append "_" (decimal (Z.of_nat index))))))).
Proof.
  intros Hrequest. split; [intros Hvalid Hexpiry; now apply (buildPreference_valid b request)|].
  intros Hreturns.
  destruct (buildPreference_returns b request now date_now Hrequest Hreturns)
    as (_ & data & Hdata & ->).
  destruct (preference_of_inv _ _ _ _ _ Hdata) as (items & t & Hitems & _ & _ & Hmp & _).
  exists data, items. split; [reflexivity|]. split; [exact Hitems|].
  split; [exact (mercadoPagoItems_length _ _ _ _ Hmp)|].
  intros index item Hnth. eexists.
  split; [exact (mercadoPagoItems_nth _ _ 0 index _ item Hmp Hnth)|].
  cbn [mp_title mp_quantity mp_unit_price mp_currency_id mp_description mp_id Nat.add].
  repeat split.
  - unfold or_else. destruct (truthy (get_optional item "id")) eqn:Hid; [exact Hid|reflexivity].
  - intros Hid. unfold or_else. now rewrite Hid.
  - intros Hid. unfold or_else. now rewrite Hid.
Qed.

(* The request of the examples, whose Widget has no id. *)
Lemma X13_preference_items_mirror_request_witness :
  snd (buildPreference 1700000000000 (fun _ => 1700000000000)
         (setPaymentRequest widget_request (new_builder builder_config))) = None /\
  exists data,
    preferenceData (fst (buildPreference 1700000000000 (fun _ => 1700000000000)
                           (setPaymentRequest widget_request (new_builder builder_config))))
    = Some data /\
    List.nth_error (pref_items data) 0
    = Some {| mp_id := JString "item_1700000000000_0"; mp_title := JString "Widget";
              mp_description := JString "Widget"; mp_quantity := JNumber (of_Z 2);
              mp_unit_price := JNumber (of_Z 100); mp_currency_id := "COP" |}.
Proof.
  destruct (X13_preference_items_mirror_request
              (setPaymentRequest widget_request (new_builder builder_config))
              widget_request 1700000000000 (fun _ => 1700000000000) eq_refl)
    as (Hreturns & Hitems).
  assert (H : snd (buildPreference 1700000000000 (fun _ => 1700000000000)
                     (setPaymentRequest widget_request (new_builder builder_config))) = None).
  { apply Hreturns; [reflexivity | vm_compute; discriminate]. }
  split; [exact H|]. destruct (Hitems H) as (data & items & Hdata & _).
  exists data. split; [exact Hdata|].
  vm_compute in Hdata. injection Hdata as <-. reflexivity.
Defined.

(** ** The expiration *)

(** X14: the preference and the order expire after the same window. For a
    configuration whose expirationTime is a whole number of minutes, and from
    1970 on as long as the expiration is within the range of Date:
    buildPreference returns for a request that passes validation, and whenever
    it returns, the preference expires that many minutes after its creation;
    createPreference returns for such a request when the provider answers the
    preference with an id and an init_point, and whenever it returns, the
    order, whose status is 'pending', expires that many minutes after its
    creation; the window is 20 minutes when expirationTime is not configured
    or is 0. *)
Theorem X14_same_expiration_window (b : Builder) (request : JSValue)
    (create : MercadoPagoPreferenceData -> completion PreferenceResponse)
    (now now' date_now' : Z) (date_now : nat -> Z) (minutes : Z) :
  paymentRequest b = Some request ->
  whole_minutes (config b) = Some minutes ->
  0 <= minutes ->
  0 <= now -> now + minutes * 60000 <= latest ->
  0 <= now' -> now' + minutes * 60000 <= latest ->
  (expirationTime (config b) = None \/ expirationTime (config b) = Some (of_Z 0) ->
   minutes = 20) /\
  (request_valid request = true -> snd (buildPreference now date_now b) = None) /\
  (snd (buildPreference now date_now b) = None ->
   exists data,
     preferenceData (fst (buildPreference now date_now b)) = Some data /\
     meta_created_at (metadata data) = iso now /\
     date_of_expiration data = iso (now + minutes * 60000) /\
     integer_of (expiration_minutes (metadata data)) = Some minutes) /\
  (request_valid request = true ->
   forall data response,
     preferenceData b = Some data ->
     create data = Return response ->
     missing (response_id response) = false ->
     missing (init_point response) = false ->
     snd (createPreference create now' date_now' b) = None) /\
  (snd (createPreference create now' date_now' b) = None ->
   exists o,
     order (fst (createPreference create now' date_now' b)) = Some o /\
     created_at o = iso now' /\
     expires_at o = iso (now' + minutes * 60000) /\
     status o = "pending"%string).
Proof.
  intros Hrequest Hminutes Hm Hnow Hlate Hnow' Hlate'.
  pose proof (expiry_exact _ _ _ Hminutes Hm Hnow Hlate) as Hexact.
  pose proof (expiry_exact _ _ _ Hminutes Hm Hnow' Hlate') as Hexact'.
  split; [|split; [|split; [|split]]].
  - unfold whole_minutes in Hminutes. intros [H|H]; rewrite H in Hminutes;
      now injection Hminutes as <-.
  - intros Hvalid. apply (buildPreference_valid b request); [assumption..|].
    now rewrite Hexact.
  - intros Hreturns.
    destruct (buildPreference_returns b request now date_now Hrequest Hreturns)
      as (_ & data & Hdata & ->).
    destruct (preference_of_inv _ _ _ _ _ Hdata)
      as (items & t & _ & _ & _ & _ & Hexpiry & Hdate & Hcreated & Hwindow & _).
    rewrite Hexact in Hexpiry. injection Hexpiry as <-.
    exists data. split; [reflexivity|]. rewrite Hwindow. repeat split; assumption.
  - intros Hvalid data response Hdata Hcreate Hid Hurl.
    apply (createPreference_valid create b request now' date_now' data response);
      [assumption..|]. now rewrite Hexact'.
  - intros Hreturns.
    destruct (createPreference_returns create b request now' date_now' Hrequest Hreturns)
      as (_ & data & response & o & _ & _ & _ & _ & Ho & ->).
    destruct (order_of_inv _ _ _ _ _ _ Ho)
      as (items & t & _ & _ & Hexpiry & Hexpires & Hcreated & Hstatus & _).
    rewrite Hexact' in Hexpiry. injection Hexpiry as <-.
    exists o. split; [reflexivity|]. repeat split; assumption.
Qed.

(* The default window of 20 minutes: a preference created on 14 November 2023
   at 22:13:20 expires at 22:33:20. *)
Lemma X14_same_expiration_window_witness :
  let b0 := setPaymentRequest widget_request (new_builder builder_config) in
  let b1 := fst (buildPreference 1700000000000 (fun _ => 1700000000000) b0) in
  snd (buildPreference 1700000000000 (fun _ => 1700000000000) b0) = None /\
  (exists data,
     preferenceData b1 = Some data /\
     meta_created_at (metadata data) = "2023-11-14T22:13:20.000Z"%string /\
     date_of_expiration data = "2023-11-14T22:33:20.000Z"%string /\
     integer_of (expiration_minutes (metadata data)) = Some 20) /\
  snd (createPreference create_ok 1700000000500 1700000000501 b1) = None /\
  (exists o,
     order (fst (createPreference create_ok 1700000000500 1700000000501 b1)) = Some o /\
     created_at o = "2023-11-14T22:13:20.500Z"%string /\
     expires_at o = "2023-11-14T22:33:20.500Z"%string /\
     status o = "pending"%string).
Proof.
  destruct (X14_same_expiration_window
              (setPaymentRequest widget_request (new_builder builder_config)) widget_request
              create_ok 1700000000000 1700000000500 1700000000501 (fun _ => 1700000000000) 20)
    as (_ & Hreturns & Hpreference & _);
    [first [reflexivity | unfold latest; lia].. |].
  destruct (X14_same_expiration_window
              (fst (buildPreference 1700000000000 (fun _ => 1700000000000)
                      (setPaymentRequest widget_request (new_builder builder_config))))
              widget_request
              create_ok 1700000000000 1700000000500 1700000000501 (fun _ => 1700000000000) 20)
    as (_ & _ & _ & Hcreated & Horder);
    [first [reflexivity | unfold latest; lia].. |].
  pose proof (Hreturns eq_refl) as H1.
  assert (H2 : snd (createPreference create_ok 1700000000500 1700000000501
                      (fst (buildPreference 1700000000000 (fun _ => 1700000000000)
                              (setPaymentRequest widget_request (new_builder builder_config)))))
               = None).
  { eapply (Hcreated eq_refl); [vm_compute; reflexivity | reflexivity..]. }
  split; [exact H1|]. split; [exact (Hpreference H1)|]. split; [exact H2|]. exact (Horder H2).
Defined.

(** ** The totals of a request that passes validation *)

(** X15: for a request that passes validation, with an expiration within the
    range of Date, buildPreference returns, and the total amount and the
    total of items of the preference are numbers of at least 1 (Infinity when
    the sum overflows): neither 0, nor negative, nor NaN, whatever is rounded
    on the way. *)
Theorem X15_totals_of_validated_request_are_positive (b : Builder) (request : JSValue)
    (now : Z) (date_now : nat -> Z) :
  paymentRequest b = Some request ->
  request_valid request = true ->
  expiry (config b) now <> None ->
  snd (buildPreference now date_now b) = None /\
  exists data count,
    preferenceData (fst (buildPreference now date_now b)) = Some data /\
    at_least_one (meta_total_amount (metadata data)) = true /\
    meta_total_items (metadata data) = JNumber count /\
    at_least_one count = true.
Proof.
  intros Hrequest Hvalid Hexpiry.
  pose proof (buildPreference_valid b request now date_now Hrequest Hvalid Hexpiry) as Hreturns.
  split; [exact Hreturns|].
  destruct (buildPreference_returns b request now date_now Hrequest Hreturns)
    as (_ & data & Hdata & ->).
  destruct (preference_of_inv _ _ _ _ _ Hdata) as (items & t & Hitems & Hamount & Hcount & _).
  destruct (request_valid_inv request Hvalid) as (_ & _ & item & items' & Hitems' & Hall).
  rewrite Hitems' in Hitems. injection Hitems as <-.
  destruct (reduce_add_amount_valid _ (of_Z 0) Hall eq_refl) as (total & Htotal & _ & H1).
  destruct (reduce_add_quantity_valid _ (of_Z 0) Hall eq_refl) as (count & Hcount' & _ & H2).
  rewrite Htotal in Hamount. injection Hamount as Hamount.
  rewrite Hcount' in Hcount. injection Hcount as Hcount.
  exists data, count. split; [reflexivity|]. rewrite <- Hamount, <- Hcount.
  repeat split; [apply H1 | apply H2]; discriminate.
Qed.

(* Two Widgets at 100. *)
Lemma X15_totals_of_validated_request_are_positive_witness :
  snd (buildPreference 1700000000000 (fun _ => 1700000000000)
         (setPaymentRequest widget_request (new_builder builder_config))) = None /\
  exists data count,
    preferenceData (fst (buildPreference 1700000000000 (fun _ => 1700000000000)
                           (setPaymentRequest widget_request (new_builder builder_config))))
    = Some data /\
    at_least_one (meta_total_amount (metadata data)) = true /\
    meta_total_items (metadata data) = JNumber count /\
    at_least_one count = true.
Proof.
  apply (X15_totals_of_validated_request_are_positive
           (setPaymentRequest widget_request (new_builder builder_config)) widget_request);
    [reflexivity | reflexivity | vm_compute; discriminate].
Defined.

End MercadoPagoBuilderProperties.

(** * Properties of the webhook handler *)

Module WebhookHandlerProperties.
Import JS MercadoPagoWebhookHandler Vocabulary Examples.
Local Infix "+++" := String.append (right associativity, at level 60).

(** ** Strings and their bytes *)

Lemma code_inj (a b : ascii) : code a = code b -> a = b.
Proof.
  unfold code. intros H. apply N2Z.inj in H.
  rewrite <- (ascii_N_embedding a), <- (ascii_N_embedding b). now rewrite H.
Qed.

Lemma bytes_inj (s t : string) : bytes s = bytes t -> s = t.
Proof.
  unfold bytes. intros H.
  rewrite <- (string_of_list_ascii_of_string s), <- (string_of_list_ascii_of_string t).
  f_equal. revert H.
  generalize (list_ascii_of_string s) (list_ascii_of_string t).
  induction l as [|a l IH]; intros [|b l']; simpl; intros H; try discriminate; auto.
  injection H as H1 H2. f_equal; [now apply code_inj | now apply IH].
Qed.

Lemma bytes_length (s : string) : List.length (bytes s) = String.length s.
Proof.
  unfold bytes. rewrite List.length_map.
  induction s; simpl; auto.
Qed.

Lemma accumulate_zero (es rs : list Z) (result : Z) :
  List.length es = List.length rs ->
  accumulate result es rs = 0 <-> result = 0 /\ es = rs.
Proof.
  revert rs result. induction es as [|e es IH]; intros [|r rs] result Hlen;
    simpl in *; try discriminate.
  - split; [intros ->; auto | intros [-> _]; auto].
  - injection Hlen as Hlen. rewrite (IH rs _ Hlen), Z.lor_eq_0_iff, Z.lxor_eq_0_iff.
    split.
    + intros [[-> ->] ->]. auto.
    + intros [-> H]. injection H as -> ->. auto.
Qed.

(* The comparison decides equality. *)
Lemma safeCompare_true_iff (expected received : string) :
  safeCompare expected received = true <-> expected = received.
Proof.
  unfold safeCompare.
  destruct (Nat.eqb_spec (String.length expected) (String.length received)) as [Hlen|Hlen];
    simpl.
  - rewrite Z.eqb_eq, accumulate_zero by now rewrite !bytes_length.
    split; [intros [_ H]; now apply bytes_inj | intros ->; auto].
  - split; [discriminate | intros ->; now elim Hlen].
Qed.

(** ** The verdict of validateSignature *)

Lemma missing_false (o : option string) :
  missing o = false <-> exists s, o = Some s /\ s <> ""%string.
Proof.
  destruct o as [s|]; simpl.
  - destruct (String.eqb_spec s "") as [->|Hne].
    + split; [discriminate | intros (s & [= <-] & H); now elim H].
    + split; [intros _; eauto | auto].
  - split; [discriminate | intros (s & [=] & _)].
Qed.

(* With a secret, a request is valid exactly when its header carries a
   timestamp and the digest of the manifest built with that timestamp. *)
Lemma validateSignature_valid_iff (cfg : WebhookConfig) (secret body : string)
    (headers : gmap string string) :
  configured cfg secret ->
  isValid (validateSignature cfg body headers) = true <->
  missing (signature_header headers) = false /\
  exists ts m,
    timestamp_of headers = Some ts /\ ts <> ""%string /\
    build_manifest body headers ts = Return m /\
    received_of headers = Some (createHmac_sha256_hex secret m) /\
    createHmac_sha256_hex secret m <> ""%string.
Proof.
  intros [Hsecret Hne]. unfold validateSignature. rewrite Hsecret.
  destruct (String.eqb_spec secret "") as [->|_]; [now elim Hne|].
  fold (signature_header headers).
  destruct (missing (signature_header headers)) eqn:Hsig; simpl.
  { split; [discriminate | intros [[=] _]]. }
  unfold timestamp_of, received_of.
  destruct (read_signature (or_empty (signature_header headers))) as [ts v1] eqn:Hread.
  simpl.
  destruct (missing ts) eqn:Hts; simpl.
  { split; [discriminate|]. intros (_ & t & m & -> & Ht & _).
    simpl in Hts. apply String.eqb_eq in Hts. contradiction. }
  destruct (missing v1) eqn:Hv1; simpl.
  { split; [discriminate|]. intros (_ & t & m & _ & _ & _ & -> & Hd).
    simpl in Hv1. apply String.eqb_eq in Hv1. contradiction. }
  apply missing_false in Hts as (t & -> & Ht).
  apply missing_false in Hv1 as (v & -> & Hv).
  simpl. destruct (build_manifest body headers t) as [m|e] eqn:Hm; simpl.
  - rewrite safeCompare_true_iff. split.
    + intros <-. split; [reflexivity|]. exists t, m. auto.
    + intros (_ & t' & m' & [= <-] & _ & Hm' & [= ->] & _).
      rewrite Hm in Hm'. now injection Hm' as ->.
  - split; [discriminate|]. intros (_ & t' & m' & [= <-] & _ & Hm' & _).
    rewrite Hm in Hm'. discriminate.
Qed.

(** ** The manifest determines each of its three values *)

Lemma list_ascii_of_append (a b : string) :
  list_ascii_of_string (a +++ b) = (list_ascii_of_string a ++ list_ascii_of_string b)%list.
Proof. induction a as [|c a IH]; simpl; [reflexivity | now rewrite IH]. Qed.

Lemma append_inv_head (p a b : string) : p +++ a = p +++ b -> a = b.
Proof. induction p as [|c p IH]; simpl; [auto | intros [= H]; auto]. Qed.

Lemma append_inv_tail (a b q : string) : a +++ q = b +++ q -> a = b.
Proof.
  intros H. apply (f_equal list_ascii_of_string) in H.
  rewrite !list_ascii_of_append in H. apply List.app_inv_tail in H.
  rewrite <- (string_of_list_ascii_of_string a), <- (string_of_list_ascii_of_string b).
  now rewrite H.
Qed.

Lemma manifest_of_inj_dataId (a a' r t : string) :
  manifest_of a r t = manifest_of a' r t -> a = a'.
Proof.
  unfold manifest_of. intros H. apply append_inv_head in H.
  now apply append_inv_tail in H.
Qed.

Lemma manifest_of_inj_requestId (a r r' t : string) :
  manifest_of a r t = manifest_of a r' t -> r = r'.
Proof.
  unfold manifest_of. intros H. do 3 apply append_inv_head in H.
  now apply append_inv_tail in H.
Qed.

Lemma manifest_of_inj_timestamp (a r t t' : string) :
  manifest_of a r t = manifest_of a r t' -> t = t'.
Proof.
  unfold manifest_of. intros H. do 5 apply append_inv_head in H.
  now apply append_inv_tail in H.
Qed.

Lemma build_manifest_Return (body : string) (headers : gmap string string) (ts m : string) :
  build_manifest body headers ts = Return m <->
  exists id, payment_id_of body headers = Return id /\
             m = manifest_of id (requestId_of headers) ts.
Proof.
  unfold build_manifest, payment_id_of.
  destruct (ToString (dataId_of body headers)) as [id|e]; simpl.
  - split; [intros [= <-]; eauto | intros (id' & [= <-] & ->); reflexivity].
  - split; [discriminate | intros (id' & [=] & _)].
Qed.

(** ** C1: what tampering the signature detects *)

Example signed_request_is_valid :
  validateSignature cfg_signed body_payment headers_signed
  = {| isValid := true; validation_error := None |}.
Proof. vm_compute. reflexivity. Qed.

(* A change of the body that leaves its payment id alone leaves the manifest,
   and with it the verdict, as they were. *)
Lemma validateSignature_same_dataId (cfg : WebhookConfig) (body body' : string)
    (headers : gmap string string) :
  dataId_of body' headers = dataId_of body headers ->
  validateSignature cfg body' headers = validateSignature cfg body headers.
Proof.
  intros H. unfold validateSignature, build_manifest. now rewrite H.
Qed.

(** C1, the claim as stated, fails: in the signed request the body is changed
    in one byte, outside of data.id, and the signature check still returns
    valid. *)
Lemma C1_body_byte_outside_id_stays_valid :
  isValid (validateSignature cfg_signed body_payment headers_signed) = true /\
  differ_in_one_byte body_payment body_tampered = true /\
  isValid (validateSignature cfg_signed body_tampered headers_signed) = true.
Proof. vm_compute. auto. Qed.

(** C1, as amended: with a secret configured, let a request be valid. A
    request that carries the same v1 and differs from it in exactly one of the
    three values that the manifest is built from (the payment id, taken from
    the data_id header or else from data.id of the body; the x-request-id
    header; the ts value of x-signature) is invalid, unless HMAC-SHA256 gives
    the two different manifests one digest. *)
Theorem C1_tampered_manifest_is_rejected (cfg : WebhookConfig) (secret body body' : string)
    (headers headers' : gmap string string) :
  configured cfg secret ->
  isValid (validateSignature cfg body headers) = true ->
  received_of headers' = received_of headers ->
  (payment_id_of body' headers' <> payment_id_of body headers /\
   requestId_of headers' = requestId_of headers /\
   timestamp_of headers' = timestamp_of headers) \/
  (payment_id_of body' headers' = payment_id_of body headers /\
   requestId_of headers' <> requestId_of headers /\
   timestamp_of headers' = timestamp_of headers) \/
  (payment_id_of body' headers' = payment_id_of body headers /\
   requestId_of headers' = requestId_of headers /\
   timestamp_of headers' <> timestamp_of headers) ->
  (forall m m',
     build_manifest body headers (or_empty (timestamp_of headers)) = Return m ->
     build_manifest body' headers' (or_empty (timestamp_of headers')) = Return m' ->
     m <> m' ->
     createHmac_sha256_hex secret m <> createHmac_sha256_hex secret m') ->
  isValid (validateSignature cfg body' headers') = false.
Proof.
  intros Hcfg Hvalid Hrecv Hchange Hfree.
  destruct (isValid (validateSignature cfg body' headers')) eqn:Hvalid'; [|reflexivity].
  exfalso.
  apply (validateSignature_valid_iff cfg secret) in Hvalid as (_ & t & m & Ht & _ & Hm & Hr & _);
    [|assumption].
  apply (validateSignature_valid_iff cfg secret) in Hvalid'
    as (_ & t' & m' & Ht' & _ & Hm' & Hr' & _); [|assumption].
  rewrite Hrecv, Hr in Hr'. injection Hr' as Hdigest.
  assert (Hsame : m = m').
  { destruct (string_dec m m') as [|Hne]; [assumption|].
    exfalso. apply (Hfree m m'); auto; [now rewrite Ht | now rewrite Ht']. }
  apply build_manifest_Return in Hm as (i & Hi & Hm).
  apply build_manifest_Return in Hm' as (i' & Hi' & Hm').
  rewrite Hm, Hm' in Hsame. clear Hm Hm' Hfree.
  rewrite Ht, Ht' in Hchange.
  destruct Hchange as [(Hid & Hrid & Hts) | [(Hid & Hrid & Hts) | (Hid & Hrid & Hts)]].
  - injection Hts as ->. rewrite Hrid in Hsame.
    apply manifest_of_inj_dataId in Hsame. apply Hid. now rewrite Hi, Hi', Hsame.
  - injection Hts as ->. rewrite Hid, Hi in Hi'. injection Hi' as <-.
    apply manifest_of_inj_requestId in Hsame. now apply Hrid.
  - rewrite Hid, Hi in Hi'. injection Hi' as <-. rewrite Hrid in Hsame.
    apply manifest_of_inj_timestamp in Hsame. apply Hts. now rewrite Hsame.
Qed.

(* The valid request with the last digit of its ts changed. *)
Lemma C1_tampered_manifest_is_rejected_witness :
  isValid (validateSignature cfg_signed body_payment headers_later) = false.
Proof.
  apply (C1_tampered_manifest_is_rejected cfg_signed "secret" body_payment body_payment
           headers_signed headers_later).
  - split; [reflexivity | discriminate].
  - vm_compute. reflexivity.
  - vm_compute. reflexivity.
  - right. right. vm_compute. repeat split; discriminate.
  - intros m m' Hm Hm' _. vm_compute in Hm, Hm'.
    injection Hm as <-. injection Hm' as <-. vm_compute. discriminate.
Defined.

(** ** C2, C3: when the handler answers 403 *)

Lemma read_part_keeps_timestamp (found : option string * option string) (part : string) :
  List.nth 0 (split "=" part) ""%string <> "ts"%string ->
  fst (read_part found part) = fst found.
Proof.
  intros Hkey. unfold read_part.
  destruct (String.eqb_spec (List.nth 0 (split "=" part) ""%string) "ts"); [contradiction|].
  now destruct (String.eqb _ "v1").
Qed.

Lemma read_part_keeps_received (found : option string * option string) (part : string) :
  List.nth 0 (split "=" part) ""%string <> "v1"%string ->
  snd (read_part found part) = snd found.
Proof.
  intros Hkey. unfold read_part.
  destruct (String.eqb _ "ts"); [reflexivity|].
  now destruct (String.eqb_spec (List.nth 0 (split "=" part) ""%string) "v1").
Qed.

Lemma loop_keeps_timestamp (parts : list string) (found : option string * option string) :
  (forall part, In part parts -> List.nth 0 (split "=" part) ""%string <> "ts"%string) ->
  fst (List.fold_left read_part parts found) = fst found.
Proof.
  revert found. induction parts as [|part parts IH]; intros found Hno; simpl; [reflexivity|].
  rewrite IH by (intros p Hp; apply Hno; now right).
  apply read_part_keeps_timestamp, Hno. now left.
Qed.

Lemma loop_keeps_received (parts : list string) (found : option string * option string) :
  (forall part, In part parts -> List.nth 0 (split "=" part) ""%string <> "v1"%string) ->
  snd (List.fold_left read_part parts found) = snd found.
Proof.
  revert found. induction parts as [|part parts IH]; intros found Hno; simpl; [reflexivity|].
  rewrite IH by (intros p Hp; apply Hno; now right).
  apply read_part_keeps_received, Hno. now left.
Qed.

(* Without a component ts= the timestamp keeps its initial value, the empty
   string; and so does the received signature without a component v1=. *)
Lemma read_signature_without_ts (signature : string) :
  ~ carries signature "ts" -> fst (read_signature signature) = Some ""%string.
Proof.
  intros Hno. unfold read_signature. rewrite loop_keeps_timestamp; [reflexivity|].
  intros part Hin Hkey. apply Hno. now exists part.
Qed.

Lemma read_signature_without_v1 (signature : string) :
  ~ carries signature "v1" -> snd (read_signature signature) = Some ""%string.
Proof.
  intros Hno. unfold read_signature. rewrite loop_keeps_received; [reflexivity|].
  intros part Hin Hkey. apply Hno. now exists part.
Qed.

Ltac step_bind :=
  match goal with
  | H : context [bind ?c _] |- _ => destruct c eqn:?; simpl in H
  | |- context [bind ?c _] => destruct c eqn:?; simpl
  end.

(* The payment branch is one call of the provider and what is made of its
   answer. *)
Lemma handlePaymentWebhook_eq (env : Environment) (paymentId : JSValue)
    (baseLogData : WebhookLogData) :
  handlePaymentWebhook env paymentId baseLogData
  = (payment_result (fst (getPaymentInfo env paymentId)) baseLogData, [paymentId]).
Proof. reflexivity. Qed.

(* The payment branch answers 200, 400 or 500. *)
Lemma payment_result_status (paymentInfo : JSValue) (baseLogData : WebhookLogData) :
  In (status (payment_result paymentInfo baseLogData)) [200; 400; 500].
Proof.
  unfold payment_result. destruct (truthy paymentInfo); simpl; [|auto].
  destruct (ToString _); simpl; auto.
Qed.

Lemma handlePaymentWebhook_status (env : Environment) (paymentId : JSValue)
    (baseLogData : WebhookLogData) :
  In (status (fst (handlePaymentWebhook env paymentId baseLogData))) [200; 400; 500].
Proof. rewrite handlePaymentWebhook_eq. apply payment_result_status. Qed.

Lemma handleWebhookEvent_status (env : Environment) (webhookData : JSValue)
    (headers : gmap string string) (result : WebhookProcessResult) (asked : list JSValue) :
  handleWebhookEvent env webhookData headers = Return (result, asked) ->
  In (status result) [200; 400; 500].
Proof.
  unfold handleWebhookEvent. intros H.
  repeat (step_bind; try discriminate);
    destruct (is_payment _ && truthy _); try discriminate;
    injection H as <- _; first [apply payment_result_status | simpl; auto].
Qed.

(* Past the signature check no answer is a 403. *)
Lemma parse_and_handle_status (env : Environment) (body : string)
    (headers : gmap string string) :
  In (status (fst (parse_and_handle env body headers))) [200; 400; 500].
Proof.
  unfold parse_and_handle. destruct (JSON_parse body) as [webhookData|e]; [|simpl; auto].
  destruct (handleWebhookEvent env webhookData headers) as [[result asked]|e] eqn:H.
  - simpl. eapply handleWebhookEvent_status, H.
  - simpl. auto.
Qed.

(** C2, the claim as stated, fails: validation is enabled, no secret is
    configured and the request has no x-signature header; the handler does not
    answer 403 but parses the event. *)
Lemma C2_no_secret_no_header_is_not_rejected :
  enableSignatureValidation cfg_no_secret = Some true /\
  signature_header (∅ : gmap string string) = None /\
  status (fst (processWebhook cfg_no_secret env_approved body_payment ∅)) = 200.
Proof. vm_compute. auto. Qed.

(** C2, as amended: for every call to processWebhook with
    enableSignatureValidation set to true and a non-empty webhookSecret
    configured, if the x-signature header (read as 'x-signature', else
    'X-Signature') is missing, or it does not carry both a ts= and a v1=
    component, or the received v1 differs from the hex HMAC-SHA256 digest of
    the manifest under the secret, then the handler returns success=false,
    status 403, message 'Invalid signature', the error of the signature check
    and no data, and goes no further, whatever the body holds: a body that is
    not JSON is answered 403 as well, no event is handled and the provider is
    not asked. (The signature check itself reads data.id from the body when
    the request has no data_id header.) *)
Theorem C2_invalid_signature_is_rejected (cfg : WebhookConfig) (env : Environment)
    (secret body : string) (headers : gmap string string) :
  enableSignatureValidation cfg = Some true ->
  configured cfg secret ->
  missing (signature_header headers) = true \/
  (~ carries (or_empty (signature_header headers)) "ts" \/
   ~ carries (or_empty (signature_header headers)) "v1") \/
  (forall ts m,
     timestamp_of headers = Some ts ->
     build_manifest body headers ts = Return m ->
     received_of headers <> Some (createHmac_sha256_hex secret m)) ->
  processWebhook cfg env body headers =
  ({| success := false; status := 403; message := "Invalid signature";
      error := validation_error (validateSignature cfg body headers); data := None |}, []).
Proof.
  intros Henabled Hcfg Hbad.
  assert (Hinvalid : isValid (validateSignature cfg body headers) = false).
  { destruct (isValid (validateSignature cfg body headers)) eqn:Hvalid; [|reflexivity].
    exfalso.
    apply (validateSignature_valid_iff cfg secret) in Hvalid
      as (Hsig & ts & m & Hts & Hne & Hm & Hr & Hd); [|assumption].
    destruct Hbad as [Hmiss | [[Hno | Hno] | Hdiff]].
    - congruence.
    - apply read_signature_without_ts in Hno. unfold timestamp_of in Hts.
      rewrite Hno in Hts. now injection Hts as <-.
    - apply read_signature_without_v1 in Hno. unfold received_of in Hr.
      rewrite Hno in Hr. injection Hr as Hr. now apply Hd.
    - now apply (Hdiff ts m). }
  unfold processWebhook. rewrite Henabled, Hinvalid. reflexivity.
Qed.

(* No header at all, on a body that is not JSON. *)
Lemma C2_invalid_signature_is_rejected_witness :
  processWebhook cfg_signed env_approved "not json" ∅ =
  ({| success := false; status := 403; message := "Invalid signature";
      error := validation_error (validateSignature cfg_signed "not json" ∅);
      data := None |}, []).
Proof.
  apply (C2_invalid_signature_is_rejected cfg_signed env_approved "secret" "not json" ∅).
  - reflexivity.
  - split; [reflexivity | discriminate].
  - left. vm_compute. reflexivity.
Defined.

Example missing_header_error :
  validation_error (validateSignature cfg_signed "not json" ∅)
  = Some "Missing x-signature header"%string.
Proof. vm_compute. reflexivity. Qed.

(* A digest that is not the one of the manifest. *)
Example wrong_digest_is_rejected :
  status (fst (processWebhook cfg_signed env_approved body_payment headers_later)) = 403.
Proof. vm_compute. reflexivity. Qed.

(** C3: without a webhookSecret, validateSignature returns valid for every
    body and all headers, and processWebhook never answers 403, also with
    enableSignatureValidation set to true. *)
Theorem C3_no_secret_never_rejects (cfg : WebhookConfig) (env : Environment)
    (body : string) (headers : gmap string string) :
  missing (webhookSecret cfg) = true ->
  isValid (validateSignature cfg body headers) = true /\
  status (fst (processWebhook cfg env body headers)) <> 403.
Proof.
  intros Hsecret.
  assert (Hvalid : isValid (validateSignature cfg body headers) = true).
  { unfold validateSignature. destruct (webhookSecret cfg) as [secret|]; [|reflexivity].
    simpl in Hsecret. now rewrite Hsecret. }
  split; [assumption|].
  pose proof (parse_and_handle_status env body headers) as Hstatus.
  unfold processWebhook. rewrite Hvalid. simpl.
  destruct (enableSignatureValidation cfg) as [[|]|];
    simpl in Hstatus; intros H403; rewrite H403 in Hstatus; intuition discriminate.
Qed.

(* Validation on, no secret, no header. *)
Lemma C3_no_secret_never_rejects_witness :
  isValid (validateSignature cfg_no_secret body_payment ∅) = true /\
  status (fst (processWebhook cfg_no_secret env_approved body_payment ∅)) <> 403.
Proof.
  apply (C3_no_secret_never_rejects cfg_no_secret env_approved body_payment ∅).
  reflexivity.
Defined.

(** ** C9, C10: the parsing step and the events that are only acknowledged *)

(** C9: a body that is not valid JSON, in a request that passes the signature
    check when one is enabled, is answered with success=false, status 400 and
    message 'Invalid JSON format'; the SyntaxError does not leave the
    handler. *)
Theorem C9_invalid_json_is_answered_400 (cfg : WebhookConfig) (env : Environment)
    (body : string) (headers : gmap string string) (e : JSError) :
  JSON_parse body = Throw e ->
  passes_signature_check cfg body headers ->
  processWebhook cfg env body headers =
  ({| success := false; status := 400; message := "Invalid JSON format";
      error := Some "Failed to parse webhook JSON"%string; data := None |}, []).
Proof.
  intros Hparse Hpass. unfold processWebhook, parse_and_handle. rewrite Hparse.
  destruct (enableSignatureValidation cfg) as [[|]|] eqn:Henabled; try reflexivity.
  now rewrite (Hpass Henabled).
Qed.

(* A body that is not JSON, with a valid signature: the manifest is built
   with an empty payment id. *)
Lemma C9_invalid_json_is_answered_400_witness :
  processWebhook cfg_signed env_approved "not json"
    (<["x-signature" :=
         "ts=1700000000,v1=ad53b73f031b76a7a81547d988dc3351037df7de4246bcf780f65e74256a21a6"%string]>
       (<["x-request-id" := "req-1"%string]> ∅)) =
  ({| success := false; status := 400; message := "Invalid JSON format";
      error := Some "Failed to parse webhook JSON"%string; data := None |}, []).
Proof.
  apply (C9_invalid_json_is_answered_400 cfg_signed env_approved "not json" _
           (SyntaxError "Unexpected token in JSON")).
  - vm_compute. reflexivity.
  - intros _. vm_compute. reflexivity.
Defined.

Lemma get_of_object (v : JSValue) (key : string) (x : JSValue) :
  get v key = Return x -> forall k, get v k = Return (get_optional v k).
Proof. destruct v; simpl; intros H k; try discriminate; reflexivity. Qed.

(* What can be read can be destructured. *)
Lemma destructure_of_get (source : string) (v : JSValue) (key : string) (x : JSValue) :
  get v key = Return x -> destructure source v key = Return x.
Proof. destruct v; simpl; intros H; try discriminate; assumption. Qed.

Lemma destructure_inv (source : string) (v : JSValue) (key : string) (x : JSValue) :
  destructure source v key = Return x ->
  x = get_optional v key /\ forall k, get v k = Return (get_optional v k).
Proof. destruct v; simpl; intros H; try discriminate; injection H as <-; auto. Qed.

(** C10, the claim as stated, fails: with validation enabled and a secret
    configured, a payment event without a payment id that comes without a
    signature is answered 403, not 200. *)
Lemma C10_unsigned_event_is_not_acknowledged :
  JSON_parse body_no_id = Return (JObject [("type", JString "payment"); ("id", JNumber (of_Z 7))]) /\
  success (fst (processWebhook cfg_signed env_approved body_no_id ∅)) = false /\
  status (fst (processWebhook cfg_signed env_approved body_no_id ∅)) = 403.
Proof. vm_compute. auto. Qed.

(** C10, as amended: for every request that passes the signature check when
    one is enabled, and whose body parses to an event of type 'payment' with
    data.id missing or falsy, and with id and user_id that toString() converts
    (the numbers of the WebhookEvent interface, or absent), processWebhook
    returns success=true with status 200, payment_info null and mapped_status
    null, and asks nothing of the provider. *)
Theorem C10_payment_without_id_is_acknowledged (cfg : WebhookConfig) (env : Environment)
    (body : string) (headers : gmap string string) (event : JSValue) :
  passes_signature_check cfg body headers ->
  JSON_parse body = Return event ->
  get event "type" = Return (JString "payment") ->
  truthy (get_optional (get_optional event "data") "id") = false ->
  stringifiable (get_optional event "id") ->
  stringifiable (get_optional event "user_id") ->
  exists log,
    processWebhook cfg env body headers =
    ({| success := true; status := 200;
        message := "Webhook type payment acknowledged but not processed";
        error := None;
        data := Some {| webhook_log := log; payment_info := JNull; mapped_status := None |} |},
     []).
Proof.
  intros Hpass Hparse Htype Hid Hs1 Hs2.
  assert (Hhandle : exists log,
    parse_and_handle env body headers =
    ({| success := true; status := 200;
        message := "Webhook type payment acknowledged but not processed";
        error := None;
        data := Some {| webhook_log := log; payment_info := JNull; mapped_status := None |} |},
     [])).
  { unfold parse_and_handle, handleWebhookEvent. rewrite Hparse.
    rewrite (destructure_of_get _ _ _ _ Htype). simpl.
    rewrite !(get_of_object event "type" _ Htype). simpl.
    specialize (Hs1 "webhookData.id"%string). specialize (Hs2 "webhookData.user_id"%string).
    destruct (toString_optional "webhookData.id" (get_optional event "id")); [|discriminate].
    destruct (toString_optional "webhookData.user_id" (get_optional event "user_id"));
      [|discriminate].
    simpl. rewrite Hid. simpl. eauto. }
  destruct Hhandle as [log Hhandle]. exists log.
  unfold processWebhook.
  destruct (enableSignatureValidation cfg) as [[|]|] eqn:Henabled; try assumption.
  now rewrite (Hpass Henabled).
Qed.

(* A payment event without data, validation off. *)
Lemma C10_payment_without_id_is_acknowledged_witness :
  exists log,
    processWebhook cfg_open env_approved body_no_id ∅ =
    ({| success := true; status := 200;
        message := "Webhook type payment acknowledged but not processed";
        error := None;
        data := Some {| webhook_log := log; payment_info := JNull; mapped_status := None |} |},
     []).
Proof.
  apply (C10_payment_without_id_is_acknowledged cfg_open env_approved body_no_id ∅
           (JObject [("type", JString "payment"); ("id", JNumber (of_Z 7))])).
  - intros H. discriminate H.
  - vm_compute. reflexivity.
  - reflexivity.
  - reflexivity.
  - vm_compute. reflexivity.
  - vm_compute. reflexivity.
Defined.

(* An id that toString() cannot convert ends in the answer 500. *)
Example unconvertible_id_is_answered_500 :
  status (fst (processWebhook cfg_open env_approved
                 (json "{'type':'payment','id':{'toString':1}}") ∅)) = 500.
Proof. vm_compute. reflexivity. Qed.

(* Whether v?.toString() returns does not depend on the text of the
   expression, which only the message of the error quotes. *)
Lemma stringifiable_iff (source : string) (v : JSValue) :
  stringifiable v <-> returns (toString_optional source v) = true.
Proof.
  split; [intros H; apply H|]. intros H source'. revert H. unfold toString_optional.
  destruct (nullish v); [trivial|].
  destruct v as [| |b|n|s|l|props]; trivial.
  destruct (own_property props "toString"); trivial.
Qed.

(* The numbers and strings that the provider sends as id and user_id are
   converted. *)
Lemma number_is_stringifiable (n : JSNumber) : stringifiable (JNumber n).
Proof. intros source. reflexivity. Qed.

Lemma string_is_stringifiable (s : string) : stringifiable (JString s).
Proof. intros source. reflexivity. Qed.

Lemma undefined_is_stringifiable : stringifiable JUndefined.
Proof. intros source. reflexivity. Qed.

(* The example of the specification: with validation off and a provider that
   answers status "approved", the mapped status is "approved". *)
Example approved_payment_is_mapped :
  let '(result, asked) := processWebhook cfg_open env_approved body_payment ∅ in
  success result = true /\ status result = 200 /\
  option_map mapped_status (data result) = Some (Some (Mapped "approved")) /\
  asked = [JString "123"].
Proof. vm_compute. auto. Qed.

(** ** C5: the status table *)

Lemma mapPaymentStatus_table :
  mapPaymentStatus "approved" = Mapped "approved" /\
  mapPaymentStatus "authorized" = Mapped "approved" /\
  mapPaymentStatus "rejected" = Mapped "rejected" /\
  mapPaymentStatus "cancelled" = Mapped "cancelled" /\
  mapPaymentStatus "in_process" = Mapped "pending" /\
  mapPaymentStatus "in_mediation" = Mapped "pending" /\
  mapPaymentStatus "refunded" = Mapped "refunded" /\
  mapPaymentStatus "charged_back" = Mapped "chargeback" /\
  mapPaymentStatus "pending" = Mapped "pending".
Proof. repeat split. Qed.

Lemma existsb_eqb_false (s : string) (l : list string) :
  ~ In s l -> existsb (String.eqb s) l = false.
Proof.
  induction l as [|x l IH]; simpl; intros H; [reflexivity|].
  destruct (String.eqb_spec s x) as [->|_]; [elim H; now left|].
  apply IH. intros Hin. apply H. now right.
Qed.

(* A status that is neither in the table nor the name of a member of
   Object.prototype maps to "unknown". *)
Lemma mapPaymentStatus_unlisted (s : string) :
  assoc statusMapping s = None ->
  ~ In s Object_prototype ->
  mapPaymentStatus s = Mapped "unknown".
Proof.
  intros Htable Hproto. unfold mapPaymentStatus.
  now rewrite Htable, existsb_eqb_false.
Qed.

(** C5 fails on the code: "constructor" is not in the table, and the lookup
    statusMapping['constructor'] finds the member that the object literal
    inherits from Object.prototype, a function and not a string; being truthy
    it is returned in place of 'unknown'. *)
Theorem C5_inherited_member_is_not_unknown :
  assoc statusMapping "constructor" = None /\
  mapPaymentStatus "constructor" = Inherited "constructor" /\
  mapPaymentStatus "constructor" <> Mapped "unknown".
Proof. split; [reflexivity|]. split; [reflexivity | discriminate]. Qed.

(* The same through the handler, when the provider answers with that status. *)
Example inherited_member_reaches_the_result :
  let env := {| payment_get := fun id =>
                  Return (JObject [("id", id); ("status", JString "toString")]);
                now_date_created := ""; now_processed_at := "" |} in
  option_map mapped_status (data (fst (processWebhook cfg_open env body_payment ∅)))
  = Some (Some (Inherited "toString")).
Proof. vm_compute. reflexivity. Qed.

(** * Further properties of the webhook handler *)

(** ** Reading and checking a signature *)

(** X1: safeCompare answers true exactly when the expected and the received
    signature are the same string. *)
Theorem X1_safeCompare_decides_equality (expected received : string) :
  safeCompare expected received = true <-> expected = received.
Proof. apply safeCompare_true_iff. Qed.

Lemma split_chars_free (sep : ascii) (s cur : list ascii) :
  ~ In sep s ->
  split_chars sep cur s = [string_of_list_ascii (List.rev cur ++ s)].
Proof.
  revert cur. induction s as [|c s IH]; intros cur Hfree; simpl.
  - now rewrite List.app_nil_r.
  - destruct (Ascii.eqb_spec c sep) as [->|_]; [elim Hfree; now left|].
    rewrite IH by (intros H; apply Hfree; now right).
    simpl. now rewrite <- List.app_assoc.
Qed.

Lemma split_chars_app (sep : ascii) (a rest cur : list ascii) :
  ~ In sep a ->
  split_chars sep cur (a ++ sep :: rest)
  = string_of_list_ascii (List.rev cur ++ a) :: split_chars sep [] rest.
Proof.
  revert cur. induction a as [|c a IH]; intros cur Hfree; simpl.
  - rewrite Ascii.eqb_refl. now rewrite List.app_nil_r.
  - destruct (Ascii.eqb_spec c sep) as [->|_]; [elim Hfree; now left|].
    rewrite IH by (intros H; apply Hfree; now right).
    simpl. now rewrite <- List.app_assoc.
Qed.

Lemma split_two (sep : ascii) (a b : string) :
  free_of sep a -> free_of sep b ->
  split sep (a +++ String sep b) = [a; b].
Proof.
  unfold free_of, split. intros Ha Hb.
  rewrite list_ascii_of_append. simpl.
  rewrite split_chars_app by assumption. rewrite split_chars_free by assumption.
  simpl. now rewrite !string_of_list_ascii_of_string.
Qed.

Lemma free_of_cons (c x : ascii) (s : string) :
  x <> c -> free_of c s -> free_of c (String x s).
Proof. unfold free_of. simpl. intros Hx Hs [H|H]; [now apply Hx | now apply Hs]. Qed.

(* The handler reads the header "ts=<ts>,v1=<v1>" as the pair of its two
   values. *)
Lemma read_signature_of (ts v1 : string) :
  free_of "," ts -> free_of "=" ts -> free_of "," v1 -> free_of "=" v1 ->
  read_signature (signature_of ts v1) = (Some ts, Some v1).
Proof.
  intros Hts1 Hts2 Hv1 Hv2. unfold read_signature, signature_of.
  change ("ts=" +++ ts +++ ",v1=" +++ v1)%string
    with (("ts=" +++ ts) +++ String "," ("v1=" +++ v1))%string.
  rewrite split_two.
  - simpl. unfold read_part.
    change ("ts=" +++ ts)%string with ("ts" +++ String "=" ts)%string.
    change ("v1=" +++ v1)%string with ("v1" +++ String "=" v1)%string.
    assert (Hkey : forall k : string, k = "ts"%string \/ k = "v1"%string -> free_of "=" k).
    { intros k [->| ->]; unfold free_of; simpl; intuition discriminate. }
    rewrite !split_two by auto. reflexivity.
  - simpl. repeat (apply free_of_cons; [discriminate|]). assumption.
  - simpl. repeat (apply free_of_cons; [discriminate|]). assumption.
Qed.

Lemma digest_is_clean (secret m : string) :
  createHmac_sha256_hex secret m <> ""%string /\
  free_of "," (createHmac_sha256_hex secret m) /\
  free_of "=" (createHmac_sha256_hex secret m).
Proof.
  unfold createHmac_sha256_hex, Crypto.hmac_sha256. cbv zeta.
  match goal with |- context [Crypto.hex (Crypto.sha256 ?x)] => generalize x end.
  intros msg.
  pose proof (RuntimeProperties.hex_is_hex _ (RuntimeProperties.sha256_range msg)) as Hhex.
  pose proof (RuntimeProperties.hex_length (Crypto.sha256 msg)) as Hlen.
  rewrite RuntimeProperties.sha256_length in Hlen.
  rewrite List.Forall_forall in Hhex.
  split; [|split].
  - intros H. rewrite H in Hlen. discriminate.
  - intros H. apply Hhex in H. discriminate.
  - intros H. apply Hhex in H. discriminate.
Qed.

(** X2: a request signed as the provider signs it is accepted. With a secret
    configured, for a timestamp that is not empty and holds neither "," nor
    "=", the header "ts=<ts>,v1=<digest>", where the digest is the hex
    HMAC-SHA256 under the secret of the manifest built from the payment id,
    the x-request-id header and the timestamp, makes validateSignature return
    valid. *)
Theorem X2_signed_request_is_accepted (cfg : WebhookConfig) (secret body ts id : string)
    (headers : gmap string string) :
  configured cfg secret ->
  ts <> ""%string -> free_of "," ts -> free_of "=" ts ->
  payment_id_of body headers = Return id ->
  isValid
    (validateSignature cfg body
       (<["x-signature"%string :=
            signature_of ts
              (createHmac_sha256_hex secret (manifest_of id (requestId_of headers) ts))]>
          headers)) = true.
Proof.
  intros Hcfg Hts Hts1 Hts2 Hid.
  set (m := manifest_of id (requestId_of headers) ts).
  set (sig := signature_of ts (createHmac_sha256_hex secret m)).
  destruct (digest_is_clean secret m) as (Hd & Hd1 & Hd2).
  assert (Hsig : signature_header (<["x-signature"%string := sig]> headers) = Some sig).
  { unfold signature_header. rewrite lookup_insert_eq. reflexivity. }
  apply (validateSignature_valid_iff cfg secret); [assumption|].
  split; [now rewrite Hsig|].
  exists ts, m. unfold timestamp_of, received_of. rewrite Hsig. simpl.
  unfold sig. rewrite read_signature_of by assumption. simpl.
  repeat split; try assumption.
  apply build_manifest_Return. exists id. split.
  - unfold payment_id_of, dataId_of in *. now rewrite lookup_insert_ne by discriminate.
  - unfold m, requestId_of. now rewrite lookup_insert_ne by discriminate.
Qed.

(* The payment event, signed at 1700000000 with its request id. *)
Lemma X2_signed_request_is_accepted_witness :
  isValid
    (validateSignature cfg_signed body_payment
       (<["x-signature"%string :=
            signature_of "1700000000"
              (createHmac_sha256_hex "secret"
                 (manifest_of "123" (requestId_of (<["x-request-id"%string := "req-1"%string]> ∅))
                    "1700000000"))]>
          (<["x-request-id"%string := "req-1"%string]> ∅))) = true.
Proof.
  apply (X2_signed_request_is_accepted cfg_signed "secret" body_payment "1700000000" "123").
  - split; [reflexivity | discriminate].
  - discriminate.
  - unfold free_of. simpl. intuition discriminate.
  - unfold free_of. simpl. intuition discriminate.
  - vm_compute. reflexivity.
Defined.

(** X3: with a secret configured, validateSignature returns valid exactly
    when a signature header is present, the handler reads from it a timestamp
    that is not empty, the manifest can be built, and the v1 value read from
    the header is the hex HMAC-SHA256 digest of that manifest. *)
Theorem X3_valid_exactly_when_digest_matches (cfg : WebhookConfig) (secret body : string)
    (headers : gmap string string) :
  configured cfg secret ->
  isValid (validateSignature cfg body headers) = true <->
  missing (signature_header headers) = false /\
  exists ts m,
    timestamp_of headers = Some ts /\ ts <> ""%string /\
    build_manifest body headers ts = Return m /\
    received_of headers = Some (createHmac_sha256_hex secret m).
Proof.
  intros Hcfg. rewrite (validateSignature_valid_iff cfg secret) by assumption.
  split.
  - intros (Hsig & ts & m & Hts & Hne & Hm & Hr & _). split; [assumption|].
    exists ts, m. auto.
  - intros (Hsig & ts & m & Hts & Hne & Hm & Hr). split; [assumption|].
    exists ts, m. repeat split; try assumption. apply digest_is_clean.
Qed.

(* The signed request of the examples. *)
Lemma X3_valid_exactly_when_digest_matches_witness :
  isValid (validateSignature cfg_signed body_payment headers_signed) = true <->
  missing (signature_header headers_signed) = false /\
  exists ts m,
    timestamp_of headers_signed = Some ts /\ ts <> ""%string /\
    build_manifest body_payment headers_signed ts = Return m /\
    received_of headers_signed = Some (createHmac_sha256_hex "secret" m).
Proof.
  apply (X3_valid_exactly_when_digest_matches cfg_signed "secret" body_payment headers_signed).
  split; [reflexivity | discriminate].
Defined.

(** X4: when the request has a data_id header that is not empty, the body
    takes no part in the signature check: every two bodies get the same
    verdict. *)
Theorem X4_data_id_header_replaces_body (cfg : WebhookConfig) (body body' : string)
    (headers : gmap string string) :
  missing (headers !! "data_id"%string) = false ->
  validateSignature cfg body' headers = validateSignature cfg body headers.
Proof.
  intros H. apply validateSignature_same_dataId. unfold dataId_of. now rewrite H.
Qed.

(* The signed request with the payment id in a header, and any other body. *)
Lemma X4_data_id_header_replaces_body_witness :
  validateSignature cfg_signed "anything" (<["data_id"%string := "123"%string]> headers_signed)
  = validateSignature cfg_signed body_payment (<["data_id"%string := "123"%string]> headers_signed).
Proof.
  apply (X4_data_id_header_replaces_body cfg_signed body_payment "anything").
  vm_compute. reflexivity.
Defined.

(** ** The answers of the handler *)




Lemma payment_result_coherent (paymentInfo : JSValue) (baseLogData : WebhookLogData) :
  coherent (payment_result paymentInfo baseLogData).
Proof.
  unfold payment_result, coherent.
  destruct (truthy paymentInfo); simpl; [|right; auto].
  destruct (ToString _); simpl; [left; auto | right; auto 6].
Qed.

Lemma parse_and_handle_coherent (env : Environment) (body : string)
    (headers : gmap string string) :
  coherent (fst (parse_and_handle env body headers)).
Proof.
  unfold parse_and_handle.
  destruct (JSON_parse body) as [webhookData|e]; [|right; simpl; auto].
  destruct (handleWebhookEvent env webhookData headers) as [[result asked]|e] eqn:H;
    [|right; simpl; auto 6].
  simpl. unfold handleWebhookEvent in H.
  repeat (step_bind; try discriminate);
    destruct (is_payment _ && truthy _); try discriminate;
    injection H as <- _; first [apply payment_result_coherent | left; simpl; auto].
Qed.

Lemma processWebhook_coherent (cfg : WebhookConfig) (env : Environment) (body : string)
    (headers : gmap string string) :
  coherent (fst (processWebhook cfg env body headers)).
Proof.
  unfold processWebhook.
  destruct (enableSignatureValidation cfg) as [[|]|]; try apply parse_and_handle_coherent.
  destruct (negb _); [right; simpl; auto 6 | apply parse_and_handle_coherent].
Qed.

(** X6: every answer of processWebhookRequest and of processWebhook, also
    when request.text() rejects, has status 200, 400, 403 or 500, and its
    success flag is true exactly for status 200. *)
Theorem X6_answers_are_coherent (cfg : WebhookConfig) (env : Environment) :
  (forall request, coherent (fst (processWebhookRequest cfg env request))) /\
  (forall body headers, coherent (fst (processWebhook cfg env body headers))).
Proof.
  split.
  - intros request. unfold processWebhookRequest.
    destruct (text request) as [body|e]; [apply processWebhook_coherent|].
    right. simpl. auto 6.
  - intros body headers. apply processWebhook_coherent.
Qed.

(** X7: processWebhook asks the provider for at most one payment, and only
    for an event of type 'payment' with a truthy data.id, which is the id it
    asks for. *)
Theorem X7_provider_is_asked_for_the_event_id (cfg : WebhookConfig) (env : Environment)
    (body : string) (headers : gmap string string) :
  snd (processWebhook cfg env body headers) = [] \/
  exists event,
    JSON_parse body = Return event /\
    is_payment (get_optional event "type") = true /\
    truthy (get_optional (get_optional event "data") "id") = true /\
    snd (processWebhook cfg env body headers)
    = [get_optional (get_optional event "data") "id"].
Proof.
  assert (H : snd (parse_and_handle env body headers) = [] \/
    exists event,
      JSON_parse body = Return event /\
      is_payment (get_optional event "type") = true /\
      truthy (get_optional (get_optional event "data") "id") = true /\
      snd (parse_and_handle env body headers)
      = [get_optional (get_optional event "data") "id"]).
  { unfold parse_and_handle.
    destruct (JSON_parse body) as [event|e]; [|left; reflexivity].
    destruct (handleWebhookEvent env event headers) as [[result asked]|e] eqn:H;
      [|left; reflexivity].
    unfold handleWebhookEvent in H.
    destruct (destructure "webhookData" event "type") as [topic|] eqn:Htopic; [|discriminate].
    destruct (destructure_inv _ _ _ _ Htopic) as [-> Hget]. rewrite !Hget in H.
    cbn [bind] in H.
    destruct (toString_optional "webhookData.id" (get_optional event "id")); [|discriminate].
    destruct (toString_optional "webhookData.user_id" (get_optional event "user_id"));
      [|discriminate].
    cbn [bind] in H.
    destruct (is_payment _ && truthy _) eqn:Hpay.
    - rewrite handlePaymentWebhook_eq in H. injection H as _ <-.
      apply Bool.andb_true_iff in Hpay as [Hp Hid]. right. exists event. auto.
    - destruct (ToString (get_optional event "type")); [|discriminate].
      injection H as _ <-. left. reflexivity. }
  unfold processWebhook.
  destruct (enableSignatureValidation cfg) as [[|]|]; try exact H.
  destruct (negb _); [left; reflexivity | exact H].
Qed.

Lemma processWebhook_passes (cfg : WebhookConfig) (env : Environment) (body : string)
    (headers : gmap string string) :
  passes_signature_check cfg body headers ->
  processWebhook cfg env body headers = parse_and_handle env body headers.
Proof.
  intros Hpass. unfold processWebhook.
  destruct (enableSignatureValidation cfg) as [[|]|] eqn:Henabled; try reflexivity.
  now rewrite (Hpass Henabled).
Qed.

(* The event handler on an event whose id and user_id convert: it builds the
   base log and takes one of its two branches. *)
Lemma handleWebhookEvent_branches (env : Environment) (event topic : JSValue)
    (headers : gmap string string) :
  get event "type" = Return topic ->
  stringifiable (get_optional event "id") ->
  stringifiable (get_optional event "user_id") ->
  exists log,
    payment_id log = or_else (get_optional (get_optional event "data") "id") JNull /\
    error_message log = None /\
    handleWebhookEvent env event headers =
    if is_payment topic && truthy (get_optional (get_optional event "data") "id")
    then Return (handlePaymentWebhook env (get_optional (get_optional event "data") "id") log)
    else
      do topic_string <- ToString topic ;;
      Return ({| success := true; status := 200;
                 message := "Webhook type " +++ topic_string +++ " acknowledged but not processed";
                 error := None;
                 data := Some {| webhook_log := log; payment_info := JNull;
                                 mapped_status := None |} |}, []).
Proof.
  intros Htype Hs1 Hs2. unfold handleWebhookEvent.
  rewrite (destructure_of_get "webhookData" _ _ _ Htype).
  rewrite !(get_of_object event "type" _ Htype).
  rewrite (get_of_object event "type" _ Htype) in Htype. injection Htype as <-.
  cbn [bind].
  specialize (Hs1 "webhookData.id"%string). specialize (Hs2 "webhookData.user_id"%string).
  destruct (toString_optional "webhookData.id" (get_optional event "id")) as [id_string|];
    [|discriminate].
  destruct (toString_optional "webhookData.user_id" (get_optional event "user_id"))
    as [user_string|]; [|discriminate].
  cbn [bind]. eexists. split; [|split]; [| |reflexivity]; reflexivity.
Qed.

(** X8: a payment event that the provider knows is answered with the mapped
    status. For a request that passes the signature check, whose body parses to
    an event of type 'payment' with a truthy data.id and with id and user_id
    that toString() converts, if the provider answers the lookup of that id
    with a payment that has an id and the status s, then processWebhook returns
    success=true, status 200, the payment as payment_info and
    mapPaymentStatus(s) as mapped_status, after asking for that id alone; the
    log records the id, the status and the mapped status. *)
Theorem X8_known_payment_is_mapped (cfg : WebhookConfig) (env : Environment)
    (body s : string) (headers : gmap string string) (event id response : JSValue) :
  passes_signature_check cfg body headers ->
  JSON_parse body = Return event ->
  get event "type" = Return (JString "payment") ->
  get_optional (get_optional event "data") "id" = id ->
  truthy id = true ->
  stringifiable (get_optional event "id") ->
  stringifiable (get_optional event "user_id") ->
  payment_get env id = Return response ->
  truthy (get_optional response "id") = true ->
  get_optional response "status" = JString s ->
  exists log,
    processWebhook cfg env body headers =
    ({| success := true; status := 200;
        message := "Payment webhook processed successfully";
        error := None;
        data := Some {| webhook_log := log; payment_info := response;
                        mapped_status := Some (mapPaymentStatus s) |} |}, [id]) /\
    payment_id log = id /\
    log_status log = Some (JString s) /\
    log_mapped_status log = Some (mapPaymentStatus s).
Proof.
  intros Hpass Hparse Htype Hid Htruthy Hs1 Hs2 Hget Hrid Hstatus.
  rewrite processWebhook_passes by assumption.
  unfold parse_and_handle. rewrite Hparse.
  destruct (handleWebhookEvent_branches env event _ headers Htype Hs1 Hs2)
    as (log & Hlog & _ & ->).
  rewrite Hid in *. rewrite Htruthy. cbn [is_payment String.eqb Ascii.eqb Bool.eqb andb].
  unfold handlePaymentWebhook, getPaymentInfo, call_payment_get, payment_result. rewrite Hget.
  assert (Hresponse : truthy response = true).
  { destruct response; try discriminate; reflexivity. }
  rewrite Hresponse, Hrid. cbn [negb orb]. rewrite Hresponse. cbn [negb].
  rewrite Hstatus. cbn [ToString].
  eexists. split; [reflexivity|]. cbn.
  split; [|split]; try reflexivity.
  rewrite Hlog. unfold or_else. now rewrite Htruthy.
Qed.

(* The example of the specification: the event for payment "123" and a
   provider that answers status "approved". *)
Lemma X8_known_payment_is_mapped_witness :
  exists log,
    processWebhook cfg_open env_approved body_payment ∅ =
    ({| success := true; status := 200;
        message := "Payment webhook processed successfully";
        error := None;
        data := Some {| webhook_log := log;
                        payment_info :=
                          JObject [("id", JString "123"); ("status", JString "approved")];
                        mapped_status := Some (mapPaymentStatus "approved") |} |},
     [JString "123"]) /\
    payment_id log = JString "123" /\
    log_status log = Some (JString "approved") /\
    log_mapped_status log = Some (mapPaymentStatus "approved").
Proof.
  apply (X8_known_payment_is_mapped cfg_open env_approved body_payment "approved" ∅
           (JObject [("type", JString "payment"); ("data", JObject [("id", JString "123")])])).
  - intros H. discriminate H.
  - vm_compute. reflexivity.
  - reflexivity.
  - reflexivity.
  - reflexivity.
  - intros source. reflexivity.
  - intros source. reflexivity.
  - reflexivity.
  - reflexivity.
  - reflexivity.
Defined.





(** ** validateWebhookOnly *)


(** X12: what validateWebhookOnly rejects, processWebhook does not process:
    it answers without success (403, 400 or 500) and asks nothing of the
    provider. *)
Theorem X12_rejected_webhook_is_not_processed (cfg : WebhookConfig) (env : Environment)
    (body : string) (headers : gmap string string) :
  webhook_isValid (validateWebhookOnly cfg body headers) = false ->
  success (fst (processWebhook cfg env body headers)) = false /\
  snd (processWebhook cfg env body headers) = [].
Proof.
  unfold validateWebhookOnly, processWebhook. cbv zeta.
  assert (Hparsed :
    webhook_isValid
      match (do webhookData <- JSON_parse body ;; get webhookData "type") with
      | Return type =>
          {| webhook_isValid := true; webhook_error := None; webhookType := Some type |}
      | Throw _ =>
          {| webhook_isValid := false;
             webhook_error := Some "Invalid webhook format"%string; webhookType := None |}
      end = false ->
    success (fst (parse_and_handle env body headers)) = false /\
    snd (parse_and_handle env body headers) = []).
  { unfold parse_and_handle. destruct (JSON_parse body) as [event|e]; simpl; [|auto].
    destruct event; simpl; try discriminate; auto. }
  destruct (enableSignatureValidation cfg) as [[|]|]; try exact Hparsed.
  destruct (isValid (validateSignature cfg body headers)); simpl; [exact Hparsed | auto].
Qed.

(* The body null, which is JSON but not an event. *)
Lemma X12_rejected_webhook_is_not_processed_witness :
  success (fst (processWebhook cfg_open env_approved "null" ∅)) = false /\
  snd (processWebhook cfg_open env_approved "null" ∅) = [].
Proof.
  apply (X12_rejected_webhook_is_not_processed cfg_open env_approved "null" ∅).
  vm_compute. reflexivity.
Defined.

End WebhookHandlerProperties.

(** * Properties of the service *)

Module MercadoPagoServiceProperties.
Import JS Vocabulary PaymentVocabulary Examples.
Module B := MercadoPagoBuilder.
Module S := MercadoPagoService.
Module BP := MercadoPagoBuilderProperties.

(** ** One payment *)

(** X19: a service that has processed payments before answers as a new one:
    executeMercadoPagoPayment resets its builder first, so its answer and the
    state it leaves depend on the earlier state only through the configuration
    and the registered callback. *)
Theorem X19_payment_forgets_the_previous_one (w : S.Outside) (request : JSValue)
    (s s' : S.Service) :
  B.config (S.builder s) = B.config (S.builder s') ->
  S.saveOrderCallback s = S.saveOrderCallback s' ->
  S.executeMercadoPagoPayment w request s = S.executeMercadoPagoPayment w request s'.
Proof.
  intros Hconfig Hcallback. unfold S.executeMercadoPagoPayment, S.with_builder, B.reset.
  now rewrite Hconfig, Hcallback.
Qed.

(* A new service, and the same service after a payment. *)
Lemma X19_payment_forgets_the_previous_one_witness :
  S.executeMercadoPagoPayment outside_ok widget_request
    (fst (S.executeMercadoPagoPayment outside_ok widget_request (S.new_service builder_config)))
  = S.executeMercadoPagoPayment outside_ok widget_request (S.new_service builder_config).
Proof.
  apply (X19_payment_forgets_the_previous_one outside_ok widget_request); reflexivity.
Defined.

Lemma missing_false_Some (o : option string) :
  B.missing o = false -> exists x, o = Some x /\ x <> ""%string.
Proof.
  destruct o as [x|]; [|discriminate]. simpl.
  destruct (String.eqb_spec x ""); [discriminate | eauto].
Qed.

(* The ways of one payment: the request is falsy; buildPreference throws; the
   preference is not created, or the order cannot be built; the callback
   throws; or the payment is answered. *)
Lemma payment_outcome (w : S.Outside) (request : JSValue) (s : S.Service) :
  let cfg := B.config (S.builder s) in
  let r := S.executeMercadoPagoPayment w request s in
  (truthy request = false /\
   snd r = Throw (Error "Payment request is required") /\
   B.order (S.builder (fst r)) = None) \/
  (exists e,
     truthy request = true /\
     B.preference_of cfg (S.now_preference w) (S.date_now_item w) request = Throw e /\
     snd r = Throw e /\
     B.preferenceData (S.builder (fst r)) = None /\
     B.order (S.builder (fst r)) = None) \/
  (exists data,
     truthy request = true /\
     B.preference_of cfg (S.now_preference w) (S.date_now_item w) request = Return data /\
     B.preferenceData (prepared w request s) = Some data /\
     ((snd r = Throw (Error "Error al crear la preferencia de pago en MercadoPago") /\
       B.order (S.builder (fst r)) = None /\
       (creation_failed (S.create w data) \/
        exists response e,
          S.create w data = Return response /\
          B.order_of cfg (B.string_or (B.response_id response) "") (S.now_order w)
            (S.date_now_order w) request = Throw e)) \/
      (exists response o url,
         S.create w data = Return response /\
         B.init_point response = Some url /\ url <> ""%string /\
         B.missing (B.response_id response) = false /\
         B.order_of cfg (B.string_or (B.response_id response) "") (S.now_order w)
           (S.date_now_order w) request = Return o /\
         exists o',
           B.order (S.builder (fst r)) = Some o' /\
           (S.saveOrderCallback s = None -> o' = o) /\
           (forall callback,
              S.saveOrderCallback s = Some callback ->
              exists orderData,
                B.full_order orderData = o /\ o' = fst (callback orderData)) /\
           ((snd r = Throw (Error "Error al guardar la orden en la base de datos") /\
             exists callback orderData,
               S.saveOrderCallback s = Some callback /\
               B.full_order orderData = o /\
               returns (snd (callback orderData)) = false) \/
            (snd r = Return (answer o' url) /\
             forall callback,
               S.saveOrderCallback s = Some callback ->
               exists orderData,
                 B.full_order orderData = o /\
                 returns (snd (callback orderData)) = true))))).
Proof.
  cbv zeta. unfold prepared, S.executeMercadoPagoPayment.
  assert (Hstart :
    B.setPaymentRequest request
      (match S.saveOrderCallback s with
       | Some callback => B.setSaveOrderCallback callback (B.reset (S.builder s))
       | None => B.reset (S.builder s)
       end) = started request s).
  { unfold started. destruct (S.saveOrderCallback s); reflexivity. }
  rewrite Hstart. unfold B.buildPreference. cbn [started B.paymentRequest B.config].
  destruct (truthy request) eqn:Htruthy; cbn [negb]; [|left; repeat split].
  right.
  destruct (B.preference_of (B.config (S.builder s)) (S.now_preference w) (S.date_now_item w)
              request) as [data|e] eqn:Hpreference.
  2:{ left. exists e. repeat split. }
  right. exists data. split; [reflexivity|]. split; [reflexivity|]. split; [reflexivity|].
  unfold B.createPreference. cbn [B.preferenceData B.config B.order B.paymentRequest
                                   B.paymentUrl B.saveOrderCallback].
  destruct (S.create w data) as [response|e] eqn:Hcreate.
  2:{ left. cbn. repeat split. left. exact I. }
  destruct (B.missing (B.response_id response)) eqn:Hid.
  { left. cbn. repeat split. left. left. exact Hid. }
  destruct (B.missing (B.init_point response)) eqn:Hurl.
  { left. cbn. repeat split. left. right. exact Hurl. }
  cbn [orb]. unfold B.buildOrder.
  cbn [B.preferenceData B.config B.order B.paymentRequest B.paymentUrl B.saveOrderCallback].
  rewrite Htruthy. cbn [negb].
  destruct (B.order_of (B.config (S.builder s)) (B.string_or (B.response_id response) "")
              (S.now_order w) (S.date_now_order w) request) as [o|e] eqn:Horder.
  2:{ left. cbn. repeat split. right. exists response, e. split; [reflexivity | exact Horder]. }
  right. destruct (missing_false_Some _ Hurl) as (url & Hurl' & Hne).
  exists response, o, url. split; [reflexivity|]. split; [assumption|]. split; [assumption|].
  split; [assumption|]. split; [assumption|].
  (* the customer has been read by buildPreference *)
  destruct (BP.preference_of_inv _ _ _ _ _ Hpreference)
    as (items & t & _ & _ & _ & _ & _ & _ & _ & _ & Hemail & _).
  destruct (BP.order_of_inv _ _ _ _ _ _ Horder)
    as (items' & t' & _ & _ & _ & _ & _ & _ & _ & _ & Hcustomer).
  unfold B.saveOrder.
  cbn [B.preferenceData B.config B.order B.paymentRequest B.paymentUrl B.saveOrderCallback].
  rewrite Hcustomer, Hemail. unfold started. cbn [B.saveOrderCallback].
  destruct (S.saveOrderCallback s) as [callback|] eqn:Hcallback.
  - match goal with |- context [callback ?od] => set (orderData := od) end.
    exists (fst (callback orderData)).
    destruct (snd (callback orderData)) as [u|e] eqn:Hcall.
    + cbn. rewrite Hurl'. destruct (String.eqb_spec url ""); [contradiction|].
      cbn. split; [reflexivity|]. split; [discriminate|].
      split; [intros callback' [= <-]; exists orderData; split; reflexivity|].
      right. split; [reflexivity|].
      intros callback' [= <-]. exists orderData. rewrite Hcall. split; reflexivity.
    + cbn. split; [reflexivity|]. split; [discriminate|].
      split; [intros callback' [= <-]; exists orderData; split; reflexivity|].
      left. split; [reflexivity|].
      exists callback, orderData. rewrite Hcall. repeat split.
  - exists o. cbn. rewrite Hurl'. destruct (String.eqb_spec url ""); [contradiction|].
    cbn. split; [reflexivity|]. split; [reflexivity|].
    split; [intros callback' H; discriminate H|].
    right. split; [reflexivity|]. intros callback' H. discriminate H.
Qed.

(** X20: a payment that the provider accepts is answered with the provider's
    data. For a request that passes validation, with the expirations of the
    preference and of the order within the range of Date: when
    preference.create answers the preference that the service built with an
    id and an init_point, and the callback, if one is registered, returns and
    leaves the order that it is handed as it is, executeMercadoPagoPayment
    returns the order id order_<Date.now()>, the
    init_point as payment_url and the provider's id as preference_id, and
    leaves in the builder an order with status 'pending' and the provider's
    id, which expires at the end of the window. *)
Theorem X20_accepted_payment_is_answered (w : S.Outside) (request : JSValue)
    (s : S.Service) (response : B.PreferenceResponse) (t t' : Z) :
  request_valid request = true ->
  expiry (B.config (S.builder s)) (S.now_preference w) = Some t ->
  expiry (B.config (S.builder s)) (S.now_order w) = Some t' ->
  (forall data,
     B.preferenceData (prepared w request s) = Some data ->
     S.create w data = Return response) ->
  B.missing (B.response_id response) = false ->
  B.missing (B.init_point response) = false ->
  callback_returns s ->
  callback_keeps_order s ->
  exists id url o,
    B.response_id response = Some id /\
    B.init_point response = Some url /\
    snd (S.executeMercadoPagoPayment w request s) =
    Return {| S.order_id :=
                String.append "order_" (Number_toString (of_Z (S.date_now_order w)));
              S.payment_url := url;
              S.preference_id := id;
              S.message := "Orden creada exitosamente con MercadoPago" |} /\
    B.order (S.builder (fst (S.executeMercadoPagoPayment w request s))) = Some o /\
    B.status o = "pending"%string /\
    B.preference_id o = id /\
    B.expires_at o = iso t'.
Proof.
  intros Hvalid Ht Ht' Hcreate Hid Hurl Hcallback Hkeeps.
  destruct (BP.request_valid_inv request Hvalid) as (Htruthy & _).
  pose proof (BP.preference_of_valid (B.config (S.builder s)) (S.now_preference w)
                (S.date_now_item w) request Hvalid) as Hpreference.
  rewrite Ht in Hpreference. destruct Hpreference as [data0 Hdata0].
  destruct (missing_false_Some _ Hid) as (id & Hid' & Hne).
  destruct (payment_outcome w request s)
    as [(Hfalsy & _) | [(e & _ & Hthrows & _) | (data & _ & _ & Hdata & Hways)]];
    [congruence | congruence |].
  specialize (Hcreate data Hdata).
  destruct Hways as [(_ & _ & Hfailed) | (response' & o & url & Hcreate' & Hurl' & _ & _ &
                                          Horder & o' & Hbuilt & Hnone & Hsome & Hsaved)].
  - exfalso. destruct Hfailed as [Hfailed | (response' & e & Hcreate' & Hthrows)].
    + rewrite Hcreate in Hfailed. cbn in Hfailed. destruct Hfailed; congruence.
    + pose proof (BP.order_of_valid (B.config (S.builder s))
                    (B.string_or (B.response_id response') "") (S.now_order w)
                    (S.date_now_order w) request Hvalid) as Horder.
      rewrite Ht' in Horder. destruct Horder as [o Ho]. congruence.
  - rewrite Hcreate in Hcreate'. injection Hcreate' as <-.
    assert (Hsame_order : o' = o).
    { destruct (S.saveOrderCallback s) as [callback|] eqn:Hregistered.
      - destruct (Hsome callback eq_refl) as (orderData & Hfull & ->).
        rewrite (Hkeeps callback orderData Hregistered). exact Hfull.
      - now apply Hnone. }
    subst o'. clear Hnone Hsome.
    destruct (BP.order_of_inv _ _ _ _ _ _ Horder)
      as (items & t'' & _ & _ & Hexpiry & Hexpires & _ & Hstatus & Hpreference & Horder_id & _).
    rewrite Ht' in Hexpiry. injection Hexpiry as <-.
    assert (Hsame : B.preference_id o = id).
    { rewrite Hpreference, Hid'. cbn. now destruct (String.eqb_spec id ""). }
    exists id, url, o. split; [assumption|]. split; [assumption|].
    destruct Hsaved as [(_ & callback & orderData & Hsome & _ & Hthrew) | (Hanswer & _)].
    + rewrite (Hcallback callback orderData Hsome) in Hthrew. discriminate.
    + rewrite Hanswer. unfold answer. rewrite Horder_id, Hsame. repeat split; assumption.
Qed.

(* A new service and a provider that creates every preference. *)
Lemma X20_accepted_payment_is_answered_witness :
  exists id url o,
    Some "pref-1"%string = Some id /\
    Some "https://pay.example/pref-1"%string = Some url /\
    snd (S.executeMercadoPagoPayment outside_ok widget_request (S.new_service builder_config)) =
    Return {| S.order_id := "order_1700000000501";
              S.payment_url := url;
              S.preference_id := id;
              S.message := "Orden creada exitosamente con MercadoPago" |} /\
    B.order (S.builder (fst (S.executeMercadoPagoPayment outside_ok widget_request
                               (S.new_service builder_config)))) = Some o /\
    B.status o = "pending"%string /\
    B.preference_id o = id /\
    B.expires_at o = "2023-11-14T22:33:20.500Z"%string.
Proof.
  apply (X20_accepted_payment_is_answered outside_ok widget_request
           (S.new_service builder_config)
           {| B.response_id := Some "pref-1"%string;
              B.init_point := Some "https://pay.example/pref-1"%string |}
           1700001200000 1700001200500).
  - reflexivity.
  - reflexivity.
  - reflexivity.
  - intros data _. reflexivity.
  - reflexivity.
  - reflexivity.
  - intros callback orderData H. discriminate H.
  - intros callback orderData H. discriminate H.
Defined.

(* The order that the callback is handed is the order of the builder: a
   callback that gives it another id changes the answer of the payment. *)
Example callback_changes_the_order :
  let rename : B.SaveOrderCallback :=
    fun orderData =>
      let o := B.full_order orderData in
      ({| B.order_id := "mine"; B.order_customer_info := B.order_customer_info o;
          B.order_items := B.order_items o; B.total_amount := B.total_amount o;
          B.total_items := B.total_items o; B.preference_id := B.preference_id o;
          B.status := B.status o; B.created_at := B.created_at o;
          B.expires_at := B.expires_at o |}, Return tt) in
  snd (S.executeMercadoPagoPayment outside_ok widget_request
         (S.setSaveOrderCallback rename (S.new_service builder_config)))
  = Return {| S.order_id := "mine";
              S.payment_url := "https://pay.example/pref-1";
              S.preference_id := "pref-1";
              S.message := "Orden creada exitosamente con MercadoPago" |}.
Proof. vm_compute. reflexivity. Qed.

(** X21: the ways in which a payment fails. When
    executeMercadoPagoPayment throws, the error is 'Payment request is
    required', the request being falsy; or it is what buildPreference threw
    while it read the request or rendered the expiration, and no preference
    was built; or it is 'Error al crear la preferencia de pago en
    MercadoPago'; and in these three cases the builder holds no order; or it
    is 'Error al guardar la orden en la base de datos', a registered callback
    having thrown. *)
Theorem X21_failures_of_a_payment (w : S.Outside) (request : JSValue) (s : S.Service)
    (e : JSError) :
  snd (S.executeMercadoPagoPayment w request s) = Throw e ->
  (e = Error "Payment request is required" /\ truthy request = false /\
   B.order (S.builder (fst (S.executeMercadoPagoPayment w request s))) = None) \/
  (B.preference_of (B.config (S.builder s)) (S.now_preference w) (S.date_now_item w) request
   = Throw e /\
   B.preferenceData (S.builder (fst (S.executeMercadoPagoPayment w request s))) = None /\
   B.order (S.builder (fst (S.executeMercadoPagoPayment w request s))) = None) \/
  (e = Error "Error al crear la preferencia de pago en MercadoPago" /\
   B.order (S.builder (fst (S.executeMercadoPagoPayment w request s))) = None) \/
  (e = Error "Error al guardar la orden en la base de datos" /\
   exists callback orderData,
     S.saveOrderCallback s = Some callback /\
     returns (snd (callback orderData)) = false).
Proof.
  intros Hthrows.
  destruct (payment_outcome w request s)
    as [(Hfalsy & Hsnd & Horder) | [(e' & _ & Hpreference & Hsnd & Hnone & Horder)
                                   | (data & _ & _ & _ & Hways)]].
  - left. rewrite Hsnd in Hthrows. injection Hthrows as <-. auto.
  - right. left. rewrite Hsnd in Hthrows. injection Hthrows as <-. auto.
  - destruct Hways as [(Hsnd & Horder & _)
                      | (response & o & url & _ & _ & _ & _ & _ & o' & _ & _ & _ & Hsaved)].
    + right. right. left. rewrite Hsnd in Hthrows. injection Hthrows as <-. auto.
    + destruct Hsaved as [(Hsnd & callback & orderData & Hsome & _ & Hthrew) | (Hsnd & _)].
      * right. right. right. rewrite Hsnd in Hthrows. injection Hthrows as <-. eauto.
      * rewrite Hsnd in Hthrows. discriminate.
Qed.

(* A provider that is down. *)
Lemma X21_failures_of_a_payment_witness :
  (Error "Error al crear la preferencia de pago en MercadoPago"
   = Error "Payment request is required" /\ truthy widget_request = false /\
   B.order (S.builder (fst (S.executeMercadoPagoPayment outside_down widget_request
                              (S.new_service builder_config)))) = None) \/
  (B.preference_of builder_config (S.now_preference outside_down)
     (S.date_now_item outside_down) widget_request
   = Throw (Error "Error al crear la preferencia de pago en MercadoPago") /\
   B.preferenceData (S.builder (fst (S.executeMercadoPagoPayment outside_down widget_request
                                       (S.new_service builder_config)))) = None /\
   B.order (S.builder (fst (S.executeMercadoPagoPayment outside_down widget_request
                              (S.new_service builder_config)))) = None) \/
  (Error "Error al crear la preferencia de pago en MercadoPago"
   = Error "Error al crear la preferencia de pago en MercadoPago" /\
   B.order (S.builder (fst (S.executeMercadoPagoPayment outside_down widget_request
                              (S.new_service builder_config)))) = None) \/
  (Error "Error al crear la preferencia de pago en MercadoPago"
   = Error "Error al guardar la orden en la base de datos" /\
   exists callback orderData,
     S.saveOrderCallback (S.new_service builder_config) = Some callback /\
     returns (snd (callback orderData)) = false).
Proof.
  apply (X21_failures_of_a_payment outside_down widget_request
           (S.new_service builder_config)).
  reflexivity.
Defined.

(** ** processPayment *)

Lemma isValid_false_errors (data : JSValue) (v : PaymentValidator.ValidationResult) :
  PaymentValidator.validatePaymentRequest data = Return v ->
  PaymentValidator.isValid v = false ->
  PaymentValidator.errors v <> [] /\ request_valid data = false.
Proof.
  intros Hv Hinvalid. split.
  - unfold PaymentValidator.validatePaymentRequest in Hv.
    destruct (PaymentValidator.validate_customer_info data []) as [errors1|]; [|discriminate].
    cbn [bind] in Hv.
    destruct (PaymentValidator.validate_items data errors1) as [errors2|]; [|discriminate].
    injection Hv as <-. cbn in *. intros ->. discriminate.
  - destruct (request_valid data) eqn:Hvalid; [|reflexivity].
    apply PaymentValidatorProperties.validatePaymentRequest_valid_iff in Hvalid
      as (result & Hresult & Htrue).
    rewrite Hv in Hresult. injection Hresult as <-. congruence.
Qed.

(* The three errors of a payment whose request has passed validation. *)
Lemma valid_payment_errors (w : S.Outside) (request : JSValue) (s : S.Service) (e : JSError) :
  request_valid request = true ->
  snd (S.executeMercadoPagoPayment w request s) = Throw e ->
  (e = RangeError "Invalid time value" /\
   expiry (B.config (S.builder s)) (S.now_preference w) = None /\
   B.preferenceData (S.builder (fst (S.executeMercadoPagoPayment w request s))) = None /\
   B.order (S.builder (fst (S.executeMercadoPagoPayment w request s))) = None) \/
  e = Error "Error al crear la preferencia de pago en MercadoPago" \/
  e = Error "Error al guardar la orden en la base de datos".
Proof.
  intros Hvalid Hthrows.
  destruct (BP.request_valid_inv request Hvalid) as (Htruthy & _).
  pose proof (BP.preference_of_valid (B.config (S.builder s)) (S.now_preference w)
                (S.date_now_item w) request Hvalid) as Hpreference.
  destruct (payment_outcome w request s)
    as [(Hfalsy & _) | [(e' & _ & Hpreference' & Hsnd & Hnone & Horder)
                       | (data & _ & _ & _ & Hways)]].
  - congruence.
  - left. rewrite Hsnd in Hthrows. injection Hthrows as <-.
    destruct (expiry (B.config (S.builder s)) (S.now_preference w)) as [t|].
    + destruct Hpreference as [data Hdata]. congruence.
    + rewrite Hpreference in Hpreference'. injection Hpreference' as <-. auto.
  - destruct Hways as [(Hsnd & _)
                      | (response & o & url & _ & _ & _ & _ & _ & o' & _ & _ & _ & Hsaved)].
    + right. left. congruence.
    + destruct Hsaved as [(Hsnd & _) | (Hsnd & _)]; [right; right; congruence | congruence].
Qed.

(** X22: the answers of processPayment. It answers success=true, with the
    response of the payment, only for a payload that meets the constraints of
    the data model. Otherwise it answers success=false and no data: with the
    message of the error when the validator threw; with 'Datos inválidos' and
    the validator's messages, of which there is at least one, when the payload
    does not meet the constraints, the service being left as it was in both
    cases; or, for a payload that meets them, with 'Invalid time value' when
    the expiration of the preference is out of the range of Date, or with one
    of the two errors of a failed payment. *)
Theorem X22_answers_of_processPayment (w : S.Outside) (data : JSValue) (s : S.Service) :
  let r := snd (S.processPayment w data s) in
  (S.success r = true /\ S.error r = None /\ request_valid data = true /\
   exists response,
     S.data r = Some response /\
     snd (S.executeMercadoPagoPayment w data s) = Return response) \/
  (S.success r = false /\ S.data r = None /\
   ((exists e,
       PaymentValidator.validatePaymentRequest data = Throw e /\
       S.error r = Some (message_of e) /\
       fst (S.processPayment w data s) = s) \/
    (exists v,
       PaymentValidator.validatePaymentRequest data = Return v /\
       request_valid data = false /\
       S.error r = Some "Datos inválidos"%string /\
       S.details r = Some (PaymentValidator.errors v) /\
       PaymentValidator.errors v <> [] /\
       fst (S.processPayment w data s) = s) \/
    (request_valid data = true /\
     ((S.error r = Some "Invalid time value"%string /\
       expiry (B.config (S.builder s)) (S.now_preference w) = None) \/
      S.error r = Some "Error al crear la preferencia de pago en MercadoPago"%string \/
      S.error r = Some "Error al guardar la orden en la base de datos"%string)))).
Proof.
  cbv zeta. unfold S.processPayment.
  destruct (PaymentValidator.validatePaymentRequest data) as [v|e] eqn:Hv.
  2:{ right. cbn. repeat split. left. eauto. }
  destruct (PaymentValidator.isValid v) eqn:Hvalid; cbn [negb].
  2:{ destruct (isValid_false_errors data v Hv Hvalid) as [Hne Hinvalid].
      right. cbn. repeat split. right. left. exists v. auto 7. }
  assert (Hok : request_valid data = true).
  { apply PaymentValidatorProperties.validatePaymentRequest_valid_iff. eauto. }
  destruct (S.executeMercadoPagoPayment w data s) as [s' [response|e]] eqn:Hexec.
  - left. cbn. repeat split; try assumption. eauto.
  - right. cbn. repeat split. right. right. split; [assumption|].
    assert (Hthrow : snd (S.executeMercadoPagoPayment w data s) = Throw e)
      by now rewrite Hexec.
    destruct (valid_payment_errors w data s e Hok Hthrow) as [(-> & Hexpiry & _) | [-> | ->]];
      auto.
Qed.

(** X23: an expiration that is out of the range of Date is refused. For a
    payload that meets the constraints of the data model, when the time of
    the request and the configured window give an instant beyond the range of
    Date, processPayment answers success=false with the error 'Invalid time
    value', whatever the provider would answer, and the builder holds neither
    a preference nor an order. *)
Theorem X23_expiration_out_of_range_is_refused (w : S.Outside) (data : JSValue)
    (s : S.Service) :
  request_valid data = true ->
  expiry (B.config (S.builder s)) (S.now_preference w) = None ->
  snd (S.processPayment w data s)
  = {| S.success := false; S.data := None; S.error := Some "Invalid time value"%string;
       S.details := None |} /\
  B.preferenceData (S.builder (fst (S.processPayment w data s))) = None /\
  B.order (S.builder (fst (S.processPayment w data s))) = None.
Proof.
  intros Hvalid Hexpiry.
  apply PaymentValidatorProperties.validatePaymentRequest_valid_iff in Hvalid
    as Hresult. destruct Hresult as (v & Hv & Htrue).
  pose proof (BP.preference_of_valid (B.config (S.builder s)) (S.now_preference w)
                (S.date_now_item w) data Hvalid) as Hpreference.
  rewrite Hexpiry in Hpreference.
  unfold S.processPayment. rewrite Hv, Htrue. cbn [negb].
  destruct (payment_outcome w data s)
    as [(Hfalsy & _) | [(e' & _ & Hpreference' & Hsnd & Hnone & Horder)
                       | (data' & _ & Hdata' & _)]].
  - destruct (BP.request_valid_inv data Hvalid) as (Htruthy & _). congruence.
  - rewrite Hpreference in Hpreference'. injection Hpreference' as <-.
    destruct (S.executeMercadoPagoPayment w data s) as [s' answer]. cbn in *.
    subst answer. repeat split; assumption.
  - congruence.
Qed.

(* A window of 10^13 minutes. *)
Lemma X23_expiration_out_of_range_is_refused_witness :
  snd (S.processPayment outside_ok widget_request (S.new_service config_far))
  = {| S.success := false; S.data := None; S.error := Some "Invalid time value"%string;
       S.details := None |} /\
  B.preferenceData (S.builder (fst (S.processPayment outside_ok widget_request
                                      (S.new_service config_far)))) = None /\
  B.order (S.builder (fst (S.processPayment outside_ok widget_request
                             (S.new_service config_far)))) = None.
Proof.
  apply (X23_expiration_out_of_range_is_refused outside_ok widget_request
           (S.new_service config_far)); reflexivity.
Defined.

End MercadoPagoServiceProperties.
